(** * Authorization gateway (abac-rebac-poc): the decision core of the two
    FastAPI services, [opa/python/main.py] (attribute backend, OPA) and
    [openfga/python/main.py] (graph backend, OpenFGA).

    The handlers are embedded as functions in a small state-and-exception
    monad.  Python values are the JSON fragment the handlers touch.  In the
    attribute backend every outbound HTTP call is answered by the world, so
    a statement about all worlds is about every behaviour of Hydra and OPA.
    In the graph backend the OpenFGA server is a store of tuples behind the
    SDK, with its way of answering a check left open.  The debug prints of
    the source are left out. *)

From Stdlib Require Import Ascii String.
From stdpp Require Import gmap strings list pretty.

Set Warnings "-register-all".
Set Default Proof Using "Type".

Local Open Scope string_scope.
Local Open Scope list_scope.
Local Open Scope Z_scope.

(** ** Python strings *)

(** A [str] is held as its UTF-8 text, a character of the [string] being a
    byte.  Searching and replacing an ASCII text is the same on bytes as on
    characters; white space is recognised in its UTF-8 form. *)
Module PyStr.

(** A byte that goes on with a character begun before it: [10xxxxxx]. *)
Definition is_continuation (c : ascii) : bool :=
  let n := nat_of_ascii c in
  ((128 <=? n) && (n <=? 191))%nat.

(** [len(s)]: one for each byte that begins a character. *)
Fixpoint len (s : string) : nat :=
  match s with
  | EmptyString => 0%nat
  | String c rest => ((if is_continuation c then 0 else 1) + len rest)%nat
  end.

(** The bytes at the head of [s] that go on with a character. *)
Fixpoint continuation (s : string) : string :=
  match s with
  | EmptyString => EmptyString
  | String c rest => if is_continuation c then String c (continuation rest) else EmptyString
  end.

(** [s[n]] for [0 <= n < len(s)]: the character, all its bytes. *)
Fixpoint char_at (n : nat) (s : string) : option string :=
  match s with
  | EmptyString => None
  | String c rest =>
      if is_continuation c then char_at n rest
      else
        match n with
        | O => Some (String c (continuation rest))
        | S k => char_at k rest
        end
  end.

(** [old in s] for two strings. *)
Fixpoint contains (old s : string) : bool :=
  String.prefix old s ||
  match s with
  | EmptyString => false
  | String _ rest => contains old rest
  end.

(** [s.replace(old, new)] for a non-empty [old]: scan from the left; at an
    occurrence emit [new] and jump over it, otherwise copy one character.
    [skip] counts the characters of the current occurrence still to jump. *)
Fixpoint replace_from (old new : string) (skip : nat) (s : string) : string :=
  match s with
  | EmptyString => EmptyString
  | String c rest =>
      match skip with
      | S k => replace_from old new k rest
      | O =>
          if String.prefix old s
          then new +:+ replace_from old new (Nat.pred (String.length old)) rest
          else String c (replace_from old new 0%nat rest)
      end
  end.

Definition replace (old new s : string) : string := replace_from old new 0%nat s.

(** [s.lower()] on the ASCII letters; the other characters are left as
    they are.  (None of them becomes a run of ASCII letters, so a search
    for an ASCII text in the result finds what Python finds.) *)
Definition lower_ascii (c : ascii) : ascii :=
  let n := nat_of_ascii c in
  if ((65 <=? n) && (n <=? 90))%nat then ascii_of_nat (n + 32) else c.

Fixpoint lower (s : string) : string :=
  match s with
  | EmptyString => EmptyString
  | String c rest => String (lower_ascii c) (lower rest)
  end.

(** [str.isspace] on the characters of one byte: tab, LF, VT, FF, CR, the
    separators 28..31 and the space. *)
Definition is_space (c : ascii) : bool :=
  let n := nat_of_ascii c in
  (((9 <=? n) && (n <=? 13)) || ((28 <=? n) && (n <=? 32)))%nat.

(** [str.isspace] on the characters of two bytes: U+0085 (C2 85) and
    U+00A0 (C2 A0). *)
Definition is_space2 (c1 c2 : ascii) : bool :=
  let n1 := nat_of_ascii c1 in
  let n2 := nat_of_ascii c2 in
  ((n1 =? 194) && ((n2 =? 133) || (n2 =? 160)))%nat.

(** [str.isspace] on the characters of three bytes: U+1680 (E1 9A 80),
    U+2000..U+200A (E2 80 80..8A), U+2028, U+2029 and U+202F (E2 80 A8, A9,
    AF), U+205F (E2 81 9F) and U+3000 (E3 80 80). *)
Definition is_space3 (c1 c2 c3 : ascii) : bool :=
  let n1 := nat_of_ascii c1 in
  let n2 := nat_of_ascii c2 in
  let n3 := nat_of_ascii c3 in
  (((n1 =? 225) && (n2 =? 154) && (n3 =? 128)) ||
   ((n1 =? 226) && (n2 =? 128) &&
      (((128 <=? n3) && (n3 <=? 138)) || (n3 =? 168) || (n3 =? 169) || (n3 =? 175))) ||
   ((n1 =? 226) && (n2 =? 129) && (n3 =? 159)) ||
   ((n1 =? 227) && (n2 =? 128) && (n3 =? 128)))%nat.

(** [s.lstrip()]: the leading white-space characters go, whatever their
    width. *)
Fixpoint lstrip (s : string) : string :=
  match s with
  | EmptyString => EmptyString
  | String c1 r1 =>
      if is_space c1 then lstrip r1
      else
        match r1 with
        | EmptyString => s
        | String c2 r2 =>
            if is_space2 c1 c2 then lstrip r2
            else
              match r2 with
              | EmptyString => s
              | String c3 r3 => if is_space3 c1 c2 c3 then lstrip r3 else s
              end
        end
  end.

(** [s] is white space from end to end, or empty. *)
Definition blank (s : string) : bool :=
  match lstrip s with
  | EmptyString => true
  | _ => false
  end.

(** [s.rstrip()]: the text up to the first place from which all is white
    space. *)
Fixpoint rstrip (s : string) : string :=
  match s with
  | EmptyString => EmptyString
  | String c rest => if blank s then EmptyString else String c (rstrip rest)
  end.

(** [s.strip()] *)
Definition strip (s : string) : string := rstrip (lstrip s).

(** A byte a white-space character can begin with. *)
Definition opens_space (c : ascii) : bool :=
  let n := nat_of_ascii c in
  (is_space c || (n =? 194) || (n =? 225) || (n =? 226) || (n =? 227))%nat.

(** The first step of [lstrip] on a string: what is left after its first
    character if that is white space, the string itself otherwise. *)
Inductive head_of : string → string → Prop :=
  | head_empty : head_of "" ""
  | head_one c1 r1 : is_space c1 = true → head_of (String c1 r1) r1
  | head_two c1 c2 r2 :
      is_space c1 = false → is_space2 c1 c2 = true →
      head_of (String c1 (String c2 r2)) r2
  | head_three c1 c2 c3 r3 :
      is_space c1 = false → is_space2 c1 c2 = false → is_space3 c1 c2 c3 = true →
      head_of (String c1 (String c2 (String c3 r3))) r3
  | head_none1 c1 : is_space c1 = false → head_of (String c1 "") (String c1 "")
  | head_none2 c1 c2 :
      is_space c1 = false → is_space2 c1 c2 = false →
      head_of (String c1 (String c2 "")) (String c1 (String c2 ""))
  | head_none3 c1 c2 c3 r3 :
      is_space c1 = false → is_space2 c1 c2 = false → is_space3 c1 c2 c3 = false →
      head_of (String c1 (String c2 (String c3 r3))) (String c1 (String c2 (String c3 r3))).

(** A text of white-space characters only. *)
Inductive spaces : string → Prop :=
  | spaces_nil : spaces ""
  | spaces_one c s : is_space c = true → spaces s → spaces (String c s)
  | spaces_two c1 c2 s :
      is_space2 c1 c2 = true → spaces s → spaces (String c1 (String c2 s))
  | spaces_three c1 c2 c3 s :
      is_space3 c1 c2 c3 = true → spaces s →
      spaces (String c1 (String c2 (String c3 s))).

(** U+00A0, the no-break space. *)
Definition nbsp : string := String "194" (String "160" "").

End PyStr.

(** ** Python values *)

(** Hashable values used as dictionary keys.  [True == 1] and [False == 0]
    also as keys, so a [bool] key is the integer it equals. *)
Inductive pykey :=
  | KNone
  | KInt (z : Z)
  | KStr (s : string).

Global Instance pykey_eq_dec : EqDecision pykey.
Proof. solve_decision. Defined.

Global Instance pykey_countable : Countable pykey.
Proof.
  refine (inj_countable'
    (fun k => match k with
              | KNone => inl ()
              | KInt z => inr (inl z)
              | KStr s => inr (inr s)
              end)
    (fun x => match x with
              | inl _ => KNone
              | inr (inl z) => KInt z
              | inr (inr s) => KStr s
              end) _).
  by intros [].
Defined.

(** What [json()] returns and what the handlers build from it: [None],
    [bool], [int], [str], [list] and [dict].  (JSON numbers with a fraction
    are left out: no handler computes with a number.) *)
Inductive pyval :=
  | PNone
  | PBool (b : bool)
  | PInt (z : Z)
  | PStr (s : string)
  | PList (l : list pyval)
  | PDict (d : gmap pykey pyval).

Abbreviation pydict := (gmap pykey pyval).

(** Exceptions: FastAPI's [HTTPException(status_code, detail)], and every
    other [Exception] with the text [str(e)] gives. *)
Inductive exn :=
  | HTTPException (status_code : Z) (detail : string)
  | Exception (msg : string).

(** [str(e)]; for [HTTPException] this is Starlette's [__str__]. *)
Definition str_exn (e : exn) : string :=
  match e with
  | HTTPException c d => pretty c +:+ ": " +:+ d
  | Exception m => m
  end.

Inductive outcome (A : Type) :=
  | Ok (a : A)
  | Raise (e : exn).
Arguments Ok {A} a.
Arguments Raise {A} e.

Global Instance outcome_ret : MRet outcome := fun A a => Ok a.
Global Instance outcome_bind : MBind outcome := fun A B f m =>
  match m with
  | Ok a => f a
  | Raise e => Raise e
  end.

Module Py.

Definition type_name (v : pyval) : string :=
  match v with
  | PNone => "NoneType"
  | PBool _ => "bool"
  | PInt _ => "int"
  | PStr _ => "str"
  | PList _ => "list"
  | PDict _ => "dict"
  end.

Definition TypeError (what : string) : exn := Exception ("TypeError: " +:+ what).

(** [bool(v)] *)
Definition truthy (v : pyval) : bool :=
  match v with
  | PNone => false
  | PBool b => b
  | PInt z => negb (z =? 0)%Z
  | PStr s => negb (String.eqb s "")
  | PList l => match l with [] => false | _ => true end
  | PDict d => negb (bool_decide (d = ∅))
  end.

(** [a or b] *)
Definition or_ (a b : pyval) : pyval := if truthy a then a else b.

Definition as_int (v : pyval) : option Z :=
  match v with
  | PBool b => Some (if b then 1 else 0)
  | PInt z => Some z
  | _ => None
  end.

(** [hash(v)] succeeds: the key [v] stands for; [None] for [list] and
    [dict], which are unhashable. *)
Definition key_of (v : pyval) : option pykey :=
  match v with
  | PNone => Some KNone
  | PBool b => Some (KInt (if b then 1 else 0))
  | PInt z => Some (KInt z)
  | PStr s => Some (KStr s)
  | PList _ | PDict _ => None
  end.

(** [a == b] *)
Fixpoint eq (a b : pyval) {struct a} : bool :=
  match a, b with
  | PNone, PNone => true
  | PStr s, PStr t => bool_decide (s = t)
  | PList l, PList m =>
      (fix go (l m : list pyval) : bool :=
         match l, m with
         | [], [] => true
         | x :: l', y :: m' => eq x y && go l' m'
         | _, _ => false
         end) l m
  | PDict d, PDict e =>
      bool_decide (dom d = dom e) &&
      map_fold (fun k v acc =>
                  acc && match e !! k with Some w => eq v w | None => false end)
               true d
  | (PBool _ | PInt _), (PBool _ | PInt _) => bool_decide (as_int a = as_int b)
  | _, _ => false
  end.

(** [d.get(key, default)] with a string literal as key; a value that is
    not a [dict] has no [get]. *)
Definition get (v : pyval) (key : string) (dflt : pyval) : outcome pyval :=
  match v with
  | PDict d => Ok (default dflt (d !! KStr key))
  | _ => Raise (Exception ("'" +:+ type_name v +:+ "' object has no attribute 'get'"))
  end.

(** [key in c] *)
Definition contains (key c : pyval) : outcome bool :=
  match c with
  | PDict d =>
      match key_of key with
      | Some k => Ok (bool_decide (is_Some (d !! k)))
      | None => Raise (TypeError ("unhashable type: '" +:+ type_name key +:+ "'"))
      end
  | PList l => Ok (existsb (eq key) l)
  | PStr s =>
      match key with
      | PStr k => Ok (PyStr.contains k s)
      | _ => Raise (TypeError "'in <string>' requires string as left operand")
      end
  | _ => Raise (TypeError ("argument of type '" +:+ type_name c +:+ "' is not iterable"))
  end.

(** The position an integer subscript denotes in a sequence of [len]
    elements: negative subscripts count from the end. *)
Definition index (len : nat) (i : Z) : option nat :=
  let j := if (i <? 0)%Z then (i + Z.of_nat len)%Z else i in
  if ((0 <=? j) && (j <? Z.of_nat len))%Z then Some (Z.to_nat j) else None.

Definition IndexError : exn := Exception "IndexError: index out of range".

(** [c[key]] *)
Definition getitem (c key : pyval) : outcome pyval :=
  match c with
  | PDict d =>
      match key_of key with
      | Some k =>
          match d !! k with
          | Some v => Ok v
          | None => Raise (Exception "KeyError")
          end
      | None => Raise (TypeError ("unhashable type: '" +:+ type_name key +:+ "'"))
      end
  | PList l =>
      match as_int key with
      | Some i =>
          match index (length l) i ≫= fun n => l !! n with
          | Some v => Ok v
          | None => Raise IndexError
          end
      | None => Raise (TypeError "list indices must be integers or slices")
      end
  | PStr s =>
      match as_int key with
      | Some i =>
          match index (PyStr.len s) i ≫= fun n => PyStr.char_at n s with
          | Some ch => Ok (PStr ch)
          | None => Raise IndexError
          end
      | None => Raise (TypeError "string indices must be integers")
      end
  | _ => Raise (TypeError ("'" +:+ type_name c +:+ "' object is not subscriptable"))
  end.

(** [c[key] = v]: the container after the assignment. *)
Definition setitem (c key v : pyval) : outcome pyval :=
  match c with
  | PDict d =>
      match key_of key with
      | Some k => Ok (PDict (<[k := v]> d))
      | None => Raise (TypeError ("unhashable type: '" +:+ type_name key +:+ "'"))
      end
  | PList l =>
      match as_int key with
      | Some i =>
          match index (length l) i with
          | Some n => Ok (PList (<[n := v]> l))
          | None => Raise IndexError
          end
      | None => Raise (TypeError "list indices must be integers or slices")
      end
  | _ => Raise (TypeError ("'" +:+ type_name c +:+
                           "' object does not support item assignment"))
  end.

End Py.

(** ** Handlers: state of the world and exceptions *)

(** A handler runs against a world [W] (what the network will answer, what
    was sent, the process globals) and returns or raises. *)
Definition M (W A : Type) : Type := W → outcome A * W.

Global Instance M_ret {W} : MRet (M W) := fun A a w => (Ok a, w).
Global Instance M_bind {W} : MBind (M W) := fun A B f m w =>
  match m w with
  | (Ok a, w') => f a w'
  | (Raise e, w') => (Raise e, w')
  end.

(** [raise e] *)
Definition raise {W A} (e : exn) : M W A := fun w => (Raise e, w).

(** A pure Python operation inside a handler. *)
Definition lift {W A} (o : outcome A) : M W A := fun w => (o, w).

(** [try: body except Exception as e: handler(e)] *)
Definition try_except {W A} (body : M W A) (handler : exn → M W A) : M W A :=
  fun w =>
    match body w with
    | (Ok a, w') => (Ok a, w')
    | (Raise e, w') => handler e w'
    end.

(** [status_code not in [200, 204]] *)
Definition not_200_204 (status : Z) : bool :=
  negb (bool_decide (status ∈ [200; 204]%Z)).

(** An httpx response: [json] is what [.json()] returns or raises. *)
Record response := {
  status_code : Z;
  json : outcome pyval;
  text : string
}.

(** What the network does with one call: answer, or raise in the client. *)
Inductive reply :=
  | Answer (r : response)
  | Fails (msg : string).

(** The dict [auth_middleware] returns, in both services. *)
Record identity := {
  user_id : pyval;
  client_id : pyval;
  token : string;
  scope : pyval
}.

(** Python's [str()], used by the f-strings that interpolate a value taken
    from a JSON document.  It is a parameter of the handlers: no statement
    below depends on the text it produces. *)
Class Str := str : pyval → string.

(** [str()] on the scalars, for the examples; a [list] or [dict] is not
    rendered. *)
Definition scalar_str : Str := fun v =>
  match v with
  | PNone => "None"
  | PBool true => "True"
  | PBool false => "False"
  | PInt z => pretty z
  | PStr s => s
  | PList _ | PDict _ => ""
  end.

(** The subject of a verification that succeeded. *)
Definition user_id_of (o : outcome identity) : option pyval :=
  match o with
  | Ok verified => Some (user_id verified)
  | Raise _ => None
  end.

(** Two introspection records for the examples: an active token with a
    principal name, and one whose principal name is empty. *)
Definition named_record : pydict :=
  {[ KStr "active" := PBool true;
     KStr "preferred_username" := PStr "alice";
     KStr "client_id" := PStr "svc-1" ]}.

Definition unnamed_record : pydict :=
  {[ KStr "active" := PBool true;
     KStr "preferred_username" := PStr "";
     KStr "client_id" := PStr "svc-1" ]}.

(** Hydra answers 200 with the given record. *)
Definition introspected_as (token_info : pydict) : response :=
  {| status_code := 200; json := Ok (PDict token_info); text := "" |}.

(** ** Attribute backend: [opa/python/main.py] *)

Module Opa.

(** The outbound calls of the service.  The URL of each is fixed by the
    source, so a call is named by its endpoint and carries its payload. *)
Inductive request :=
  | HydraIntrospect (token : string)
      (* POST HYDRA_INTROSPECT_URL, data={"token": token} *)
  | OpaAllow (body : pyval)
      (* POST {OPA_URL}/v1/data/authz/allow, json=body *)
  | OpaGetData (section : string)
      (* GET {OPA_URL}/v1/data/{section} *)
  | OpaPutData (section : string) (doc : pyval)
      (* PUT {OPA_URL}/v1/data/{section}, json=doc *)
  | OpaPutPolicy (policy_name : pyval) (content : pyval).
      (* PUT {OPA_URL}/v1/policies/{policy_name}, text/plain, data=content *)

Record world := {
  replies : list reply;   (* the answers to the calls still to come *)
  sent : list request;    (* the calls made so far, oldest first *)
  utcnow : string         (* datetime.utcnow().isoformat() *)
}.

Abbreviation H := (M world).

(** [await client.post/get/put(...)]: the call is recorded and the next
    reply consumed; with no reply left the connection fails. *)
Definition call (rq : request) : H response := fun w =>
  let log := sent w ++ [rq] in
  match replies w with
  | Answer r :: rest =>
      (Ok r, {| replies := rest; sent := log; utcnow := utcnow w |})
  | Fails msg :: rest =>
      (Raise (Exception msg), {| replies := rest; sent := log; utcnow := utcnow w |})
  | [] =>
      (Raise (Exception "All connection attempts failed"),
       {| replies := []; sent := log; utcnow := utcnow w |})
  end.

Definition now : H string := fun w => (Ok (utcnow w), w).

Definition ENDPOINT_ACTIONS : gmap string string :=
  list_to_map [("GET", "read"); ("POST", "create"); ("PUT", "update");
               ("PATCH", "update"); ("DELETE", "delete")].

Definition auth_middleware (authorization : option string) : H identity :=
  match authorization with
  | None | Some "" => raise (HTTPException 401 "Missing token")
  | Some header =>
      try_except
        (let token := PyStr.replace "Bearer " "" header in
         introspect_response ← call (HydraIntrospect token);
         if negb (status_code introspect_response =? 200)%Z
         then raise (HTTPException 401 "Token introspection failed")
         else
           token_info ← lift (json introspect_response);
           active ← lift (Py.get token_info "active" (PBool false));
           if negb (Py.truthy active)
           then raise (HTTPException 401 "Token is not active")
           else
             user_id ← lift (Py.get token_info "client_id" (PStr "unknown"));
             client_id ← lift (Py.get token_info "client_id" (PStr "unknown"));
             scope ← lift (Py.get token_info "scope" (PStr ""));
             mret {| user_id := user_id; client_id := client_id;
                     token := token; scope := scope |})
        (fun e =>
           match e with
           | HTTPException _ _ => raise e
           | Exception _ => raise (HTTPException 401 ("Invalid token: " +:+ str_exn e))
           end)
  end.

(** The decision input [check_authorization] builds. *)
Definition policy_input (user_id : pyval) (resource_id method timestamp : string)
    (context : option pydict) : pydict :=
  list_to_map
    [(KStr "user", user_id);
     (KStr "resource", PStr resource_id);
     (KStr "action", PStr (default (PyStr.lower method) (ENDPOINT_ACTIONS !! method)));
     (KStr "method", PStr method);
     (KStr "timestamp", PStr timestamp);
     (KStr "context", PDict (default ∅ context))].

Definition check_authorization (user_id : pyval) (resource_id method : string)
    (context : option pydict) : H pyval :=
  try_except
    (timestamp ← now;
     let input := policy_input user_id resource_id method timestamp context in
     opa_response ← call (OpaAllow (PDict {[ KStr "input" := PDict input ]}));
     if negb (status_code opa_response =? 200)%Z
     then mret (PBool false)
     else
       result ← lift (json opa_response);
       allowed ← lift (Py.get result "result" (PBool false));
       mret allowed)
    (fun _ => mret (PBool false)).

(** [GET /resources/{resource_id}] *)
Definition get_resource (resource_id : string) (user : identity) : H pyval :=
  let context : pydict :=
    list_to_map [(KStr "resource_type", PStr "document");
                 (KStr "sensitivity_level", PStr "normal");
                 (KStr "department", PStr "engineering")] in
  allowed ← check_authorization (user_id user) resource_id "GET" (Some context);
  if negb (Py.truthy allowed)
  then raise (HTTPException 403 "Access denied")
  else
    mret (PDict (list_to_map
      [(KStr "resource_id", PStr resource_id);
       (KStr "access", PStr "granted");
       (KStr "user", user_id user);
       (KStr "action", PStr "read");
       (KStr "context", PDict context)])).

(** The context of a grant, before the [action] key is added. *)
Definition grant_context (request_body : pydict) : pydict :=
  list_to_map
    [(KStr "resource_type", PStr "document");
     (KStr "grant_type", PStr "permission_delegation");
     (KStr "target_user", default (PStr "unknown") (request_body !! KStr "user"));
     (KStr "permission_level", default (PStr "read") (request_body !! KStr "relation"));
     (KStr "department", PStr "engineering")].

(** Lines 208-213: the three statements that add the permission to the
    section just read.  Python mutates the nested objects in place; here
    each changed object is stored back into its container. *)
Definition add_permission (current_permissions target_user : pyval)
    (resource_id : string) (permission : pyval) : outcome pyval :=
  known_user ← Py.contains target_user current_permissions;
  current_permissions ←
    (if (known_user : bool) then Ok current_permissions
     else Py.setitem current_permissions target_user (PDict ∅));
  of_user ← Py.getitem current_permissions target_user;
  known_resource ← Py.contains (PStr resource_id) of_user;
  of_user ←
    (if (known_resource : bool) then Ok of_user
     else Py.setitem of_user (PStr resource_id) (PDict ∅));
  of_resource ← Py.getitem of_user (PStr resource_id);
  of_resource ← Py.setitem of_resource permission (PBool true);
  of_user ← Py.setitem of_user (PStr resource_id) of_resource;
  Py.setitem current_permissions target_user of_user.

(** [POST /resources/{resource_id}/grant] *)
Definition grant_access (resource_id : string) (request_body : pydict)
    (user : identity) : H pyval :=
  let context := grant_context request_body in
  allowed ← check_authorization (user_id user) resource_id "POST"
              (Some (<[KStr "action" := PStr "grant_permission"]> context));
  if negb (Py.truthy allowed)
  then raise (HTTPException 403 "Only resource administrators can grant access")
  else
    let target_user := default PNone (request_body !! KStr "user") in
    let permission := default (PStr "read") (request_body !! KStr "relation") in
    try_except
      (current_data_response ← call (OpaGetData "permissions");
       current_permissions ←
         (if (status_code current_data_response =? 200)%Z
          then body ← lift (json current_data_response);
               lift (Py.get body "result" (PDict ∅))
          else mret (PDict ∅));
       current_permissions ←
         lift (add_permission current_permissions target_user resource_id permission);
       update_response ← call (OpaPutData "permissions" current_permissions);
       if not_200_204 (status_code update_response)
       then raise (Exception ("OPA update failed: " +:+ text update_response))
       else
         mret (PDict (list_to_map
           [(KStr "message", PStr "Access granted successfully");
            (KStr "granted_to", target_user);
            (KStr "permission", permission);
            (KStr "resource", PStr resource_id);
            (KStr "context", PDict context)])))
      (fun _ => raise (HTTPException 500 "Failed to grant access")).

(** One block of [update_permissions]:
    [if name in request_body: await client.put(.../name, json=request_body[name]);
     updated_sections.append(name)]. *)
Definition update_section (name : string) (request_body : pydict)
    (updated_sections : list pyval) : H (list pyval) :=
  match request_body !! KStr name with
  | Some doc =>
      _ ← call (OpaPutData name doc);
      mret (updated_sections ++ [PStr name])
  | None => mret updated_sections
  end.

(** [POST /admin/permissions] *)
Definition update_permissions (request_body : pydict) : H pyval :=
  try_except
    (updated_sections ← update_section "permissions" request_body [];
     updated_sections ← update_section "group_permissions" request_body updated_sections;
     updated_sections ← update_section "users" request_body updated_sections;
     updated_sections ← update_section "organizations" request_body updated_sections;
     updated_sections ← update_section "resources" request_body updated_sections;
     timestamp ← now;
     mret (PDict (list_to_map
       [(KStr "message", PStr "Permissions updated successfully");
        (KStr "updated_sections", PList updated_sections);
        (KStr "timestamp", PStr timestamp)])))
    (fun e => raise (HTTPException 500 ("Failed to update permissions: " +:+ str_exn e))).

(** What httpx makes of [data=...] when the request is built and handed to
    the async client: a [str] is the body as it is and a [dict] goes as
    form fields; a number or a boolean is refused with [TypeError], and a
    list, taken for a synchronous stream of bytes, is refused by the async
    client.  When it raises, nothing has been sent. *)
Definition request_data (data : pyval) : outcome pyval :=
  match data with
  | PStr _ | PDict _ => Ok data
  | PList _ =>
      Raise (Exception "Attempted to send an sync request with an AsyncClient instance.")
  | _ =>
      Raise (Exception
        ("Unexpected type for 'content', <class '" +:+ Py.type_name data +:+ "'>"))
  end.

(** [POST /admin/policy] *)
Definition update_policy `{Str} (request_body : pydict) : H pyval :=
  try_except
    (let policy_name := default (PStr "authz") (request_body !! KStr "name") in
     let policy_content := default PNone (request_body !! KStr "policy") in
     if negb (Py.truthy policy_content)
     then raise (HTTPException 400 "Policy content is required")
     else
       policy_content ← lift (request_data policy_content);
       response ← call (OpaPutPolicy policy_name policy_content);
       if not_200_204 (status_code response)
       then raise (Exception ("Policy update failed: " +:+ text response))
       else
         timestamp ← now;
         mret (PDict (list_to_map
           [(KStr "message",
             PStr ("Policy '" +:+ str policy_name +:+ "' updated successfully"));
            (KStr "timestamp", PStr timestamp)])))
    (fun e => raise (HTTPException 500 ("Failed to update policy: " +:+ str_exn e))).

(** The worlds and inputs of the examples. *)
Definition quiet : world := {| replies := []; sent := []; utcnow := "2024-05-01T12:00:00" |}.

Definition answer (status : Z) (body : pyval) : reply :=
  Answer {| status_code := status; json := Ok body; text := "" |}.

Definition alice : identity :=
  {| user_id := PStr "alice"; client_id := PStr "alice"; token := "t0"; scope := PStr "" |}.

Definition grant_to_bob : pydict :=
  {[ KStr "user" := PStr "bob"; KStr "relation" := PStr "write" ]}.

(** A world for a grant: the PDP allows it, holds one permission of [bob]
    and acknowledges the write. *)
Definition bob_reads : list reply :=
  [ answer 200 (PDict {[ KStr "result" := PBool true ]});
    answer 200 (PDict {[ KStr "result" :=
      PDict {[ KStr "bob" := PDict {[ KStr "doc1" := PDict {[ KStr "read" := PBool true ]} ]} ]} ]});
    answer 204 PNone ].

(** The PDP allows the grant, refuses the read with 503 and acknowledges the
    write. *)
Definition read_refused : world :=
  {| replies := [ answer 200 (PDict {[ KStr "result" := PBool true ]});
                  answer 503 PNone;
                  answer 204 PNone ];
     sent := []; utcnow := "2024-05-01T12:00:00" |}.

(** *** Vocabulary of the statements about this service *)

(** The world after one call: the request logged, one reply consumed. *)
Definition after_call (rq : request) (w : world) : world :=
  {| replies := tail (replies w); sent := sent w ++ [rq]; utcnow := utcnow w |}.

(** The calls a handler run from [w] has added to the log. *)
Definition calls_from (w w' : world) : list request :=
  drop (length (sent w)) (sent w').

(** A handler only adds to the log of calls. *)
Definition growing {A} (m : H A) : Prop :=
  ∀ w, sent w `prefix_of` sent (snd (m w)).

(** The decision input a request to the PDP's [authz/allow] carries. *)
Definition decision_input (rq : request) : option pydict :=
  match rq with
  | OpaAllow (PDict body) =>
      match body !! KStr "input" with
      | Some (PDict input) => Some input
      | _ => None
      end
  | _ => None
  end.

(** The body of an answer has a [result] field. *)
Definition has_result (v : pyval) : bool :=
  match v with
  | PDict d => bool_decide (is_Some (d !! KStr "result"))
  | _ => false
  end.

(** The ways the PDP can fail to give a verdict to the next call: it is
    unreachable or the call raises, it answers with a status other than
    200, or it answers 200 with a body that cannot be decoded or has no
    [result]. *)
Inductive pdp_fails : list reply → Prop :=
  | pdp_unreachable : pdp_fails []
  | pdp_raises msg rest : pdp_fails (Fails msg :: rest)
  | pdp_not_200 r rest : status_code r ≠ 200 → pdp_fails (Answer r :: rest)
  | pdp_undecodable r e rest : json r = Raise e → pdp_fails (Answer r :: rest)
  | pdp_no_result r v rest :
      json r = Ok v → has_result v = false → pdp_fails (Answer r :: rest).

(** What [check_authorization] makes of the PDP's reply. *)
Definition verdict (o : option reply) : pyval :=
  match o with
  | Some (Answer r) =>
      if (status_code r =? 200)%Z
      then match json r ≫= fun result => Py.get result "result" (PBool false) with
           | Ok allowed => allowed
           | Raise _ => PBool false
           end
      else PBool false
  | _ => PBool false
  end.

(** The call raises: the client fails or nothing answers. *)
Definition raises (o : option reply) : bool :=
  match o with
  | Some (Answer _) => false
  | _ => true
  end.

(** The call is answered with status 200 or 204. *)
Definition acknowledged (o : option reply) : bool :=
  match o with
  | Some (Answer r) => negb (not_200_204 (status_code r))
  | _ => false
  end.

(** The five sections of [update_permissions], in the order of the source. *)
Definition SECTIONS : list string :=
  ["permissions"; "group_permissions"; "users"; "organizations"; "resources"].

(** The documents the PDP holds, by section, and what a request does to
    them: [PUT /v1/data/{section}] replaces that section. *)
Definition opa_apply (data : gmap string pyval) (rq : request) : gmap string pyval :=
  match rq with
  | OpaPutData section doc => <[section := doc]> data
  | _ => data
  end.

(** The blocks of [update_permissions] as a loop over the section names,
    with the rest of the handler as [k]. *)
Fixpoint update_sections {A} (names : list string) (request_body : pydict)
    (updated_sections : list pyval) (k : list pyval → H A) : H A :=
  match names with
  | [] => k updated_sections
  | name :: names =>
      updated_sections ← update_section name request_body updated_sections;
      update_sections names request_body updated_sections k
  end.

(** The writes [update_permissions] is to make for a request body: one
    [PUT] for each of the names the body has, in the order of the names. *)
Definition writes (request_body : pydict) (names : list string) : list request :=
  omap (fun name => OpaPutData name <$> request_body !! KStr name) names.

Definition section_writes (request_body : pydict) : list request :=
  writes request_body SECTIONS.

(** What the PDP holds after it has applied some requests. *)
Definition opa_apply_all (data : gmap string pyval) (rqs : list request)
    : gmap string pyval :=
  foldl opa_apply data rqs.

(** What [grant_access] takes as the current section from the reply to its
    read of [/v1/data/permissions]: with a status other than 200, the empty
    dict. *)
Definition read_section (o : option reply) : outcome pyval :=
  match o with
  | Some (Answer r) =>
      if (status_code r =? 200)%Z
      then json r ≫= fun body => Py.get body "result" (PDict ∅)
      else Ok (PDict ∅)
  | Some (Fails msg) => Raise (Exception msg)
  | None => Raise (Exception "All connection attempts failed")
  end.

(** The success response of [grant_access]. *)
Definition granted (resource_id : string) (request_body : pydict) : pyval :=
  PDict (list_to_map
    [(KStr "message", PStr "Access granted successfully");
     (KStr "granted_to", default PNone (request_body !! KStr "user"));
     (KStr "permission", default (PStr "read") (request_body !! KStr "relation"));
     (KStr "resource", PStr resource_id);
     (KStr "context", PDict (grant_context request_body))]).

(** The entry of a permissions document [{user: {resource: {permission: v}}}]. *)
Definition entry (section : pyval) (user resource permission : pykey) : option pyval :=
  match section with
  | PDict users =>
      match users !! user with
      | Some (PDict resources) =>
          match resources !! resource with
          | Some (PDict permissions) => permissions !! permission
          | _ => None
          end
      | _ => None
      end
  | _ => None
  end.

(** [section[user][resource][permission]] *)
Definition read_back (section user : pyval) (resource : string) (permission : pyval)
    : outcome pyval :=
  of_user ← Py.getitem section user;
  of_resource ← Py.getitem of_user (PStr resource);
  Py.getitem of_resource permission.

(** A permissions document: a dict of dicts of dicts. *)
Definition permissions_document (section : pyval) : Prop :=
  ∃ users, section = PDict users ∧
    ∀ u of_user, users !! u = Some of_user →
      ∃ resources, of_user = PDict resources ∧
        ∀ r of_resource, resources !! r = Some of_resource →
          ∃ permissions, of_resource = PDict permissions.

(** A dict as [json()] gives it: every key is a string, and every value is
    as [inner] says. *)
Definition json_dict (inner : pyval → Prop) (v : pyval) : Prop :=
  ∃ d, v = PDict d ∧
    (∀ k x, d !! k = Some x → ∃ s, k = KStr s) ∧
    (∀ k x, d !! k = Some x → inner x).

(** A permissions document with the keys of JSON: strings for the users,
    the resources and the permissions. *)
Definition json_permissions_document : pyval → Prop :=
  json_dict (json_dict (json_dict (fun _ => True))).

(** The section a grant makes when it starts from nothing. *)
Definition grant_alone (target_user resource_id permission : string) : pyval :=
  PDict {[ KStr target_user :=
    PDict {[ KStr resource_id := PDict {[ KStr permission := PBool true ]} ]} ]}.

(** The data of a PDP that holds one permission: [bob] may read [doc1]. *)
Definition bob_reads_doc1 : gmap string pyval :=
  {[ "permissions" :=
       PDict {[ KStr "bob" := PDict {[ KStr "doc1" := PDict {[ KStr "read" := PBool true ]} ]} ]} ]}.

(** *** The other protected operations *)

(** The context [update_resource] builds from the request body. *)
Definition update_context `{Str} (request_body : pydict) : pydict :=
  list_to_map
    [(KStr "resource_type", PStr "document");
     (KStr "sensitivity_level", default (PStr "normal") (request_body !! KStr "sensitivity"));
     (KStr "content_size", PInt (Z.of_nat (PyStr.len (str (PDict request_body)))));
     (KStr "modification_type", PStr "content_update");
     (KStr "department", PStr "engineering")].

(** [PUT /resources/{resource_id}] *)
Definition update_resource `{Str} (resource_id : string) (request_body : pydict)
    (user : identity) : H pyval :=
  let context := update_context request_body in
  allowed ← check_authorization (user_id user) resource_id "PUT" (Some context);
  if negb (Py.truthy allowed)
  then raise (HTTPException 403 "Access denied")
  else
    mret (PDict (list_to_map
      [(KStr "resource_id", PStr resource_id);
       (KStr "action", PStr "updated");
       (KStr "user", user_id user);
       (KStr "context", PDict context)])).

Definition delete_context : pydict :=
  list_to_map
    [(KStr "resource_type", PStr "document");
     (KStr "has_dependencies", PBool false);
     (KStr "backup_available", PBool true);
     (KStr "deletion_reason", PStr "user_request");
     (KStr "department", PStr "engineering")].

(** [DELETE /resources/{resource_id}] *)
Definition delete_resource (resource_id : string) (user : identity) : H pyval :=
  let context := delete_context in
  allowed ← check_authorization (user_id user) resource_id "DELETE" (Some context);
  if negb (Py.truthy allowed)
  then raise (HTTPException 403 "Access denied")
  else
    mret (PDict (list_to_map
      [(KStr "resource_id", PStr resource_id);
       (KStr "action", PStr "deleted");
       (KStr "user", user_id user);
       (KStr "context", PDict context)])).

(** The [action] of the decision input of a request. *)
Definition decision_action (rq : request) : option pyval :=
  decision_input rq ≫= fun input : pydict => input !! KStr "action".

(** The sections of [SECTIONS] a request body names, in the order of
    [SECTIONS]. *)
Definition named_sections (request_body : pydict) : list string :=
  filter (fun name => is_Some (request_body !! KStr name)) SECTIONS.

(** A policy name that is one plain segment of the URL it is formatted
    into: a [str] of 1 to 255 letters, digits, [_] or [-]. *)
Definition name_char (c : ascii) : bool :=
  let n := nat_of_ascii c in
  (((48 <=? n) && (n <=? 57)) || ((65 <=? n) && (n <=? 90)) ||
   ((97 <=? n) && (n <=? 122)) || (n =? 95) || (n =? 45))%nat.

Definition plain_name (v : pyval) : bool :=
  match v with
  | PStr n =>
      negb (String.eqb n "") && (String.length n <=? 255)%nat &&
      forallb name_char (list_ascii_of_string n)
  | _ => false
  end.

(** The merge [grant_access] makes of what it read. *)
Definition merged (o : option reply) (resource_id : string) (request_body : pydict)
    : outcome pyval :=
  read_section o ≫= fun current_permissions =>
    add_permission current_permissions
      (default PNone (request_body !! KStr "user")) resource_id
      (default (PStr "read") (request_body !! KStr "relation")).

End Opa.

(** ** Graph backend: [openfga/python/main.py] *)

Module OpenFga.

Definition ENDPOINT_PERMISSIONS : gmap string string :=
  list_to_map [("GET", "can_view"); ("POST", "can_edit"); ("PUT", "can_edit");
               ("PATCH", "can_edit"); ("DELETE", "owner")].

(** The file [OPENFGA_STORE_ID_FILE] as [get_store_id] finds it. *)
Inductive file :=
  | Missing                     (* os.path.exists is false *)
  | Content (s : string)
  | Unreadable (msg : string).  (* open or read raises *)

(** [OpenFgaClient(ClientConfiguration(api_url=..., store_id=...))] *)
Record client := {
  api_url : string;
  store_id : string
}.

(** A relationship tuple as OpenFGA stores it. *)
Record tuple := {
  user : string;
  relation : string;
  object : string
}.

Global Instance tuple_eq_dec : EqDecision tuple.
Proof. solve_decision. Defined.

Global Instance tuple_countable : Countable tuple.
Proof.
  refine (inj_countable'
    (fun t => (user t, relation t, object t))
    (fun x => {| user := x.1.1; relation := x.1.2; object := x.2 |}) _).
  by intros [].
Defined.

(** The OpenFGA server behind the SDK, as far as the gateway sees it: how
    it answers a check from the tuples of a store, which tuples its
    authorization model refuses, and the text of its errors. *)
Class Engine := {
  resolve : gset tuple → tuple → bool;
  refuses : tuple → option string;
  already_exists_text : tuple → string;
  malformed_text : pyval → pyval → string
}.

Record world := {
  replies : list reply;            (* Hydra's answers to the calls still to come *)
  introspected : list string;      (* the tokens sent to Hydra so far *)
  OPENFGA_URL : string;
  store_id_file : file;
  OPENFGA_STORE_ID : option string;   (* module global, read once at import *)
  _fga_client : option client;        (* module global *)
  stores : gmap string (gset tuple)   (* the tuples of each OpenFGA store *)
}.

Abbreviation H := (M world).

Definition with_replies (rs : list reply) (log : list string) (w : world) : world :=
  {| replies := rs; introspected := log;
     OPENFGA_URL := OPENFGA_URL w; store_id_file := store_id_file w;
     OPENFGA_STORE_ID := OPENFGA_STORE_ID w; _fga_client := _fga_client w;
     stores := stores w |}.

Definition with_client (c : client) (w : world) : world :=
  {| replies := replies w; introspected := introspected w;
     OPENFGA_URL := OPENFGA_URL w; store_id_file := store_id_file w;
     OPENFGA_STORE_ID := OPENFGA_STORE_ID w; _fga_client := Some c;
     stores := stores w |}.

Definition with_stores (s : gmap string (gset tuple)) (w : world) : world :=
  {| replies := replies w; introspected := introspected w;
     OPENFGA_URL := OPENFGA_URL w; store_id_file := store_id_file w;
     OPENFGA_STORE_ID := OPENFGA_STORE_ID w; _fga_client := _fga_client w;
     stores := s |}.

(** The store-identifier source changes: the file is rewritten. *)
Definition with_file (f : file) (w : world) : world :=
  {| replies := replies w; introspected := introspected w;
     OPENFGA_URL := OPENFGA_URL w; store_id_file := f;
     OPENFGA_STORE_ID := OPENFGA_STORE_ID w; _fga_client := _fga_client w;
     stores := stores w |}.

(** [get_store_id()] on a given file. *)
Definition read_store_id (f : file) : option string :=
  match f with
  | Content s => Some (PyStr.strip s)
  | Missing => None
  | Unreadable _ => None
  end.

Definition get_store_id : H (option string) := fun w =>
  (Ok (read_store_id (store_id_file w)), w).

(** The process as the module has just been imported. *)
Definition startup (url : string) (f : file) (rs : list reply)
    (s : gmap string (gset tuple)) : world :=
  {| replies := rs; introspected := [];
     OPENFGA_URL := url; store_id_file := f;
     OPENFGA_STORE_ID := read_store_id f; _fga_client := None;
     stores := s |}.

(** [a or b] on two [Optional[str]]. *)
Definition or_str (a b : option string) : option string :=
  match a with
  | Some s => if String.eqb s "" then b else a
  | None => b
  end.

Definition get_fga_client : H client := fun w =>
  match _fga_client w with
  | None =>
      (current_store_id ← get_store_id;
       match or_str current_store_id (OPENFGA_STORE_ID w) with
       | None | Some "" => raise (HTTPException 500 "OpenFGA store ID not available")
       | Some id =>
           let c := {| api_url := OPENFGA_URL w; store_id := id |} in
           fun w => (Ok c, with_client c w)
       end) w
  | Some c => (Ok c, w)
  end.

(** [await client.post(HYDRA_INTROSPECT_URL, data={"token": token})] *)
Definition introspect (token : string) : H response := fun w =>
  let log := introspected w ++ [token] in
  match replies w with
  | Answer r :: rest => (Ok r, with_replies rest log w)
  | Fails msg :: rest => (Raise (Exception msg), with_replies rest log w)
  | [] => (Raise (Exception "All connection attempts failed"), with_replies [] log w)
  end.

Definition StoreNotFound : exn := Exception "store ID not found".

(** [await fga_client.check(request)] *)
Definition sdk_check `{Engine} (c : client) (request : tuple) : H bool := fun w =>
  match stores w !! store_id c with
  | Some tuples => (Ok (resolve tuples request), w)
  | None => (Raise StoreNotFound, w)
  end.

(** [await fga_client.write(ClientWriteRequest(writes=[ClientTuple(...)]))] *)
Definition sdk_write `{Engine} (c : client) (user relation : pyval) (object : string)
    : H unit := fun w =>
  match stores w !! store_id c with
  | Some tuples =>
      match user, relation with
      | PStr u, PStr r =>
          let t := {| user := u; relation := r; object := object |} in
          if bool_decide (t ∈ tuples)
          then (Raise (Exception (already_exists_text t)), w)
          else
            match refuses t with
            | Some msg => (Raise (Exception msg), w)
            | None => (Ok (), with_stores (<[store_id c := {[t]} ∪ tuples]> (stores w)) w)
            end
      | _, _ => (Raise (Exception (malformed_text user relation)), w)
      end
  | None => (Raise StoreNotFound, w)
  end.

Definition auth_middleware (authorization : option string) : H identity :=
  match authorization with
  | None | Some "" => raise (HTTPException 401 "Missing token")
  | Some header =>
      try_except
        (let token := PyStr.replace "Bearer " "" header in
         introspect_response ← introspect token;
         if negb (status_code introspect_response =? 200)%Z
         then raise (HTTPException 401 "Token introspection failed")
         else
           token_info ← lift (json introspect_response);
           active ← lift (Py.get token_info "active" (PBool false));
           if negb (Py.truthy active)
           then raise (HTTPException 401 "Token is not active")
           else
             preferred_username ← lift (Py.get token_info "preferred_username" PNone);
             fallback ← lift (Py.get token_info "client_id" (PStr "unknown"));
             let user_id := Py.or_ preferred_username fallback in
             client_id ← lift (Py.get token_info "client_id" (PStr "unknown"));
             scope ← lift (Py.get token_info "scope" (PStr ""));
             mret {| user_id := user_id; client_id := client_id;
                     token := token; scope := scope |})
        (fun e =>
           match e with
           | HTTPException _ _ => raise e
           | Exception _ => raise (HTTPException 401 ("Invalid token: " +:+ str_exn e))
           end)
  end.

Definition check_authorization `{Str} `{Engine} (user_id : pyval)
    (resource_id required_permission : string) : H bool :=
  try_except
    (fga_client ← get_fga_client;
     let check_request :=
       {| user := "user:" +:+ str user_id;
          relation := required_permission;
          object := "resource:" +:+ resource_id |} in
     allowed ← sdk_check fga_client check_request;
     mret allowed)
    (fun _ => mret false).

Definition grant_result (target_user relation : pyval) (resource_id message status : string)
    : pyval :=
  PDict (list_to_map
    [(KStr "message", PStr message);
     (KStr "granted_to", target_user);
     (KStr "relation", relation);
     (KStr "resource", PStr resource_id);
     (KStr "status", PStr status)]).

(** Lines 191-238 of [grant_access]: the write, once the caller has been
    found to be an owner. *)
Definition grant_tuple `{Engine} (resource_id : string) (request_body : pydict) : H pyval :=
  try_except
    (fga_client ← get_fga_client;
     let target_user := default PNone (request_body !! KStr "user") in
     let relation := default (PStr "can_view") (request_body !! KStr "relation") in
     try_except
       (_ ← sdk_write fga_client target_user relation ("resource:" +:+ resource_id);
        mret (grant_result target_user relation resource_id
                "Access granted successfully" "newly_granted"))
       (fun write_error =>
          if PyStr.contains "already exists" (PyStr.lower (str_exn write_error))
          then mret (grant_result target_user relation resource_id
                       "Access already granted (no change needed)" "already_exists")
          else raise write_error))
    (fun e => raise (HTTPException 500 ("Failed to grant access: " +:+ str_exn e))).

(** [POST /resources/{resource_id}/grant] *)
Definition grant_access `{Str} `{Engine} (resource_id : string) (request_body : pydict)
    (user : identity) : H pyval :=
  allowed ← check_authorization (user_id user) resource_id "owner";
  if negb allowed
  then raise (HTTPException 403 "Only resource owners can grant access")
  else grant_tuple resource_id request_body.

(** *** Vocabulary of the statements about this service *)

(** The world after one call to Hydra: the token logged, one reply
    consumed. *)
Definition after_introspect (token : string) (w : world) : world :=
  with_replies (tail (replies w)) (introspected w ++ [token]) w.

(** *** The worlds and inputs of the examples *)

(** An engine that answers a check from the stored tuples alone, refuses no
    tuple and reports a duplicate in OpenFGA's words. *)
Definition direct_engine : Engine :=
  {| resolve := fun tuples request => bool_decide (request ∈ tuples);
     refuses := fun _ => None;
     already_exists_text := fun _ =>
       "cannot write a tuple which already exists";
     malformed_text := fun _ _ => "invalid tuple" |}.

Definition bob_owns_doc2 : gmap string (gset tuple) :=
  {[ "store-A" :=
       {[ {| user := "user:bob"; relation := "owner"; object := "resource:doc2" |} ]} ]}.

(** The process at start-up, with the store file naming [store-A]. *)
Definition fresh : world :=
  startup "http://localhost:8080" (Content "store-A
") [] bob_owns_doc2.

Definition bob : identity :=
  {| user_id := PStr "bob"; client_id := PStr "bob"; token := "t0"; scope := PStr "" |}.

Definition view_for_carol : pydict :=
  {[ KStr "user" := PStr "user:carol"; KStr "relation" := PStr "can_view" ]}.

(** *** The protected operations and the debug endpoints *)

(** [ENDPOINT_PERMISSIONS[method]] *)
Definition endpoint_permission (method : string) : outcome string :=
  match ENDPOINT_PERMISSIONS !! method with
  | Some permission => Ok permission
  | None => Raise (Exception ("'" +:+ method +:+ "'"))
  end.

(** [GET /resources/{resource_id}] *)
Definition get_resource `{Str} `{Engine} (resource_id : string) (user : identity)
    : H pyval :=
  required_permission ← lift (endpoint_permission "GET");
  allowed ← check_authorization (user_id user) resource_id required_permission;
  if negb allowed
  then raise (HTTPException 403 "Access denied")
  else
    mret (PDict (list_to_map
      [(KStr "resource_id", PStr resource_id);
       (KStr "access", PStr "granted");
       (KStr "user", user_id user);
       (KStr "permission", PStr required_permission)])).

(** [PUT /resources/{resource_id}] *)
Definition update_resource `{Str} `{Engine} (resource_id : string) (user : identity)
    : H pyval :=
  required_permission ← lift (endpoint_permission "PUT");
  allowed ← check_authorization (user_id user) resource_id required_permission;
  if negb allowed
  then raise (HTTPException 403 "Access denied")
  else
    mret (PDict (list_to_map
      [(KStr "resource_id", PStr resource_id);
       (KStr "action", PStr "updated");
       (KStr "user", user_id user);
       (KStr "permission", PStr required_permission)])).

(** [DELETE /resources/{resource_id}] *)
Definition delete_resource `{Str} `{Engine} (resource_id : string) (user : identity)
    : H pyval :=
  required_permission ← lift (endpoint_permission "DELETE");
  allowed ← check_authorization (user_id user) resource_id required_permission;
  if negb allowed
  then raise (HTTPException 403 "Access denied")
  else
    mret (PDict (list_to_map
      [(KStr "resource_id", PStr resource_id);
       (KStr "action", PStr "deleted");
       (KStr "user", user_id user);
       (KStr "permission", PStr required_permission)])).

(** An [Optional[str]] as a Python value. *)
Definition optional_str (o : option string) : pyval :=
  match o with
  | Some s => PStr s
  | None => PNone
  end.

(** The module constant [OPENFGA_URL]. *)
Definition openfga_url : H string := fun w => (Ok (OPENFGA_URL w), w).

(** [GET /debug/config]; [HYDRA_INTROSPECT_URL] is a constant of the
    module, read from the environment. *)
Definition debug_config (HYDRA_INTROSPECT_URL : string) : H pyval :=
  url ← openfga_url;
  store_id ← get_store_id;
  mret (PDict (list_to_map
    [(KStr "openfga_url", PStr url);
     (KStr "openfga_store_id", optional_str store_id);
     (KStr "hydra_introspect_url", PStr HYDRA_INTROSPECT_URL);
     (KStr "endpoint_permissions",
      PDict (list_to_map
        ((fun kv : string * string => (KStr kv.1, PStr kv.2))
           <$> map_to_list ENDPOINT_PERMISSIONS)))])).

(** [await fga_client.read(ClientReadRequest())]: the tuples of the store. *)
Definition sdk_read (c : client) : H (list tuple) := fun w =>
  match stores w !! store_id c with
  | Some tuples => (Ok (elements tuples), w)
  | None => (Raise StoreNotFound, w)
  end.

Definition tuple_dict (t : tuple) : pyval :=
  PDict (list_to_map
    [(KStr "user", PStr (user t));
     (KStr "relation", PStr (relation t));
     (KStr "object", PStr (object t))]).

(** [from openfga_sdk.client.models import ClientReadRequest], inside the
    [try] of [debug_tuples].  The models of the SDK's client have no class
    of that name (its [read] takes a [ReadRequestTupleKey]), so the import
    raises [ImportError]; the text of the error ends with [models_file],
    the path of the module where the SDK is installed. *)
Definition import_ClientReadRequest (models_file : string) : H unit :=
  raise (Exception
    ("cannot import name 'ClientReadRequest' from 'openfga_sdk.client.models' ("
       +:+ models_file +:+ ")")).

(** [GET /debug/tuples] *)
Definition debug_tuples (models_file : string) : H pyval :=
  try_except
    (fga_client ← get_fga_client;
     _ ← import_ClientReadRequest models_file;
     tuples ← sdk_read fga_client;
     mret (PDict (list_to_map
       [(KStr "tuples", PList (tuple_dict <$> tuples));
        (KStr "total", PInt (Z.of_nat (length tuples)))])))
    (fun e =>
       mret (PDict {[ KStr "error" := PStr ("Failed to read tuples: " +:+ str_exn e) ]})).

(** The tuples of the store the handle of the process points to. *)
Definition stored (w : world) : gset tuple :=
  default ∅ (_fga_client w ≫= fun c => stores w !! store_id c).

(** The process has no store identifier to build a handle from. *)
Definition no_store_id (w : world) : Prop :=
  _fga_client w = None ∧
  or_str (read_store_id (store_id_file w)) (OPENFGA_STORE_ID w) ∈ [None; Some ""].

(** An engine whose authorization model has no type for the user of a
    tuple and says so in words that happen to hold "already exists". *)
Definition strict_engine : Engine :=
  {| resolve := fun tuples request => bool_decide (request ∈ tuples);
     refuses := fun t =>
       Some ("type of '" +:+ user t +:+ "' not found among the types that already exists");
     already_exists_text := fun _ =>
       "cannot write a tuple which already exists";
     malformed_text := fun _ _ => "invalid tuple" |}.

(** The process with the handle of [store-A] at hand. *)
Definition running : world :=
  with_client {| api_url := "http://localhost:8080"; store_id := "store-A" |} fresh.

(** The tuple a grant writes, when its body names a user and a relation by
    strings. *)
Definition granted_tuple (resource_id : string) (request_body : pydict) : option tuple :=
  match default PNone (request_body !! KStr "user"),
        default (PStr "can_view") (request_body !! KStr "relation") with
  | PStr u, PStr r =>
      Some {| user := u; relation := r; object := "resource:" +:+ resource_id |}
  | _, _ => None
  end.

(** An engine that reports a duplicate in capitals. *)
Definition loud_engine : Engine :=
  {| resolve := fun tuples request => bool_decide (request ∈ tuples);
     refuses := fun _ => None;
     already_exists_text := fun _ => "Tuple Already Exists";
     malformed_text := fun _ _ => "invalid tuple" |}.

Definition owner_for_bob : pydict :=
  {[ KStr "user" := PStr "user:bob"; KStr "relation" := PStr "owner" ]}.

End OpenFga.

(** What [.json()] raises is an error of the HTTP client, never FastAPI's
    [HTTPException]. *)
Definition client_side (r : response) : Prop :=
  match json r with
  | Raise (HTTPException _ _) => False
  | _ => True
  end.

(** The next reply, if it is an answer, is one of the HTTP client. *)
Definition next_is_client_side (replies : list reply) : Prop :=
  ∀ r, head replies = Some (Answer r) → client_side r.

(** ** [GET /debug/credentials], in both services *)

Module Credentials.
Import OpenFga.

(** [os.path.exists(path)] *)
Definition exists_ (f : file) : bool :=
  match f with
  | Missing => false
  | Content _ | Unreadable _ => true
  end.

(** [if os.path.exists(path): with open(path, 'r') as f: value = f.read().strip()],
    with [value = None] before. *)
Definition read_credential (f : file) : outcome pyval :=
  match f with
  | Missing => Ok PNone
  | Content s => Ok (PStr (PyStr.strip s))
  | Unreadable msg => Raise (Exception msg)
  end.

(** The [try] block of [debug_credentials], the same in both services, on
    the files [/shared/hydra-client-id] and [/shared/hydra-client-secret]. *)
Definition read_credentials (id_file secret_file : file) : outcome pyval :=
  client_id ← read_credential id_file;
  client_secret ← read_credential secret_file;
  Ok (PDict (list_to_map
    [(KStr "client_id", client_id);
     (KStr "client_secret", client_secret);
     (KStr "client_id_file_exists", PBool (exists_ id_file));
     (KStr "client_secret_file_exists", PBool (exists_ secret_file))])).

(** [debug_credentials] of [opa/python/main.py] *)
Definition opa_debug_credentials (id_file secret_file : file) : outcome pyval :=
  match read_credentials id_file secret_file with
  | Ok response => Ok response
  | Raise e =>
      Ok (PDict (list_to_map
        [(KStr "error", PStr ("Failed to read credentials: " +:+ str_exn e));
         (KStr "client_id", PNone);
         (KStr "client_secret", PNone)]))
  end.

(** [debug_credentials] of [openfga/python/main.py] *)
Definition openfga_debug_credentials (id_file secret_file : file) : outcome pyval :=
  match read_credentials id_file secret_file with
  | Ok response => Ok response
  | Raise e =>
      Ok (PDict (list_to_map
        [(KStr "error", PStr ("Failed to read credentials: " +:+ str_exn e));
         (KStr "client_id", PNone);
         (KStr "client_secret", PNone);
         (KStr "client_id_file_exists", PBool false);
         (KStr "client_secret_file_exists", PBool false)]))
  end.

End Credentials.

(** * Properties *)

(** ** Strings *)

Module PyStrFacts.
Import PyStr.

Lemma prefix_app (p s t : string) :
  String.prefix p s = true → String.prefix p (s +:+ t) = true.
Proof.
  revert s. induction p as [|c p IH]; intros [|d s]; simpl; try done.
  - by destruct t.
  - destruct (ascii_dec c d); [apply IH | done].
Qed.

(** Jumping over the [length t] characters of [t]. *)
Lemma replace_from_jump (old new t s : string) :
  replace_from old new (String.length t) (t +:+ s) = replace_from old new 0 s.
Proof. induction t as [|c t IH]; simpl; [by destruct s | done]. Qed.

Lemma prefix_length (p s : string) :
  String.prefix p s = true → (String.length p ≤ String.length s)%nat.
Proof.
  revert s. induction p as [|c p IH]; intros [|d s]; simpl; try done; try lia.
  destruct (ascii_dec c d); [|done]. intros ?%IH. lia.
Qed.

(** ["Bearer "] has no border: an occurrence cannot start inside another
    one. *)
Lemma bearer_no_overlap (a b : string) :
  a ≠ "" →
  String.prefix "Bearer " (a +:+ "Bearer " +:+ b) = true →
  String.prefix "Bearer " a = true.
Proof.
  intros Ha H.
  destruct a as [|c1 a]; [done|]. clear Ha.
  repeat
    (simpl in H |- *;
     match type of H with
     | (if ?d then _ else _) = true => destruct d; [subst | discriminate H]
     end;
     try (destruct a as [|? a]; [simpl in H; discriminate H|])).
  by destruct a.
Qed.

Abbreviation strip_bearer := (replace_from "Bearer " "").

(** An occurrence of ["Bearer "] is removed wherever it stands: what is
    left of [a ++ "Bearer " ++ b] is what is left of [a] followed by what
    is left of [b]. *)
Lemma replace_from_bearer_app (a b : string) (k : nat) :
  (k ≤ String.length a)%nat →
  strip_bearer k (a +:+ "Bearer " +:+ b) = strip_bearer k a +:+ strip_bearer 0%nat b.
Proof.
  revert k. induction a as [|c a IH]; intros k Hk.
  - simpl in Hk. assert (k = 0%nat) as -> by lia.
    simpl. by destruct b.
  - destruct k as [|k].
    + change (String c a +:+ "Bearer " +:+ b) with (String c (a +:+ "Bearer " +:+ b)).
      cbn [replace_from].
      change (String c (a +:+ "Bearer " +:+ b)) with (String c a +:+ "Bearer " +:+ b).
      destruct (String.prefix "Bearer " (String c a)) eqn:Hp.
      * rewrite (prefix_app _ _ _ Hp).
        apply prefix_length in Hp. simpl in Hp.
        rewrite IH by (simpl; lia). done.
      * destruct (String.prefix "Bearer " (String c a +:+ "Bearer " +:+ b)) eqn:Hq.
        { apply bearer_no_overlap in Hq; [congruence | done]. }
        rewrite (IH 0%nat) by lia. reflexivity.
    + simpl in Hk. cbn [replace_from]. apply IH. lia.
Qed.

Lemma replace_absent (old new s : string) :
  contains old s = false → replace old new s = s.
Proof.
  unfold replace. induction s as [|c s IH]; [done|].
  cbn [contains replace_from]. intros [Hp Hs]%orb_false_iff.
  rewrite Hp. f_equal. by apply IH.
Qed.
End PyStrFacts.

(** ** Containers *)

Module PyFacts.
Import Py.

Lemma getitem_setitem (c key v c' : pyval) :
  setitem c key v = Ok c' → getitem c' key = Ok v.
Proof.
  destruct c as [| | | |l|d]; simpl; try done.
  - destruct (as_int key) as [i|] eqn:Hi; [|done].
    destruct (index (length l) i) as [n|] eqn:Hn; [|done].
    intros [= <-]. simpl. rewrite Hi, length_insert, Hn. simpl.
    rewrite list_lookup_insert_eq; [done|].
    unfold index in Hn. repeat case_match; simplify_eq; lia.
  - destruct (key_of key) as [k|] eqn:Hk; [|done].
    intros [= <-]. simpl. by rewrite Hk, lookup_insert_eq.
Qed.

End PyFacts.

(** ** Attribute backend *)

Module OpaFacts.
Import Opa.

(** Unfolding one step of a handler. *)
Ltac run :=
  unfold try_except, raise, lift, now, call, mbind, mret, M_bind, M_ret,
    outcome_bind, outcome_ret in *.

Lemma call_run (rq : request) (w : world) :
  call rq w =
    (match head (replies w) with
     | Some (Answer r) => Ok r
     | Some (Fails msg) => Raise (Exception msg)
     | None => Raise (Exception "All connection attempts failed")
     end, after_call rq w).
Proof. unfold call, after_call. by destruct (replies w) as [|[r|msg] rest]. Qed.

(** [check_authorization] makes exactly one call and never raises. *)
Lemma check_authorization_run user_id resource_id method context (w : world) :
  check_authorization user_id resource_id method context w =
    (Ok (verdict (head (replies w))),
     after_call
       (OpaAllow (PDict {[ KStr "input" :=
          PDict (policy_input user_id resource_id method (utcnow w) context) ]})) w).
Proof.
  unfold check_authorization. run. unfold after_call, verdict.
  destruct (replies w) as [|[r|msg] rest]; simpl; try done.
  destruct (status_code r =? 200)%Z; simpl; [|done].
  destruct (json r) as [result|e]; simpl; [|done].
  by destruct (Py.get result "result" (PBool false)).
Qed.

Lemma verdict_fails (rs : list reply) :
  pdp_fails rs → verdict (head rs) = PBool false.
Proof.
  intros [ | msg rest | r rest Hs | r e rest Hj | r v rest Hj Hr]; simpl; try done.
  - by apply Z.eqb_neq in Hs as ->.
  - rewrite Hj. by destruct (status_code r =? 200)%Z.
  - rewrite Hj. destruct (status_code r =? 200)%Z; [|done]. simpl.
    destruct v as [| | | | |d]; simpl in *; try done.
    apply bool_decide_eq_false in Hr.
    destruct (d !! KStr "result") eqn:E; [|done].
    destruct Hr. by eexists.
Qed.

(** C1.  Fail-closed decision: when the attribute PDP is unreachable or the
    call raises, answers with a status other than 200, or answers 200 with a
    body that cannot be decoded or has no [result] field,
    [check_authorization] returns [False]. *)
Theorem check_authorization_fail_closed user_id resource_id method context (w : world) :
  pdp_fails (replies w) →
  fst (check_authorization user_id resource_id method context w) = Ok (PBool false).
Proof.
  intros Hf. rewrite check_authorization_run. simpl. by rewrite verdict_fails.
Qed.

(** *** The log of calls only grows *)

Create HintDb growing.

Lemma growing_ret {A} (a : A) : growing (mret a).
Proof. by intros w. Qed.

Lemma growing_raise {A} (e : exn) : growing (@raise world A e).
Proof. by intros w. Qed.

Lemma growing_lift {A} (o : outcome A) : growing (lift o).
Proof. by intros w. Qed.

Lemma growing_now : growing now.
Proof. by intros w. Qed.

Lemma growing_call (rq : request) : growing (call rq).
Proof. intros w. rewrite call_run. simpl. by apply prefix_app_r. Qed.

Lemma growing_bind {A B} (m : H A) (f : A → H B) :
  growing m → (∀ a, growing (f a)) → growing (m ≫= f).
Proof.
  intros Hm Hf w. unfold mbind, M_bind. specialize (Hm w).
  destruct (m w) as [[a|e] w1]; simpl in *; [|done].
  etrans; [done | apply Hf].
Qed.

Lemma growing_try {A} (m : H A) (h : exn → H A) :
  growing m → (∀ e, growing (h e)) → growing (try_except m h).
Proof.
  intros Hm Hh w. unfold try_except. specialize (Hm w).
  destruct (m w) as [[a|e] w1]; simpl in *; [done|].
  etrans; [done | apply Hh].
Qed.

Lemma growing_if {A} (b : bool) (m1 m2 : H A) :
  growing m1 → growing m2 → growing (if b then m1 else m2).
Proof. by destruct b. Qed.

#[local] Hint Resolve growing_ret growing_raise growing_lift growing_now growing_call
  growing_bind growing_try growing_if : growing.

(** The [try] block of [grant_access] only adds to the log. *)
Lemma grant_access_unfold resource_id request_body user (w : world) :
  ∃ rest : H pyval, growing rest ∧
    grant_access resource_id request_body user w =
      (check_authorization (user_id user) resource_id "POST"
         (Some (<[KStr "action" := PStr "grant_permission"]> (grant_context request_body)))
       ≫= fun allowed =>
            if negb (Py.truthy allowed)
            then raise (HTTPException 403 "Only resource administrators can grant access")
            else rest) w.
Proof.
  eexists. split; [|reflexivity].
  apply growing_try; [|auto with growing].
  repeat (apply growing_bind; [auto 10 with growing | intros ?]).
  auto with growing.
Qed.

(** The first call of [grant_access]: the decision request, whose input has
    the mapped action of [POST] at top level and the elevated action inside
    [context]. *)
Lemma grant_access_first_call resource_id request_body user (w : world) :
  sent (snd (grant_access resource_id request_body user w)) !! length (sent w) =
    Some (OpaAllow (PDict {[ KStr "input" :=
      PDict (policy_input (user_id user) resource_id "POST" (utcnow w)
               (Some (<[KStr "action" := PStr "grant_permission"]>
                        (grant_context request_body)))) ]})).
Proof.
  destruct (grant_access_unfold resource_id request_body user w) as (rest & Hrest & ->).
  unfold mbind, M_bind. rewrite check_authorization_run.
  set (w1 := after_call _ w).
  assert (sent w1 !! length (sent w) = Some (OpaAllow (PDict {[ KStr "input" :=
      PDict (policy_input (user_id user) resource_id "POST" (utcnow w)
               (Some (<[KStr "action" := PStr "grant_permission"]>
                        (grant_context request_body)))) ]}))) as Hw1.
  { unfold w1, after_call. simpl. by apply list_lookup_middle. }
  destruct (negb _); simpl.
  - done.
  - by eapply prefix_lookup_Some; [|apply Hrest].
Qed.

Lemma check_authorization_fail_closed_witness :
  pdp_fails (replies {| replies := [answer 500 PNone]; sent := []; utcnow := "" |}) ∧
  fst (check_authorization (PStr "alice") "doc1" "GET" None
         {| replies := [answer 500 PNone]; sent := []; utcnow := "" |}) = Ok (PBool false).
Proof.
  assert (pdp_fails (replies {| replies := [answer 500 PNone]; sent := []; utcnow := "" |}))
    as Hf by (by apply pdp_not_200).
  split; [exact Hf|].
  exact (check_authorization_fail_closed (PStr "alice") "doc1" "GET" None _ Hf).
Defined.

(** A denied or failed decision makes [get_resource] answer 403. *)
Lemma get_resource_denied resource_id user (w : world) :
  pdp_fails (replies w) →
  fst (get_resource resource_id user w) = Raise (HTTPException 403 "Access denied").
Proof.
  intros Hf. unfold get_resource, mbind, M_bind.
  rewrite check_authorization_run, (verdict_fails _ Hf). done.
Qed.

(** C2, as the code has it.  The decision input [grant_access] submits has
    the action the mapper gives for [POST], ["create"], at top level; the
    elevated value ["grant_permission"] is the [action] key of its
    [context]. *)
Theorem grant_access_decision_input resource_id request_body user (w : world) :
  ∃ input context,
    sent (snd (grant_access resource_id request_body user w)) !! length (sent w)
      ≫= decision_input = Some input ∧
    input !! KStr "action" = Some (PStr "create") ∧
    input !! KStr "method" = Some (PStr "POST") ∧
    input !! KStr "context" = Some (PDict context) ∧
    context !! KStr "action" = Some (PStr "grant_permission").
Proof.
  rewrite grant_access_first_call. simpl.
  exists (policy_input (user_id user) resource_id "POST" (utcnow w)
            (Some (<[KStr "action" := PStr "grant_permission"]>
                     (grant_context request_body)))),
         (<[KStr "action" := PStr "grant_permission"]> (grant_context request_body)).
  split; [reflexivity|].
  split; [reflexivity|]. split; [reflexivity|]. split; [reflexivity|].
  by rewrite lookup_insert_eq.
Qed.

(** C2 as stated fails: for a grant by [alice] the top-level [action] of the
    submitted decision input is ["create"], not ["grant_permission"]. *)
Lemma grant_access_action_counterexample :
  (sent (snd (grant_access "doc1" grant_to_bob alice quiet)) !! 0%nat
     ≫= decision_input) ≫= (fun input : pydict => input !! KStr "action")
    = Some (PStr "create") ∧
  PStr "create" ≠ PStr "grant_permission".
Proof. split; [by vm_compute | discriminate]. Qed.

(** C3.  [update_policy] without a policy source, or with an empty one,
    raises 400 inside its own [try], and the [except Exception] around it
    turns that into a 500: the caller never sees the 400.  No call is made. *)
Theorem update_policy_empty_source `{Str} (w : world) :
  update_policy ∅ w =
    (Raise (HTTPException 500 "Failed to update policy: 400: Policy content is required"), w) ∧
  update_policy {[ KStr "name" := PStr "authz"; KStr "policy" := PStr "" ]} w =
    (Raise (HTTPException 500 "Failed to update policy: 400: Policy content is required"), w).
Proof. split; reflexivity. Qed.

(** *** [update_permissions] *)

Lemma update_permissions_loop (request_body : pydict) :
  update_permissions request_body =
    try_except
      (update_sections SECTIONS request_body [] (fun updated_sections =>
         timestamp ← now;
         mret (PDict (list_to_map
           [(KStr "message", PStr "Permissions updated successfully");
            (KStr "updated_sections", PList updated_sections);
            (KStr "timestamp", PStr timestamp)]))))
      (fun e => raise (HTTPException 500 ("Failed to update permissions: " +:+ str_exn e))).
Proof. reflexivity. Qed.

Lemma writes_absent request_body name names :
  request_body !! KStr name = None →
  writes request_body (name :: names) = writes request_body names.
Proof. intros E. unfold writes. simpl. by rewrite E. Qed.

Lemma writes_present request_body name names doc :
  request_body !! KStr name = Some doc →
  writes request_body (name :: names) = OpaPutData name doc :: writes request_body names.
Proof. intros E. unfold writes. simpl. by rewrite E. Qed.

Lemma update_sections_absent {A} request_body name names acc (k : list pyval → H A) w :
  request_body !! KStr name = None →
  update_sections (name :: names) request_body acc k w =
    update_sections names request_body acc k w.
Proof. intros E. simpl. unfold update_section. by rewrite E. Qed.

Lemma update_sections_present {A} request_body name names acc (k : list pyval → H A) w doc :
  request_body !! KStr name = Some doc →
  update_sections (name :: names) request_body acc k w =
    match head (replies w) with
    | Some (Answer _) =>
        update_sections names request_body (acc ++ [PStr name]) k
          (after_call (OpaPutData name doc) w)
    | Some (Fails msg) => (Raise (Exception msg), after_call (OpaPutData name doc) w)
    | None => (Raise (Exception "All connection attempts failed"),
               after_call (OpaPutData name doc) w)
    end.
Proof.
  intros E. simpl. unfold update_section. rewrite E.
  unfold mbind, M_bind. rewrite call_run.
  by destruct (head (replies w)) as [[r|msg]|].
Qed.

(** The loop either makes all its writes and goes on with [k], or stops at
    the first write that raises. *)
Lemma update_sections_cases {A} names request_body (k : list pyval → H A) :
  ∀ updated_sections w,
    (∃ updated_sections' w',
        update_sections names request_body updated_sections k w = k updated_sections' w' ∧
        (∀ i, (i < length (writes request_body names))%nat →
              raises (replies w !! i) = false) ∧
        sent w' = sent w ++ writes request_body names ∧
        utcnow w' = utcnow w)
    ∨ (∃ msg w' n,
        update_sections names request_body updated_sections k w =
          (Raise (Exception msg), w') ∧
        (n < length (writes request_body names))%nat ∧
        raises (replies w !! n) = true ∧
        sent w' = sent w ++ take (S n) (writes request_body names)).
Proof.
  induction names as [|name names IH]; intros acc w.
  { left. exists acc, w. simpl.
    split_and!; [done | intros; lia | by rewrite app_nil_r | done]. }
  destruct (request_body !! KStr name) as [doc|] eqn:Hdoc.
  2: { rewrite update_sections_absent, writes_absent by done. apply IH. }
  rewrite (update_sections_present _ _ _ _ _ _ doc), (writes_present _ _ _ doc) by done.
  destruct (replies w) as [|[r|msg] rest] eqn:Hrs; simpl.
  - right. eexists _, _, 0%nat. split; [done|]. split; [lia|]. split; [done|].
    by rewrite take_0.
  - destruct (IH (acc ++ [PStr name]) (after_call (OpaPutData name doc) w))
      as [(acc' & w' & -> & Hall & Hs & Ht) | (msg & w' & n & -> & Hn & Hr & Hs)];
      unfold after_call in *; simpl in *; rewrite Hrs in *; simpl in *.
    + left. exists acc', w'. split; [done|]. split_and!.
      * intros [|i] Hi; [done|]. simpl. apply Hall. lia.
      * rewrite Hs. by rewrite <- app_assoc.
      * done.
    + right. exists msg, w', (S n). split; [done|]. split; [lia|]. split; [done|].
      rewrite Hs. by rewrite <- app_assoc.
  - right. eexists _, _, 0%nat. split; [done|]. split; [lia|]. split; [done|].
    by rewrite take_0.
Qed.

Lemma calls_from_app (w w' : world) (rqs : list request) :
  sent w' = sent w ++ rqs → calls_from w w' = rqs.
Proof. intros E. unfold calls_from. by rewrite E, drop_app_length. Qed.

(** The calls of [update_permissions] are the first so many of the writes
    its body asks for. *)
Lemma update_permissions_calls request_body (w : world) :
  ∃ n, calls_from w (snd (update_permissions request_body w)) =
         take n (section_writes request_body).
Proof.
  rewrite update_permissions_loop. unfold try_except, section_writes.
  match goal with |- context [update_sections _ _ _ ?k w] =>
    destruct (update_sections_cases SECTIONS request_body k [] w)
      as [(acc' & w' & -> & _ & Hs & _) | (msg & w' & n & -> & _ & _ & Hs)]
  end.
  - exists (length (writes request_body SECTIONS)).
    rewrite take_ge by done. by apply calls_from_app.
  - exists (S n). by apply calls_from_app.
Qed.

Lemma elem_of_writes request_body names rq :
  rq ∈ writes request_body names →
  ∃ section doc, rq = OpaPutData section doc ∧ section ∈ names ∧
                 request_body !! KStr section = Some doc.
Proof.
  unfold writes. intros (name & Hname & Hrq)%list_elem_of_omap.
  destruct (request_body !! KStr name) as [doc|] eqn:E; simplify_eq/=.
  by exists name, doc.
Qed.

(** Requests that do not write a section leave it as it was. *)
Lemma opa_apply_all_other (rqs : list request) (data : gmap string pyval) section :
  (∀ doc, OpaPutData section doc ∉ rqs) →
  opa_apply_all data rqs !! section = data !! section.
Proof.
  unfold opa_apply_all. revert data.
  induction rqs as [|rq rqs IH]; intros data Hnot; [done|]. simpl.
  rewrite IH by (intros doc Hin; apply (Hnot doc); by right).
  destruct rq as [| | |section' doc|]; simpl; try done.
  apply lookup_insert_ne. intros ->. apply (Hnot doc). by left.
Qed.

Lemma update_section_insert_other name key v request_body updated_sections :
  key ≠ KStr name →
  update_section name (<[key := v]> request_body) updated_sections =
    update_section name request_body updated_sections.
Proof. intros Hne. unfold update_section. by rewrite lookup_insert_ne. Qed.

Lemma update_sections_insert_other {A} names key v request_body (k : list pyval → H A) :
  key ∉ (KStr <$> names) →
  ∀ updated_sections w,
    update_sections names (<[key := v]> request_body) updated_sections k w =
      update_sections names request_body updated_sections k w.
Proof.
  induction names as [|name names IH]; intros Hkey acc w; [done|].
  simpl in Hkey. apply not_elem_of_cons in Hkey as [Hne Hkey].
  simpl. unfold mbind, M_bind. rewrite update_section_insert_other by done.
  destruct (update_section name request_body acc w) as [[acc'|e] w1]; [|done].
  by apply IH.
Qed.

(** C8.  [update_permissions] is section-scoped.  Every call it makes is the
    [PUT] of a section that is one of the five and is named in the request
    body, with the body's document; whatever part of those calls the PDP
    applies, a section the body does not name keeps its stored document
    (so a body with only ["permissions"] leaves ["organizations"] and
    ["users"] alone); and a key outside the five changes nothing: the same
    result, the same calls, no error of its own. *)
Theorem update_permissions_section_scoped request_body (w : world) :
  (∀ rq, rq ∈ calls_from w (snd (update_permissions request_body w)) →
     ∃ section doc, rq = OpaPutData section doc ∧ section ∈ SECTIONS ∧
                    request_body !! KStr section = Some doc) ∧
  (∀ data applied section,
     applied `sublist_of` calls_from w (snd (update_permissions request_body w)) →
     request_body !! KStr section = None →
     opa_apply_all data applied !! section = data !! section) ∧
  (∀ key v, key ∉ (KStr <$> SECTIONS) →
     update_permissions (<[key := v]> request_body) w = update_permissions request_body w).
Proof.
  destruct (update_permissions_calls request_body w) as [n Hcalls].
  assert (∀ rq, rq ∈ calls_from w (snd (update_permissions request_body w)) →
     ∃ section doc, rq = OpaPutData section doc ∧ section ∈ SECTIONS ∧
                    request_body !! KStr section = Some doc) as Hput.
  { intros rq Hrq. rewrite Hcalls in Hrq.
    apply elem_of_writes. eapply subseteq_take, Hrq. }
  split; [exact Hput|]. split.
  - intros data applied section Hsub Habsent.
    apply opa_apply_all_other. intros doc Hin.
    destruct (Hput (OpaPutData section doc)) as (s & d & [= <- <-] & _ & Hd).
    { eapply elem_of_sublist; eauto. }
    congruence.
  - intros key v Hkey. rewrite !update_permissions_loop. unfold try_except.
    by rewrite update_sections_insert_other.
Qed.

Lemma update_permissions_section_scoped_witness :
  opa_apply_all {[ "organizations" := PStr "acme" ]}
    (calls_from quiet
       (snd (update_permissions {[ KStr "permissions" := PDict ∅ ]} quiet)))
    !! "organizations" = Some (PStr "acme").
Proof.
  destruct (update_permissions_section_scoped {[ KStr "permissions" := PDict ∅ ]} quiet)
    as (_ & Hframe & _).
  rewrite (Hframe {[ "organizations" := PStr "acme" ]} _ "organizations"); done.
Defined.

(** *** [grant_access] *)

(** The run of [grant_access] for a caller the PDP allows: the read, the
    merge, the write, each failure ending in the same 500. *)
Lemma grant_access_run resource_id request_body user (w : world) :
  Py.truthy (verdict (head (replies w))) = true →
  grant_access resource_id request_body user w =
    let w1 := after_call (OpaAllow (PDict {[ KStr "input" :=
                PDict (policy_input (user_id user) resource_id "POST" (utcnow w)
                         (Some (<[KStr "action" := PStr "grant_permission"]>
                                  (grant_context request_body)))) ]})) w in
    let w2 := after_call (OpaGetData "permissions") w1 in
    match read_section (replies w !! 1%nat) ≫= fun current_permissions =>
            add_permission current_permissions
              (default PNone (request_body !! KStr "user")) resource_id
              (default (PStr "read") (request_body !! KStr "relation")) with
    | Ok doc =>
        (if acknowledged (replies w !! 2%nat)
         then Ok (granted resource_id request_body)
         else Raise (HTTPException 500 "Failed to grant access"),
         after_call (OpaPutData "permissions" doc) w2)
    | Raise _ => (Raise (HTTPException 500 "Failed to grant access"), w2)
    end.
Proof.
  intros Hallow. unfold grant_access.
  unfold mbind at 1, M_bind at 1. rewrite check_authorization_run, Hallow. simpl.
  unfold try_except. unfold mbind at 1, M_bind at 1. rewrite call_run.
  unfold after_call, raise. simpl.
  destruct (replies w) as [|a [|[rg|msg] rest]]; simpl; try done.
  unfold mbind at 1, M_bind at 1.
  destruct (status_code rg =? 200)%Z; simpl.
  - unfold lift, mbind, M_bind, outcome_bind. simpl.
    destruct (json rg) as [body|e]; simpl; [|done].
    destruct (Py.get body "result" (PDict ∅)) as [cur|e]; simpl; [|done].
    destruct (add_permission cur _ _ _) as [doc|e]; simpl; [|done].
    rewrite call_run. unfold after_call. simpl.
    destruct rest as [|[rp|msg] rest]; simpl; try done.
    unfold not_200_204. by destruct (bool_decide _).
  - unfold lift, mbind, M_bind, mret, M_ret, outcome_bind. simpl.
    destruct (add_permission (PDict ∅) _ _ _) as [doc|e]; simpl; [|done].
    rewrite call_run. unfold after_call. simpl.
    destruct rest as [|[rp|msg] rest]; simpl; try done.
    unfold not_200_204. by destruct (bool_decide _).
Qed.

Lemma bind_Ok {A B} (m : outcome A) (f : A → outcome B) (b : B) :
  m ≫= f = Ok b → ∃ a, m = Ok a ∧ f a = Ok b.
Proof. destruct m as [a|e]; [by exists a | done]. Qed.

(** *** The merge of [grant_access] *)

(** The entries the merge does not name are kept. *)
Lemma add_permission_frame section target_user resource_id permission doc :
  add_permission section target_user resource_id permission = Ok doc →
  ∀ u r p v,
    entry section u r p = Some v →
    ¬ (Py.key_of target_user = Some u ∧ r = KStr resource_id ∧
       Py.key_of permission = Some p) →
    entry doc u r p = Some v.
Proof.
  unfold add_permission. intros Hdoc u r p v Hentry Hother.
  destruct section as [| | | | |d]; try done.
  apply bind_Ok in Hdoc as (known_user & Hknown & Hdoc).
  apply bind_Ok in Hdoc as (cp1 & Hcp1 & Hdoc).
  apply bind_Ok in Hdoc as (of_user & Hof_user & Hdoc).
  apply bind_Ok in Hdoc as (known_resource & Hkr & Hdoc).
  apply bind_Ok in Hdoc as (of_user1 & Hof_user1 & Hdoc).
  apply bind_Ok in Hdoc as (of_resource & Hof_resource & Hdoc).
  apply bind_Ok in Hdoc as (of_resource1 & Hof_resource1 & Hdoc).
  apply bind_Ok in Hdoc as (of_user2 & Hof_user2 & Hdoc).
  simpl in Hknown.
  destruct (Py.key_of target_user) as [ku|] eqn:Hku; [|done].
  injection Hknown as <-.
  destruct (decide (u = ku)) as [->|Hu].
  2: { (* another user *)
    assert (∃ d1, cp1 = PDict d1 ∧ d1 !! u = d !! u) as (d1 & -> & Hd1).
    { case_bool_decide; simpl in Hcp1.
      - injection Hcp1 as <-. by eexists.
      - rewrite Hku in Hcp1. injection Hcp1 as <-. eexists. split; [done|].
        by rewrite lookup_insert_ne. }
    simpl in Hdoc. rewrite Hku in Hdoc. injection Hdoc as <-.
    simpl in *. rewrite lookup_insert_ne by done. by rewrite Hd1. }
  (* the same user *)
  simpl in Hentry.
  destruct (d !! ku) as [[| | | | |du]|] eqn:Hd; try done.
  rewrite bool_decide_eq_true_2 in Hcp1 by (by eexists). injection Hcp1 as <-.
  simpl in Hof_user. rewrite Hku, Hd in Hof_user. injection Hof_user as <-.
  simpl in Hkr. injection Hkr as <-.
  simpl in Hdoc. rewrite Hku in Hdoc. injection Hdoc as <-.
  simpl. rewrite lookup_insert_eq.
  destruct (decide (r = KStr resource_id)) as [->|Hr].
  2: { (* another resource *)
    assert (∃ du1, of_user1 = PDict du1 ∧ du1 !! r = du !! r) as (du1 & -> & Hdu1).
    { case_bool_decide; simpl in Hof_user1; injection Hof_user1 as <-.
      - by eexists.
      - eexists. split; [done|]. by rewrite lookup_insert_ne. }
    simpl in Hof_user2. injection Hof_user2 as <-.
    rewrite lookup_insert_ne by done. by rewrite Hdu1. }
  (* the same resource *)
  destruct (du !! KStr resource_id) as [[| | | | |dr]|] eqn:Hdu; try done.
  rewrite bool_decide_eq_true_2 in Hof_user1 by (by eexists). injection Hof_user1 as <-.
  simpl in Hof_resource. rewrite Hdu in Hof_resource. injection Hof_resource as <-.
  simpl in Hof_resource1.
  destruct (Py.key_of permission) as [kp|] eqn:Hkp; [|done].
  injection Hof_resource1 as <-.
  simpl in Hof_user2. injection Hof_user2 as <-.
  rewrite lookup_insert_eq, lookup_insert_ne; [done|].
  intros ->. by apply Hother.
Qed.

(** The entry the merge names reads back as [True]. *)
Lemma add_permission_reads_back section target_user resource_id permission doc :
  add_permission section target_user resource_id permission = Ok doc →
  read_back doc target_user resource_id permission = Ok (PBool true).
Proof.
  unfold add_permission, read_back. intros Hdoc.
  apply bind_Ok in Hdoc as (known_user & Hknown & Hdoc).
  apply bind_Ok in Hdoc as (cp1 & Hcp1 & Hdoc).
  apply bind_Ok in Hdoc as (of_user & Hof_user & Hdoc).
  apply bind_Ok in Hdoc as (known_resource & Hkr & Hdoc).
  apply bind_Ok in Hdoc as (of_user1 & Hof_user1 & Hdoc).
  apply bind_Ok in Hdoc as (of_resource & Hof_resource & Hdoc).
  apply bind_Ok in Hdoc as (of_resource1 & Hof_resource1 & Hdoc).
  apply bind_Ok in Hdoc as (of_user2 & Hof_user2 & Hdoc).
  rewrite (PyFacts.getitem_setitem _ _ _ _ Hdoc). simpl.
  rewrite (PyFacts.getitem_setitem _ _ _ _ Hof_user2). simpl.
  by rewrite (PyFacts.getitem_setitem _ _ _ _ Hof_resource1).
Qed.

(** On a permissions document the merge succeeds for every hashable user
    and permission. *)
Lemma add_permission_total section target_user resource_id permission :
  permissions_document section →
  is_Some (Py.key_of target_user) → is_Some (Py.key_of permission) →
  ∃ doc, add_permission section target_user resource_id permission = Ok doc.
Proof.
  intros (d & -> & Hd) [ku Hku] [kp Hkp]. unfold add_permission. simpl.
  rewrite Hku. simpl.
  destruct (d !! ku) as [of_user|] eqn:Hu.
  - rewrite bool_decide_eq_true_2 by (by eexists). simpl. rewrite ?Hku, Hu. simpl.
    destruct (Hd _ _ Hu) as (du & -> & Hdu). simpl.
    destruct (du !! KStr resource_id) as [of_resource|] eqn:Hr.
    + rewrite bool_decide_eq_true_2 by (by eexists). simpl. rewrite Hr. simpl.
      destruct (Hdu _ _ Hr) as (dr & ->). simpl. rewrite ?Hkp. simpl. rewrite ?Hku.
      by eexists.
    + rewrite bool_decide_eq_false_2 by (by intros [? ?]). simpl.
      rewrite lookup_insert_eq. simpl. rewrite ?Hkp. simpl. rewrite ?Hku. by eexists.
  - rewrite bool_decide_eq_false_2 by (by intros [? ?]). simpl. rewrite ?Hku. simpl.
    rewrite ?Hku, lookup_insert_eq. simpl.
    rewrite bool_decide_eq_false_2 by (rewrite lookup_empty; by intros [? ?]). simpl.
    rewrite lookup_insert_eq. simpl. rewrite ?Hkp. simpl. rewrite ?Hku. by eexists.
Qed.

Lemma calls_from_three (w : world) (a b c : request) :
  calls_from w (after_call c (after_call b (after_call a w))) = [a; b; c].
Proof.
  apply calls_from_app. unfold after_call. simpl. by rewrite <- !app_assoc.
Qed.

Lemma json_dict_empty inner : json_dict inner (PDict ∅).
Proof.
  exists ∅. split; [done|]. split; intros k x Hk; by rewrite lookup_empty in Hk.
Qed.

Lemma json_dict_setitem inner c key v c' :
  json_dict inner c → inner v →
  Py.setitem c (PStr key) v = Ok c' → json_dict inner c'.
Proof.
  intros (d & -> & Hkeys & Hinner) Hv [= <-].
  eexists. split; [done|]. split; intros k x [[<- <-]|[_ Hk]]%lookup_insert_Some; eauto.
Qed.

Lemma json_dict_getitem inner c key v :
  json_dict inner c → Py.getitem c key = Ok v → inner v.
Proof.
  intros (d & -> & _ & Hinner). simpl.
  destruct (Py.key_of key) as [k|]; [|done].
  destruct (d !! k) as [x|] eqn:Hk; [|done]. intros [= <-]. eauto.
Qed.

(** With a user and a permission that are strings, the merge keeps the keys
    of a permissions document strings. *)
Lemma add_permission_json section (target_user : string) resource_id
    (permission : string) doc :
  json_permissions_document section →
  add_permission section (PStr target_user) resource_id (PStr permission) = Ok doc →
  json_permissions_document doc.
Proof.
  unfold add_permission, json_permissions_document. intros Hsection Hdoc.
  apply bind_Ok in Hdoc as (known_user & Hknown & Hdoc).
  apply bind_Ok in Hdoc as (cp1 & Hcp1 & Hdoc).
  apply bind_Ok in Hdoc as (of_user & Hof_user & Hdoc).
  apply bind_Ok in Hdoc as (known_resource & Hkr & Hdoc).
  apply bind_Ok in Hdoc as (of_user1 & Hof_user1 & Hdoc).
  apply bind_Ok in Hdoc as (of_resource & Hof_resource & Hdoc).
  apply bind_Ok in Hdoc as (of_resource1 & Hof_resource1 & Hdoc).
  apply bind_Ok in Hdoc as (of_user2 & Hof_user2 & Hdoc).
  assert (json_dict (json_dict (json_dict (fun _ => True))) cp1) as H1.
  { destruct known_user; [by injection Hcp1 as <-|].
    eapply json_dict_setitem; [done | apply json_dict_empty | done]. }
  assert (json_dict (json_dict (fun _ => True)) of_user) as H2
    by (by eapply json_dict_getitem).
  assert (json_dict (json_dict (fun _ => True)) of_user1) as H3.
  { destruct known_resource; [by injection Hof_user1 as <-|].
    eapply json_dict_setitem; [done | apply json_dict_empty | done]. }
  assert (json_dict (fun _ => True) of_resource) as H4
    by (by eapply json_dict_getitem).
  assert (json_dict (fun _ => True) of_resource1) as H5
    by (by eapply json_dict_setitem).
  assert (json_dict (json_dict (fun _ => True)) of_user2) as H6
    by (by eapply json_dict_setitem).
  by eapply json_dict_setitem.
Qed.

Lemma json_permissions_document_plain section :
  json_permissions_document section → permissions_document section.
Proof.
  intros (users & -> & _ & Husers). exists users. split; [done|].
  intros u of_user Hu. destruct (Husers _ _ Hu) as (resources & -> & _ & Hresources).
  exists resources. split; [done|].
  intros r of_resource Hr. destruct (Hresources _ _ Hr) as (permissions & -> & _).
  by exists permissions.
Qed.

(** What [section[user][resource][permission]] gives is the entry. *)
Lemma read_back_entry doc (user resource permission : string) v :
  json_permissions_document doc →
  read_back doc (PStr user) resource (PStr permission) = Ok v →
  entry doc (KStr user) (KStr resource) (KStr permission) = Some v.
Proof.
  intros (users & -> & _ & Husers). unfold read_back, entry. simpl.
  destruct (users !! KStr user) as [of_user|] eqn:Hu; [|done].
  destruct (Husers _ _ Hu) as (resources & -> & _ & Hresources). simpl.
  destruct (resources !! KStr resource) as [of_resource|] eqn:Hr; [|done].
  destruct (Hresources _ _ Hr) as (permissions & -> & _). simpl.
  destruct (permissions !! KStr permission); [by intros [= <-]|done].
Qed.

Lemma add_permission_alone (target_user resource_id permission : string) :
  add_permission (PDict ∅) (PStr target_user) resource_id (PStr permission) =
    Ok (grant_alone target_user resource_id permission).
Proof.
  unfold add_permission, grant_alone. simpl.
  rewrite bool_decide_eq_false_2 by (rewrite lookup_empty; by intros [? ?]). simpl.
  rewrite lookup_insert_eq. simpl.
  rewrite bool_decide_eq_false_2 by (rewrite lookup_empty; by intros [? ?]). simpl.
  rewrite lookup_insert_eq. simpl.
  by rewrite !insert_insert_eq, !insert_empty.
Qed.

(** C9, as the code has it.  [grant_access] is a read-modify-write of the
    permissions section only when its read is answered 200.  Then, for a
    caller the PDP allows, a user and a permission that are strings and a
    body whose [result] (the empty dict if absent) is a permissions
    document, the handler makes three calls: the decision, the read of the
    section, and the write of one document for the whole section.  The
    written document has strings for all its keys, the granted entry in it
    is [True], and every entry of the section read, for another user,
    another resource of the same user, or another permission on the same
    user and resource, is still there with its value.  When the read is
    answered with another status, the section is taken to be empty and the
    document written for the whole section is the grant alone. *)
Theorem grant_access_read_modify_write resource_id request_body user (w : world)
    (rg : response) (target_user permission : string) :
  request_body !! KStr "user" = Some (PStr target_user) →
  default (PStr "read") (request_body !! KStr "relation") = PStr permission →
  Py.truthy (verdict (head (replies w))) = true →
  replies w !! 1%nat = Some (Answer rg) →
  (∀ body,
     status_code rg = 200 →
     json rg = Ok (PDict body) →
     json_permissions_document (default (PDict ∅) (body !! KStr "result")) →
     ∃ decision doc,
       calls_from w (snd (grant_access resource_id request_body user w)) =
         [decision; OpaGetData "permissions"; OpaPutData "permissions" doc] ∧
       json_permissions_document doc ∧
       entry doc (KStr target_user) (KStr resource_id) (KStr permission) =
         Some (PBool true) ∧
       ∀ u r p v,
         entry (default (PDict ∅) (body !! KStr "result")) u r p = Some v →
         (u, r, p) ≠ (KStr target_user, KStr resource_id, KStr permission) →
         entry doc u r p = Some v) ∧
  (status_code rg ≠ 200 →
     ∃ decision,
       calls_from w (snd (grant_access resource_id request_body user w)) =
         [decision; OpaGetData "permissions";
          OpaPutData "permissions" (grant_alone target_user resource_id permission)]).
Proof.
  intros Huser Hperm Hallow Hget. split.
  - intros body Hstatus Hjson Hsection.
    set (section := default (PDict ∅) (body !! KStr "result")) in *.
    destruct (add_permission_total section (PStr target_user) resource_id (PStr permission))
      as [doc Hdoc]; [by apply json_permissions_document_plain | by eexists..|].
    pose proof (add_permission_json _ _ _ _ _ Hsection Hdoc) as Hkeys.
    rewrite grant_access_run by done. cbv zeta.
    rewrite Hget. simpl. rewrite Hstatus, Hjson. simpl.
    fold section. rewrite Huser, Hperm. simpl. rewrite Hdoc.
    eexists _, doc. split; [|split; [done|split]].
    + simpl. apply calls_from_three.
    + apply read_back_entry; [done|]. by eapply add_permission_reads_back.
    + intros u r p v Hentry Hother.
      eapply add_permission_frame; [done..|].
      intros (Hu & -> & Hp). simpl in Hu, Hp. by simplify_eq.
  - intros Hstatus. rewrite grant_access_run by done. cbv zeta.
    rewrite Hget. simpl. apply Z.eqb_neq in Hstatus as ->. simpl.
    rewrite Huser, Hperm. simpl. rewrite add_permission_alone.
    eexists. simpl. apply calls_from_three.
Qed.

Lemma grant_access_read_modify_write_witness :
  (∃ decision doc,
     calls_from {| replies := bob_reads; sent := []; utcnow := "" |}
       (snd (grant_access "doc1" grant_to_bob alice
               {| replies := bob_reads; sent := []; utcnow := "" |})) =
       [decision; OpaGetData "permissions"; OpaPutData "permissions" doc] ∧
     entry doc (KStr "bob") (KStr "doc1") (KStr "write") = Some (PBool true) ∧
     entry doc (KStr "bob") (KStr "doc1") (KStr "read") = Some (PBool true)) ∧
  (∃ decision,
     calls_from read_refused (snd (grant_access "doc1" grant_to_bob alice read_refused)) =
       [decision; OpaGetData "permissions";
        OpaPutData "permissions" (grant_alone "bob" "doc1" "write")]).
Proof.
  split.
  - destruct (grant_access_read_modify_write "doc1" grant_to_bob alice
                {| replies := bob_reads; sent := []; utcnow := "" |}
                {| status_code := 200;
                   json := Ok (PDict {[ KStr "result" :=
                     PDict {[ KStr "bob" :=
                       PDict {[ KStr "doc1" := PDict {[ KStr "read" := PBool true ]} ]} ]} ]});
                   text := "" |} "bob" "write") as [Hmerge _];
      [reflexivity | reflexivity | reflexivity | reflexivity |].
    destruct (Hmerge {[ KStr "result" :=
                PDict {[ KStr "bob" :=
                  PDict {[ KStr "doc1" := PDict {[ KStr "read" := PBool true ]} ]} ]} ]})
      as (decision & doc & Hcalls & _ & Hgranted & Hframe).
    + reflexivity.
    + reflexivity.
    + eexists. split; [reflexivity|].
      split; [intros k x [<- <-]%lookup_singleton_Some; by eexists|].
      intros k x [<- <-]%lookup_singleton_Some.
      eexists. split; [reflexivity|].
      split; [intros k x [<- <-]%lookup_singleton_Some; by eexists|].
      intros k x [<- <-]%lookup_singleton_Some.
      eexists. split; [reflexivity|].
      split; [intros k x [<- <-]%lookup_singleton_Some; by eexists|done].
    + exists decision, doc. split; [exact Hcalls|]. split; [exact Hgranted|].
      apply Hframe; [reflexivity|]. intros [=].
  - destruct (grant_access_read_modify_write "doc1" grant_to_bob alice read_refused
                {| status_code := 503; json := Ok PNone; text := "" |} "bob" "write")
      as [_ Halone]; [reflexivity | reflexivity | reflexivity | reflexivity |].
    apply Halone. done.
Defined.

(** C9 as stated fails: the PDP holds [bob]'s permission to read [doc1] and
    answers the read of the section with 503; the grant of [write] to [bob]
    is reported as a success, and in the section the PDP holds after the
    calls of the handler the permission to read is gone. *)
Lemma grant_access_overwrites_counterexample :
  let w' := snd (grant_access "doc1" grant_to_bob alice read_refused) in
  let before := default PNone (bob_reads_doc1 !! "permissions") in
  let after :=
    default PNone (opa_apply_all bob_reads_doc1 (calls_from read_refused w') !! "permissions") in
  fst (grant_access "doc1" grant_to_bob alice read_refused) =
    Ok (granted "doc1" grant_to_bob) ∧
  entry before (KStr "bob") (KStr "doc1") (KStr "read") = Some (PBool true) ∧
  entry after (KStr "bob") (KStr "doc1") (KStr "read") = None ∧
  entry after (KStr "bob") (KStr "doc1") (KStr "write") = Some (PBool true).
Proof. repeat split; by vm_compute. Qed.

(** *** Failures of the PDP during a mutation *)

Lemma update_policy_fails `{Str} request_body (w : world) :
  acknowledged (head (replies w)) = false →
  ∃ detail, fst (update_policy request_body w) = Raise (HTTPException 500 detail).
Proof.
  intros Hack. unfold update_policy, try_except.
  destruct (negb (Py.truthy _)); simpl; [by eexists|].
  unfold mbind, M_bind, lift.
  destruct (request_data _) as [policy_content|e]; [|by eexists].
  rewrite call_run.
  destruct (head (replies w)) as [[r|msg]|]; simpl in *; try by eexists.
  apply negb_false_iff in Hack. rewrite Hack. simpl. by eexists.
Qed.

Lemma update_permissions_fails request_body (w : world) (i : nat) :
  (i < length (section_writes request_body))%nat →
  raises (replies w !! i) = true →
  ∃ detail, fst (update_permissions request_body w) = Raise (HTTPException 500 detail).
Proof.
  intros Hi Hraises. rewrite update_permissions_loop. unfold try_except.
  match goal with |- context [update_sections _ _ _ ?k w] =>
    destruct (update_sections_cases SECTIONS request_body k [] w)
      as [(acc' & w' & _ & Hall & _) | (msg & w' & n & -> & _)]
  end.
  - specialize (Hall i Hi). congruence.
  - simpl. by eexists.
Qed.

Lemma grant_access_fails resource_id request_body user (w : world) :
  Py.truthy (verdict (head (replies w))) = true →
  raises (replies w !! 1%nat) = true ∨ acknowledged (replies w !! 2%nat) = false →
  fst (grant_access resource_id request_body user w) =
    Raise (HTTPException 500 "Failed to grant access").
Proof.
  intros Hallow Hfail. rewrite grant_access_run by done. cbv zeta.
  destruct (replies w !! 1%nat) as [[rg|msg]|] eqn:Hget; simpl; try done.
  destruct Hfail as [|Hput]; [done|].
  destruct (_ ≫= _) as [doc|e]; simpl; [|done].
  by rewrite Hput.
Qed.

(** A read answered with a status other than 200 is not a failure: the
    section is taken to be empty and the grant goes on. *)
Lemma grant_access_read_not_200 resource_id request_body user (w : world) rg :
  Py.truthy (verdict (head (replies w))) = true →
  replies w !! 1%nat = Some (Answer rg) →
  status_code rg ≠ 200 →
  is_Some (Py.key_of (default PNone (request_body !! KStr "user"))) →
  is_Some (Py.key_of (default (PStr "read") (request_body !! KStr "relation"))) →
  acknowledged (replies w !! 2%nat) = true →
  ∃ decision doc,
    add_permission (PDict ∅) (default PNone (request_body !! KStr "user")) resource_id
      (default (PStr "read") (request_body !! KStr "relation")) = Ok doc ∧
    fst (grant_access resource_id request_body user w) =
      Ok (granted resource_id request_body) ∧
    calls_from w (snd (grant_access resource_id request_body user w)) =
      [decision; OpaGetData "permissions"; OpaPutData "permissions" doc].
Proof.
  intros Hallow Hget Hstatus Htu Hperm Hack.
  destruct (add_permission_total (PDict ∅)
              (default PNone (request_body !! KStr "user")) resource_id
              (default (PStr "read") (request_body !! KStr "relation")))
    as [doc Hdoc]; [|done..|].
  { eexists. split; [done|]. intros u of_user Hu. by rewrite lookup_empty in Hu. }
  rewrite grant_access_run by done. cbv zeta.
  rewrite Hget. simpl. apply Z.eqb_neq in Hstatus as ->. simpl.
  rewrite Hdoc, Hack. eexists _, doc. split; [done|]. split; [done|].
  simpl. apply calls_from_three.
Qed.

(** C6, as the code has it.  [update_policy] fails with 500 unless its call
    is answered 200 or 204.  [update_permissions] fails with 500, and so
    lists nothing as updated, when one of its writes raises.
    [grant_access], for a caller the PDP allows, fails with 500 when its
    read raises or its write is not answered 200 or 204; a read answered
    with another status than 200 is no failure: the section is taken to be
    empty, the grant alone is written and success is reported. *)
Theorem mutations_fail_loud `{Str} :
  (∀ request_body w,
     acknowledged (head (replies w)) = false →
     ∃ detail, fst (update_policy request_body w) = Raise (HTTPException 500 detail)) ∧
  (∀ request_body w i,
     (i < length (section_writes request_body))%nat →
     raises (replies w !! i) = true →
     ∃ detail, fst (update_permissions request_body w) = Raise (HTTPException 500 detail)) ∧
  (∀ resource_id request_body user w,
     Py.truthy (verdict (head (replies w))) = true →
     raises (replies w !! 1%nat) = true ∨ acknowledged (replies w !! 2%nat) = false →
     fst (grant_access resource_id request_body user w) =
       Raise (HTTPException 500 "Failed to grant access")) ∧
  (∀ resource_id request_body user w rg,
     Py.truthy (verdict (head (replies w))) = true →
     replies w !! 1%nat = Some (Answer rg) →
     status_code rg ≠ 200 →
     is_Some (Py.key_of (default PNone (request_body !! KStr "user"))) →
     is_Some (Py.key_of (default (PStr "read") (request_body !! KStr "relation"))) →
     acknowledged (replies w !! 2%nat) = true →
     ∃ decision doc,
       add_permission (PDict ∅) (default PNone (request_body !! KStr "user")) resource_id
         (default (PStr "read") (request_body !! KStr "relation")) = Ok doc ∧
       fst (grant_access resource_id request_body user w) =
         Ok (granted resource_id request_body) ∧
       calls_from w (snd (grant_access resource_id request_body user w)) =
         [decision; OpaGetData "permissions"; OpaPutData "permissions" doc]).
Proof.
  split; [exact update_policy_fails|].
  split; [exact update_permissions_fails|].
  split; [exact grant_access_fails | exact grant_access_read_not_200].
Qed.

(** C6 as stated fails: the read of [grant_access] is answered 503, a
    non-success status, and the handler reports success. *)
Lemma grant_access_read_refused_counterexample :
  acknowledged (replies read_refused !! 1%nat) = false ∧
  fst (grant_access "doc1" grant_to_bob alice read_refused) =
    Ok (granted "doc1" grant_to_bob).
Proof. split; by vm_compute. Qed.

(** [update_permissions] does not look at the status of its writes: a write
    answered 500 is listed as updated. *)
Lemma update_permissions_ignores_status :
  match fst (update_permissions {[ KStr "permissions" := PDict ∅ ]}
               {| replies := [answer 500 PNone]; sent := []; utcnow := "" |}) with
  | Ok response => Py.get response "updated_sections" PNone = Ok (PList [PStr "permissions"])
  | Raise _ => False
  end.
Proof. by vm_compute. Qed.

Lemma mutations_fail_loud_witness :
  (∃ detail, fst (@update_policy scalar_str {[ KStr "policy" := PStr "package authz" ]}
                    {| replies := [answer 500 PNone]; sent := []; utcnow := "" |})
             = Raise (HTTPException 500 detail)) ∧
  (∃ detail, fst (update_permissions {[ KStr "users" := PDict ∅ ]} quiet)
             = Raise (HTTPException 500 detail)) ∧
  fst (grant_access "doc1" grant_to_bob alice
         {| replies := [answer 200 (PDict {[ KStr "result" := PBool true ]});
                        answer 200 (PDict ∅); answer 500 PNone];
            sent := []; utcnow := "" |})
    = Raise (HTTPException 500 "Failed to grant access") ∧
  fst (grant_access "doc1" grant_to_bob alice read_refused) =
    Ok (granted "doc1" grant_to_bob).
Proof.
  destruct (@mutations_fail_loud scalar_str) as (Hpolicy & Hsections & Hgrant & Hread).
  split; [|split; [|split]].
  - apply Hpolicy. reflexivity.
  - apply (Hsections _ _ 0%nat); [vm_compute; lia | reflexivity].
  - apply Hgrant; [reflexivity | right; reflexivity].
  - destruct (Hread "doc1" grant_to_bob alice read_refused
                {| status_code := 503; json := Ok PNone; text := "" |})
      as (? & ? & _ & Hok & _);
      [reflexivity | reflexivity | done | by eexists | by eexists | reflexivity | exact Hok].
Defined.

(** *** [auth_middleware] *)

(** With a header the middleware makes one call, to Hydra, with the header
    less its ["Bearer "] as the token. *)
Lemma auth_middleware_world (header : string) (w : world) :
  header ≠ "" →
  snd (auth_middleware (Some header) w) =
    after_call (HydraIntrospect (PyStr.replace "Bearer " "" header)) w.
Proof.
  intros Hne. unfold auth_middleware.
  destruct header as [|a header]; [done|].
  unfold try_except. unfold mbind at 1, M_bind at 1. rewrite call_run.
  destruct (head (replies w)) as [[r|msg]|]; simpl; try done.
  destruct (status_code r =? 200)%Z; simpl; [|done].
  unfold mbind, M_bind, lift.
  destruct (json r) as [token_info|e]; simpl; [|by destruct e].
  destruct (Py.get token_info "active" (PBool false)) as [active|e]; simpl; [|by destruct e].
  destruct (Py.truthy active); simpl; [|done].
  destruct (Py.get token_info "client_id" (PStr "unknown")) as [?|e]; simpl; [|by destruct e].
  by destruct (Py.get token_info "scope" (PStr "")) as [?|[]].
Qed.

(** An active record makes the verification succeed, with the client
    identifier as the subject. *)
Lemma auth_middleware_active (header : string) (w : world) r rest (token_info : pydict) :
  header ≠ "" →
  replies w = Answer r :: rest →
  status_code r = 200 →
  json r = Ok (PDict token_info) →
  Py.truthy (default (PBool false) (token_info !! KStr "active")) = true →
  fst (auth_middleware (Some header) w) =
    Ok {| user_id := default (PStr "unknown") (token_info !! KStr "client_id");
          client_id := default (PStr "unknown") (token_info !! KStr "client_id");
          token := PyStr.replace "Bearer " "" header;
          scope := default (PStr "") (token_info !! KStr "scope") |}.
Proof.
  intros Hne Hr Hs Hj Hactive. unfold auth_middleware.
  destruct header as [|a header]; [done|].
  unfold try_except. unfold mbind at 1, M_bind at 1. rewrite call_run, Hr. simpl.
  rewrite Hs. simpl. unfold mbind, M_bind, lift. rewrite Hj. simpl.
  by rewrite Hactive.
Qed.

End OpaFacts.

(** ** Graph backend *)

Module OpenFgaFacts.
Import OpenFga.

(** *** The store handle *)

Lemma get_fga_client_cached (w : world) (c : client) :
  _fga_client w = Some c → get_fga_client w = (Ok c, w).
Proof. intros E. unfold get_fga_client. by rewrite E. Qed.

Lemma get_fga_client_first (w : world) (id : string) :
  _fga_client w = None →
  read_store_id (store_id_file w) = Some id → id ≠ "" →
  get_fga_client w =
    (Ok {| api_url := OPENFGA_URL w; store_id := id |},
     with_client {| api_url := OPENFGA_URL w; store_id := id |} w).
Proof.
  intros E Hid Hne. unfold get_fga_client. rewrite E.
  unfold mbind, M_bind, get_store_id. rewrite Hid. simpl.
  destruct id as [|a id]; [done|]. reflexivity.
Qed.

(** C4, as the code has it.  The store identifier is read from the file
    when the handle is first built, whatever was read at start-up; once the
    handle is built every later call returns it as it is, whatever the file
    then says: it is never rebuilt. *)
Theorem get_fga_client_reuses_handle :
  (∀ w id,
     _fga_client w = None →
     read_store_id (store_id_file w) = Some id → id ≠ "" →
     get_fga_client w =
       (Ok {| api_url := OPENFGA_URL w; store_id := id |},
        with_client {| api_url := OPENFGA_URL w; store_id := id |} w)) ∧
  (∀ w c f,
     _fga_client w = Some c →
     get_fga_client (with_file f w) = (Ok c, with_file f w)).
Proof.
  split; [exact get_fga_client_first|].
  intros w c f E. by apply get_fga_client_cached.
Qed.

Lemma get_fga_client_reuses_handle_witness :
  fst (get_fga_client fresh) =
    Ok {| api_url := "http://localhost:8080"; store_id := "store-A" |} ∧
  fst (get_fga_client (with_file (Content "store-B") (snd (get_fga_client fresh)))) =
    Ok {| api_url := "http://localhost:8080"; store_id := "store-A" |}.
Proof.
  destruct get_fga_client_reuses_handle as [Hfirst Hlater].
  split.
  - rewrite (Hfirst fresh "store-A"); [reflexivity | reflexivity | reflexivity | done].
  - rewrite (Hlater (snd (get_fga_client fresh))
               {| api_url := "http://localhost:8080"; store_id := "store-A" |});
      reflexivity.
Defined.

(** C4 as stated fails: the handle is built for [store-A]; the file then
    names [store-B]; the next call does not look at the file and returns
    the handle of [store-A], which stays the cached one. *)
Lemma get_fga_client_stale_counterexample :
  let w1 := with_file (Content "store-B") (snd (get_fga_client fresh)) in
  read_store_id (store_id_file w1) = Some "store-B" ∧
  store_id <$> _fga_client w1 = Some "store-A" ∧
  fst (get_fga_client w1) =
    Ok {| api_url := "http://localhost:8080"; store_id := "store-A" |} ∧
  store_id <$> _fga_client (snd (get_fga_client w1)) = Some "store-A".
Proof. by vm_compute. Qed.

(** *** The grant of a tuple *)

Section grant.
Context `{Str} `{Engine}.

Lemma get_fga_client_Ok (w w' : world) (c : client) :
  get_fga_client w = (Ok c, w') →
  _fga_client w' = Some c ∧ stores w' = stores w.
Proof.
  unfold get_fga_client. destruct (_fga_client w) as [c'|] eqn:E.
  - by intros [= <- <-].
  - unfold mbind, M_bind, get_store_id, raise. simpl.
    destruct (or_str _ _) as [[|a id]|]; try done.
    by intros [= <- <-].
Qed.

(** [sdk_write] changes nothing but the tuples, and those only when it
    succeeds. *)
Lemma sdk_write_world (c : client) (u r : pyval) (o : string) (w : world) :
  _fga_client (snd (sdk_write c u r o w)) = _fga_client w ∧
  (∀ e, fst (sdk_write c u r o w) = Raise e → snd (sdk_write c u r o w) = w).
Proof.
  unfold sdk_write. destruct (stores w !! store_id c) as [tuples|]; [|done].
  destruct u; try done. destruct r; try done.
  case_bool_decide; [done|]. by destruct (refuses _).
Qed.

(** After a write that succeeded the same write is a duplicate. *)
Lemma sdk_write_again (c : client) (u r : pyval) (o : string) (w : world) :
  fst (sdk_write c u r o w) = Ok () →
  ∃ t, sdk_write c u r o (snd (sdk_write c u r o w)) =
         (Raise (Exception (already_exists_text t)), snd (sdk_write c u r o w)).
Proof.
  unfold sdk_write. destruct (stores w !! store_id c) as [tuples|] eqn:Hs; [|done].
  destruct u as [| | |u| |]; try done. destruct r as [| | |r| |]; try done.
  case_bool_decide; [done|]. destruct (refuses _); [done|]. intros _. simpl.
  rewrite lookup_insert_eq. rewrite bool_decide_eq_true_2 by set_solver.
  by eexists.
Qed.

(** [grant_tuple] with the handle at hand. *)
Lemma grant_tuple_run resource_id request_body (w : world) (c : client) :
  _fga_client w = Some c →
  let target_user := default PNone (request_body !! KStr "user") in
  let relation := default (PStr "can_view") (request_body !! KStr "relation") in
  grant_tuple resource_id request_body w =
    match sdk_write c target_user relation ("resource:" +:+ resource_id) w with
    | (Ok _, w') =>
        (Ok (grant_result target_user relation resource_id
               "Access granted successfully" "newly_granted"), w')
    | (Raise e, w') =>
        if PyStr.contains "already exists" (PyStr.lower (str_exn e))
        then (Ok (grant_result target_user relation resource_id
                    "Access already granted (no change needed)" "already_exists"), w')
        else (Raise (HTTPException 500 ("Failed to grant access: " +:+ str_exn e)), w')
    end.
Proof.
  intros E. cbv zeta. unfold grant_tuple, try_except.
  unfold mbind at 1, M_bind at 1. rewrite (get_fga_client_cached _ _ E).
  unfold mbind, M_bind.
  destruct (sdk_write _ _ _ _ w) as [[[]|e] w']; simpl; [done|].
  by destruct (PyStr.contains _ _).
Qed.

(** The duplicate error of the engine says "already exists", in any case of
    letters: what [grant_tuple] looks for. *)
Hypothesis already_exists_says_so :
  ∀ t, PyStr.contains "already exists" (PyStr.lower (already_exists_text t)) = true.

(** A grant that succeeded, made again, says [already_exists] and leaves
    the world as it is. *)
Lemma grant_tuple_again resource_id request_body (w : world) (c : client) response :
  _fga_client w = Some c →
  fst (grant_tuple resource_id request_body w) = Ok response →
  let w1 := snd (grant_tuple resource_id request_body w) in
  _fga_client w1 = Some c ∧
  grant_tuple resource_id request_body w1 =
    (Ok (grant_result (default PNone (request_body !! KStr "user"))
           (default (PStr "can_view") (request_body !! KStr "relation")) resource_id
           "Access already granted (no change needed)" "already_exists"), w1).
Proof using already_exists_says_so.
  intros E. cbv zeta. rewrite (grant_tuple_run _ _ _ _ E). cbv zeta.
  set (u := default PNone _). set (r := default (PStr "can_view") _).
  set (o := "resource:" +:+ resource_id).
  destruct (sdk_write_world c u r o w) as [Hclient Hraise].
  pose proof (sdk_write_again c u r o w) as Hagain.
  destruct (sdk_write c u r o w) as [[[]|e] w'] eqn:Hw; simpl in *.
  - intros _. rewrite Hclient. split; [done|].
    rewrite (grant_tuple_run _ _ w' c) by congruence. cbv zeta. fold u r o.
    destruct Hagain as [t ->]; [done|]. simpl.
    by rewrite already_exists_says_so.
  - destruct (PyStr.contains _ _) eqn:Hc; simpl; [|done]. intros _.
    rewrite (Hraise e) in * by done. split; [done|].
    rewrite (grant_tuple_run _ _ w c) by done. cbv zeta. fold u r o.
    rewrite Hw. by rewrite Hc.
Qed.

(** [check_authorization] never raises: it answers what OpenFGA answers, and
    [False] when the handle cannot be had or the check fails. *)
Lemma fga_check_authorization_run user_id resource_id permission (w : world) :
  check_authorization user_id resource_id permission w =
    match get_fga_client w with
    | (Ok c, w') =>
        (match stores w' !! store_id c with
         | Some tuples =>
             Ok (resolve tuples
                   {| user := "user:" +:+ str user_id; relation := permission;
                      object := "resource:" +:+ resource_id |})
         | None => Ok false
         end, w')
    | (Raise _, w') => (Ok false, w')
    end.
Proof.
  unfold check_authorization, try_except, mbind, M_bind, sdk_check.
  destruct (get_fga_client w) as [[c|e] w']; [|done].
  by destruct (stores w' !! store_id c).
Qed.

(** With the handle at hand it leaves the world as it is. *)
Lemma check_authorization_world user_id resource_id permission (w : world) (c : client) :
  _fga_client w = Some c →
  snd (check_authorization user_id resource_id permission w) = w.
Proof.
  intros E. by rewrite fga_check_authorization_run, (get_fga_client_cached _ _ E).
Qed.

(** When it says yes the handle is at hand. *)
Lemma check_authorization_true user_id resource_id permission (w : world) :
  fst (check_authorization user_id resource_id permission w) = Ok true →
  is_Some (_fga_client (snd (check_authorization user_id resource_id permission w))).
Proof.
  rewrite fga_check_authorization_run.
  destruct (get_fga_client w) as [[c|e] w'] eqn:Hc; simpl; [|done].
  apply get_fga_client_Ok in Hc as [Hc _]. intros _. by eexists.
Qed.

Lemma fga_grant_access_run resource_id request_body user (w : world) :
  grant_access resource_id request_body user w =
    match check_authorization (user_id user) resource_id "owner" w with
    | (Ok true, w0) => grant_tuple resource_id request_body w0
    | (Ok false, w0) =>
        (Raise (HTTPException 403 "Only resource owners can grant access"), w0)
    | (Raise e, w0) => (Raise e, w0)
    end.
Proof.
  unfold grant_access, mbind, M_bind.
  by destruct (check_authorization _ _ _ w) as [[[|]|e] w0].
Qed.

(** C7.  Granting twice is idempotent.  When [grant_access] has succeeded
    for a tuple and the caller is still an owner, the same call made again
    succeeds with status ["already_exists"] and leaves the world as the
    first call left it: the tuples of every store, and so the answer of
    OpenFGA to every check, are those after the first call. *)
Theorem grant_access_idempotent resource_id request_body user (w : world) response :
  fst (grant_access resource_id request_body user w) = Ok response →
  let w1 := snd (grant_access resource_id request_body user w) in
  fst (check_authorization (user_id user) resource_id "owner" w1) = Ok true →
  ∃ again,
    grant_access resource_id request_body user w1 = (Ok again, w1) ∧
    Py.get again "status" PNone = Ok (PStr "already_exists") ∧
    let w2 := snd (grant_access resource_id request_body user w1) in
    stores w2 = stores w1 ∧
    ∀ c request, sdk_check c request w2 = sdk_check c request w1.
Proof using already_exists_says_so.
  intros Hfirst w1 Howner.
  assert (∃ w0 c, _fga_client w0 = Some c ∧
                  fst (grant_tuple resource_id request_body w0) = Ok response ∧
                  w1 = snd (grant_tuple resource_id request_body w0))
    as (w0 & c & Hc & Htuple & Hw1).
  { subst w1. rewrite fga_grant_access_run in *.
    pose proof (check_authorization_true (user_id user) resource_id "owner" w) as Hhandle.
    destruct (check_authorization (user_id user) resource_id "owner" w)
      as [[[|]|e] w0]; simpl in *; try done.
    destruct Hhandle as [c Hc]; [done|]. by exists w0, c. }
  destruct (grant_tuple_again resource_id request_body w0 c response Hc Htuple)
    as [Hc1 Hagain].
  rewrite <- Hw1 in Hc1, Hagain. clearbody w1.
  assert (grant_access resource_id request_body user w1 =
            (Ok (grant_result (default PNone (request_body !! KStr "user"))
                   (default (PStr "can_view") (request_body !! KStr "relation"))
                   resource_id
                   "Access already granted (no change needed)" "already_exists"), w1))
    as Hsecond.
  { rewrite fga_grant_access_run.
    pose proof (check_authorization_world (user_id user) resource_id "owner" w1 c Hc1)
      as Hsame.
    destruct (check_authorization (user_id user) resource_id "owner" w1)
      as [[[|]|e] w1']; simpl in *; try done.
    by subst w1'. }
  eexists. rewrite Hsecond. simpl. split; [done|]. split; [reflexivity|]. done.
Qed.

End grant.

Lemma grant_access_idempotent_witness :
  let w1 := snd (@grant_access scalar_str direct_engine "doc2" view_for_carol bob fresh) in
  ∃ again,
    @grant_access scalar_str direct_engine "doc2" view_for_carol bob w1 = (Ok again, w1) ∧
    Py.get again "status" PNone = Ok (PStr "already_exists").
Proof.
  intros w1.
  destruct (@grant_access_idempotent scalar_str direct_engine (fun _ => eq_refl)
              "doc2" view_for_carol bob fresh
              (grant_result (PStr "user:carol") (PStr "can_view") "doc2"
                 "Access granted successfully" "newly_granted"))
    as (again & Hagain & Hstatus & _).
  - by vm_compute.
  - by vm_compute.
  - exists again. split; [exact Hagain | exact Hstatus].
Defined.

(** Scenario C and D of the graph backend: after the grant by [bob] the
    check for [carol] is allowed, and it still is after the second grant. *)
Lemma carol_can_view_after_both_grants :
  let w1 := snd (@grant_access scalar_str direct_engine "doc2" view_for_carol bob fresh) in
  let w2 := snd (@grant_access scalar_str direct_engine "doc2" view_for_carol bob w1) in
  fst (@check_authorization scalar_str direct_engine (PStr "carol") "doc2" "can_view" w1)
    = Ok true ∧
  fst (@check_authorization scalar_str direct_engine (PStr "carol") "doc2" "can_view" w2)
    = Ok true.
Proof. by vm_compute. Qed.

(** *** [auth_middleware] *)

Lemma introspect_run (token : string) (w : world) :
  introspect token w =
    (match head (replies w) with
     | Some (Answer r) => Ok r
     | Some (Fails msg) => Raise (Exception msg)
     | None => Raise (Exception "All connection attempts failed")
     end, after_introspect token w).
Proof. unfold introspect, after_introspect. by destruct (replies w) as [|[r|msg] rest]. Qed.

(** With a header the middleware makes one call, to Hydra, with the header
    less its ["Bearer "] as the token. *)
Lemma fga_auth_middleware_world (header : string) (w : world) :
  header ≠ "" →
  snd (auth_middleware (Some header) w) =
    after_introspect (PyStr.replace "Bearer " "" header) w.
Proof.
  intros Hne. unfold auth_middleware.
  destruct header as [|a header]; [done|].
  unfold try_except. unfold mbind at 1, M_bind at 1. rewrite introspect_run.
  destruct (head (replies w)) as [[r|msg]|]; simpl; try done.
  destruct (status_code r =? 200)%Z; simpl; [|done].
  unfold mbind, M_bind, lift.
  destruct (json r) as [token_info|e]; simpl; [|by destruct e].
  destruct (Py.get token_info "active" (PBool false)) as [active|e]; simpl; [|by destruct e].
  destruct (Py.truthy active); simpl; [|done].
  destruct (Py.get token_info "preferred_username" PNone) as [?|e]; simpl; [|by destruct e].
  destruct (Py.get token_info "client_id" (PStr "unknown")) as [?|e]; simpl; [|by destruct e].
  by destruct (Py.get token_info "scope" (PStr "")) as [?|[]].
Qed.

(** An active record makes the verification succeed, with the principal
    name as the subject when it is there and truthy, and the client
    identifier otherwise. *)
Lemma fga_auth_middleware_active (header : string) (w : world) r rest (token_info : pydict) :
  header ≠ "" →
  replies w = Answer r :: rest →
  status_code r = 200 →
  json r = Ok (PDict token_info) →
  Py.truthy (default (PBool false) (token_info !! KStr "active")) = true →
  fst (auth_middleware (Some header) w) =
    Ok {| user_id :=
            Py.or_ (default PNone (token_info !! KStr "preferred_username"))
                   (default (PStr "unknown") (token_info !! KStr "client_id"));
          client_id := default (PStr "unknown") (token_info !! KStr "client_id");
          token := PyStr.replace "Bearer " "" header;
          scope := default (PStr "") (token_info !! KStr "scope") |}.
Proof.
  intros Hne Hr Hs Hj Hactive. unfold auth_middleware.
  destruct header as [|a header]; [done|].
  unfold try_except. unfold mbind at 1, M_bind at 1. rewrite introspect_run, Hr. simpl.
  rewrite Hs. simpl. unfold mbind, M_bind, lift. rewrite Hj. simpl.
  by rewrite Hactive.
Qed.

End OpenFgaFacts.

(** ** Both services *)

Module GatewayFacts.

(** C5, as the code has it.  When Hydra answers 200 with an active record,
    the verification succeeds in both services, whether or not the record
    has a principal name.  In the attribute backend the subject is the
    client identifier of the record, or ["unknown"] without one; the
    principal name is not looked at.  In the graph backend the subject is
    the principal name when the record has one and it is truthy, and
    otherwise the client identifier, or ["unknown"] without one. *)
Theorem subject_id_derivation (header : string) (r : response) (token_info : pydict)
    (wo : Opa.world) (rest_o : list reply) (wf : OpenFga.world) (rest_f : list reply) :
  let fallback := default (PStr "unknown") (token_info !! KStr "client_id") in
  header ≠ "" →
  Opa.replies wo = Answer r :: rest_o →
  OpenFga.replies wf = Answer r :: rest_f →
  status_code r = 200 →
  json r = Ok (PDict token_info) →
  Py.truthy (default (PBool false) (token_info !! KStr "active")) = true →
  (∃ verified,
     fst (Opa.auth_middleware (Some header) wo) = Ok verified ∧
     user_id verified = fallback) ∧
  (∃ verified,
     fst (OpenFga.auth_middleware (Some header) wf) = Ok verified ∧
     user_id verified =
       match token_info !! KStr "preferred_username" with
       | Some name => if Py.truthy name then name else fallback
       | None => fallback
       end).
Proof.
  intros fallback Hne Ho Hf Hs Hj Hactive. split.
  - eexists. split; [by eapply OpaFacts.auth_middleware_active|]. done.
  - eexists. split; [by eapply OpenFgaFacts.fga_auth_middleware_active|].
    simpl. unfold Py.or_. by destruct (token_info !! KStr "preferred_username").
Qed.

Lemma subject_id_derivation_witness :
  (∃ verified,
     fst (Opa.auth_middleware (Some "Bearer t0")
            {| Opa.replies := [Answer (introspected_as named_record)];
               Opa.sent := []; Opa.utcnow := "" |}) = Ok verified ∧
     user_id verified = PStr "svc-1") ∧
  (∃ verified,
     fst (OpenFga.auth_middleware (Some "Bearer t0")
            (OpenFga.startup "" OpenFga.Missing
               [Answer (introspected_as named_record)] ∅)) = Ok verified ∧
     user_id verified = PStr "alice").
Proof.
  apply (subject_id_derivation "Bearer t0" (introspected_as named_record) named_record
           {| Opa.replies := [Answer (introspected_as named_record)];
              Opa.sent := []; Opa.utcnow := "" |} []
           (OpenFga.startup "" OpenFga.Missing [Answer (introspected_as named_record)] ∅)
           []); done.
Defined.

(** C5 as stated fails.  In the attribute backend a record with the
    principal name ["alice"] gives the subject ["svc-1"], its client
    identifier; in the graph backend a record whose principal name is there
    but empty gives the client identifier too. *)
Lemma subject_id_counterexample :
  named_record !! KStr "preferred_username" = Some (PStr "alice") ∧
  user_id_of (fst (Opa.auth_middleware (Some "Bearer t0")
                     {| Opa.replies := [Answer (introspected_as named_record)];
                        Opa.sent := []; Opa.utcnow := "" |})) = Some (PStr "svc-1") ∧
  unnamed_record !! KStr "preferred_username" = Some (PStr "") ∧
  user_id_of (fst (OpenFga.auth_middleware (Some "Bearer t0")
                     (OpenFga.startup "" OpenFga.Missing
                        [Answer (introspected_as unnamed_record)] ∅)))
    = Some (PStr "svc-1").
Proof. by vm_compute. Qed.

(** C10.  Token extraction.  In both services a non-empty header leads to
    one call to Hydra whose token is the header with ["Bearer "] replaced by
    nothing.  The replacement removes an occurrence wherever it stands, not
    only in front: what is left of [a ++ "Bearer " ++ b] is what is left of
    [a] followed by what is left of [b].  A header without any occurrence is
    not refused: it is itself the token sent. *)
Theorem bearer_token_extraction :
  (∀ header wo, header ≠ "" →
     Opa.calls_from wo (snd (Opa.auth_middleware (Some header) wo)) =
       [Opa.HydraIntrospect (PyStr.replace "Bearer " "" header)]) ∧
  (∀ header wf, header ≠ "" →
     OpenFga.introspected (snd (OpenFga.auth_middleware (Some header) wf)) =
       OpenFga.introspected wf ++ [PyStr.replace "Bearer " "" header]) ∧
  (∀ a b,
     PyStr.replace "Bearer " "" (a +:+ "Bearer " +:+ b) =
       PyStr.replace "Bearer " "" a +:+ PyStr.replace "Bearer " "" b) ∧
  (∀ header,
     PyStr.contains "Bearer " header = false →
     PyStr.replace "Bearer " "" header = header).
Proof.
  split; [|split; [|split]].
  - intros header wo Hne. rewrite OpaFacts.auth_middleware_world by done.
    by apply OpaFacts.calls_from_app.
  - intros header wf Hne. by rewrite OpenFgaFacts.fga_auth_middleware_world.
  - intros a b. unfold PyStr.replace.
    apply PyStrFacts.replace_from_bearer_app. lia.
  - intros header. apply PyStrFacts.replace_absent.
Qed.

Lemma bearer_token_extraction_witness :
  Opa.calls_from Opa.quiet (snd (Opa.auth_middleware (Some "abc123") Opa.quiet)) =
    [Opa.HydraIntrospect "abc123"] ∧
  OpenFga.introspected (snd (OpenFga.auth_middleware (Some "abc123") OpenFga.fresh)) =
    ["abc123"] ∧
  PyStr.replace "Bearer " "" ("Basic " +:+ "Bearer " +:+ "abc Bearer 123") = "Basic abc 123".
Proof.
  destruct bearer_token_extraction as (Ho & Hf & Hany & Hnone).
  split; [|split].
  - rewrite (Ho "abc123" Opa.quiet) by done.
    by rewrite (Hnone "abc123") by reflexivity.
  - rewrite (Hf "abc123" OpenFga.fresh) by done.
    by rewrite (Hnone "abc123") by reflexivity.
  - rewrite (Hany "Basic " "abc Bearer 123"). reflexivity.
Defined.

End GatewayFacts.

(** * More of the two services *)

(** ** Attribute backend: the other operations *)

Module OpaMore.
Import Opa OpaFacts.

Lemma calls_from_one (w : world) (rq : request) :
  calls_from w (after_call rq w) = [rq].
Proof. by apply calls_from_app. Qed.

(** X1.  [check_authorization] hands on the [result] of the PDP as it is,
    boolean or not, and the handlers test it for truth: a [result] that is
    a non-empty string or a non-zero number lets the caller in, and one
    that is [null], [0], empty or [false] keeps the caller out. *)
Theorem check_authorization_result_as_is user_id0 resource_id method context user
    (w : world) (r : response) (rest : list reply) (body : pydict) (result : pyval) :
  replies w = Answer r :: rest →
  status_code r = 200 →
  json r = Ok (PDict body) →
  body !! KStr "result" = Some result →
  fst (check_authorization user_id0 resource_id method context w) = Ok result ∧
  (Py.truthy result = true →
     ∃ response, fst (get_resource resource_id user w) = Ok response) ∧
  (Py.truthy result = false →
     fst (get_resource resource_id user w) = Raise (HTTPException 403 "Access denied")).
Proof.
  intros Hr Hs Hj Hres.
  assert (verdict (head (replies w)) = result) as Hv.
  { rewrite Hr. simpl. rewrite Hs, Hj. simpl. by rewrite Hres. }
  split; [by rewrite check_authorization_run, Hv|].
  unfold get_resource, mbind, M_bind. rewrite check_authorization_run, Hv. simpl.
  split; intros ->; simpl; [by eexists | done].
Qed.

Lemma check_authorization_result_as_is_witness :
  fst (check_authorization (PStr "alice") "doc1" "GET" None
         {| replies := [answer 200 (PDict {[ KStr "result" := PStr "no" ]})];
            sent := []; utcnow := "" |}) = Ok (PStr "no") ∧
  ∃ response,
    fst (get_resource "doc1" alice
           {| replies := [answer 200 (PDict {[ KStr "result" := PStr "no" ]})];
              sent := []; utcnow := "" |}) = Ok response.
Proof.
  destruct (check_authorization_result_as_is (PStr "alice") "doc1" "GET" None alice
              {| replies := [answer 200 (PDict {[ KStr "result" := PStr "no" ]})];
                 sent := []; utcnow := "" |}
              {| status_code := 200; json := Ok (PDict {[ KStr "result" := PStr "no" ]});
                 text := "" |} [] {[ KStr "result" := PStr "no" ]} (PStr "no"))
    as (Hcheck & Hin & _); [reflexivity..|].
  split; [exact Hcheck | by apply Hin].
Defined.

(** X2.  The three protected operations on a resource never fail with
    anything but 403: each makes exactly one call, the decision, with the
    action [read], [update] or [delete], and answers by the truth of the
    verdict alone.  What the PDP is unable to decide is a 403 too. *)
Theorem protected_operations `{Str} resource_id request_body user (w : world) :
  let allowed := Py.truthy (verdict (head (replies w))) in
  let answers (o : outcome pyval) :=
    if allowed then ∃ response, o = Ok response
    else o = Raise (HTTPException 403 "Access denied") in
  (∃ rq,
     calls_from w (snd (get_resource resource_id user w)) = [rq] ∧
     decision_action rq = Some (PStr "read") ∧
     answers (fst (get_resource resource_id user w))) ∧
  (∃ rq,
     calls_from w (snd (update_resource resource_id request_body user w)) = [rq] ∧
     decision_action rq = Some (PStr "update") ∧
     answers (fst (update_resource resource_id request_body user w))) ∧
  (∃ rq,
     calls_from w (snd (delete_resource resource_id user w)) = [rq] ∧
     decision_action rq = Some (PStr "delete") ∧
     answers (fst (delete_resource resource_id user w))).
Proof.
  intros allowed answers. subst allowed answers.
  unfold get_resource, update_resource, delete_resource, mbind, M_bind.
  rewrite !check_authorization_run.
  split; [|split]; destruct (Py.truthy _); simpl;
    eexists; (split; [apply calls_from_one|]); (split; [reflexivity|]);
    first [by eexists | reflexivity].
Qed.

Lemma calls_from_two (w : world) (a b : request) :
  calls_from w (after_call b (after_call a w)) = [a; b].
Proof. apply calls_from_app. unfold after_call. simpl. by rewrite <- !app_assoc. Qed.

(** The run of [grant_access] for a caller the PDP does not allow. *)
Lemma grant_access_refused resource_id request_body user (w : world) :
  Py.truthy (verdict (head (replies w))) = false →
  grant_access resource_id request_body user w =
    (Raise (HTTPException 403 "Only resource administrators can grant access"),
     after_call (OpaAllow (PDict {[ KStr "input" :=
        PDict (policy_input (user_id user) resource_id "POST" (utcnow w)
                 (Some (<[KStr "action" := PStr "grant_permission"]>
                          (grant_context request_body)))) ]})) w).
Proof.
  intros Hno. unfold grant_access. unfold mbind at 1, M_bind at 1.
  by rewrite check_authorization_run, Hno.
Qed.

(** X3.  [grant_access] writes to the PDP only what it merged, only for a
    caller the PDP allows, and once: a [PUT] among its calls is the one of
    the permissions section with the document that the merge of what was
    read gave, and it is the last of exactly three calls, after the
    decision and the read.  When the caller is not allowed, or the merge
    fails, nothing is written. *)
Theorem grant_access_writes_only_the_merge resource_id request_body user (w : world)
    (section : string) (doc : pyval) :
  OpaPutData section doc ∈ calls_from w (snd (grant_access resource_id request_body user w)) →
  section = "permissions" ∧
  Py.truthy (verdict (head (replies w))) = true ∧
  merged (replies w !! 1%nat) resource_id request_body = Ok doc ∧
  ∃ decision,
    calls_from w (snd (grant_access resource_id request_body user w)) =
      [decision; OpaGetData "permissions"; OpaPutData "permissions" doc].
Proof.
  destruct (Py.truthy (verdict (head (replies w)))) eqn:Hallow.
  - rewrite grant_access_run by done. cbv zeta. fold (merged (replies w !! 1%nat)
      resource_id request_body).
    destruct (merged _ _ _) as [doc'|e]; simpl.
    + rewrite calls_from_three. intros Hin.
      apply elem_of_cons in Hin as [[=]|Hin].
      apply elem_of_cons in Hin as [[=]|Hin].
      apply list_elem_of_singleton in Hin as [= -> ->].
      repeat split; [done..|]. by eexists.
    + rewrite calls_from_two. intros Hin.
      apply elem_of_cons in Hin as [[=]|Hin].
      by apply list_elem_of_singleton in Hin.
  - rewrite grant_access_refused by done. simpl. rewrite calls_from_one.
    intros Hin. by apply list_elem_of_singleton in Hin.
Qed.

Lemma grant_access_writes_only_the_merge_witness :
  Py.truthy (verdict (head (replies read_refused))) = true ∧
  merged (replies read_refused !! 1%nat) "doc1" grant_to_bob =
    Ok (PDict {[ KStr "bob" := PDict {[ KStr "doc1" := PDict {[ KStr "write" := PBool true ]} ]} ]}).
Proof.
  destruct (grant_access_writes_only_the_merge "doc1" grant_to_bob alice read_refused
              "permissions"
              (PDict {[ KStr "bob" :=
                 PDict {[ KStr "doc1" := PDict {[ KStr "write" := PBool true ]} ]} ]}))
    as (_ & Hallow & Hmerged & _).
  - vm_compute. apply list_elem_of_In. right. right. left. reflexivity.
  - split; [exact Hallow | exact Hmerged].
Defined.

Lemma setitem_setitem (c key v c' : pyval) :
  Py.setitem c key v = Ok c' → Py.setitem c' key v = Ok c'.
Proof.
  destruct c as [| | | |l|d]; simpl; try done.
  - destruct (Py.as_int key) as [i|] eqn:Hi; [|done].
    destruct (Py.index (length l) i) as [n|] eqn:Hn; [|done].
    intros [= <-]. simpl. rewrite Hi, length_insert, Hn.
    by rewrite list_insert_insert_eq.
  - destruct (Py.key_of key) as [k|] eqn:Hk; [|done].
    intros [= <-]. simpl. by rewrite Hk, insert_insert_eq.
Qed.

Lemma contains_setitem_dict (d : pydict) (key v c' : pyval) :
  Py.setitem (PDict d) key v = Ok c' → Py.contains key c' = Ok true.
Proof.
  simpl. destruct (Py.key_of key) as [k|] eqn:Hk; [|done].
  intros [= <-]. simpl. rewrite Hk, lookup_insert_eq.
  by rewrite bool_decide_eq_true_2 by (by eexists).
Qed.

(** X4.  Granting is idempotent on the document: when the merge of a grant
    into a section that is a dict succeeds, merging the same grant into the
    result gives the result again. *)
Theorem add_permission_idempotent (users : pydict) target_user resource_id permission doc :
  add_permission (PDict users) target_user resource_id permission = Ok doc →
  add_permission doc target_user resource_id permission = Ok doc.
Proof.
  unfold add_permission. intros Hdoc.
  apply bind_Ok in Hdoc as (known_user & Hknown & Hdoc).
  apply bind_Ok in Hdoc as (cp1 & Hcp1 & Hdoc).
  apply bind_Ok in Hdoc as (of_user & Hof_user & Hdoc).
  apply bind_Ok in Hdoc as (known_resource & Hkr & Hdoc).
  apply bind_Ok in Hdoc as (of_user1 & Hof_user1 & Hdoc).
  apply bind_Ok in Hdoc as (of_resource & Hof_resource & Hdoc).
  apply bind_Ok in Hdoc as (of_resource1 & Hof_resource1 & Hdoc).
  apply bind_Ok in Hdoc as (of_user2 & Hof_user2 & Hdoc).
  (* the containers on the way are dicts *)
  assert (∃ d1, cp1 = PDict d1) as [d1 ->].
  { destruct known_user; simpl in Hcp1.
    - injection Hcp1 as <-. by eexists.
    - destruct (Py.key_of target_user); [|done]. injection Hcp1 as <-. by eexists. }
  assert (∃ du1, of_user1 = PDict du1) as [du1 ->].
  { destruct of_user1 as [| | | |l|du1]; try (simpl in Hof_user2; done).
    by eexists. }
  (* the second merge finds everything in place *)
  rewrite (contains_setitem_dict _ _ _ _ Hdoc). simpl.
  rewrite (PyFacts.getitem_setitem _ _ _ _ Hdoc). simpl.
  rewrite (contains_setitem_dict _ _ _ _ Hof_user2). simpl.
  rewrite (PyFacts.getitem_setitem _ _ _ _ Hof_user2). simpl.
  rewrite (setitem_setitem _ _ _ _ Hof_resource1). simpl.
  rewrite (setitem_setitem _ _ _ _ Hof_user2). simpl.
  exact (setitem_setitem _ _ _ _ Hdoc).
Qed.

Lemma add_permission_idempotent_witness :
  add_permission
    (PDict {[ KStr "bob" := PDict {[ KStr "doc1" := PDict {[ KStr "read" := PBool true ]} ]} ]})
    (PStr "bob") "doc1" (PStr "read") =
  Ok (PDict {[ KStr "bob" := PDict {[ KStr "doc1" := PDict {[ KStr "read" := PBool true ]} ]} ]}).
Proof.
  apply (add_permission_idempotent ∅). by vm_compute.
Defined.

Lemma named_cons_absent (request_body : pydict) (name : string) names :
  request_body !! KStr name = None →
  filter (fun name => is_Some (request_body !! KStr name)) (name :: names) =
    filter (fun name => is_Some (request_body !! KStr name)) names.
Proof. intros E. rewrite filter_cons_False; [done|]. rewrite E. by intros [? ?]. Qed.

Lemma named_cons_present (request_body : pydict) (name : string) names doc :
  request_body !! KStr name = Some doc →
  filter (fun name => is_Some (request_body !! KStr name)) (name :: names) =
    name :: filter (fun name => is_Some (request_body !! KStr name)) names.
Proof. intros E. rewrite filter_cons_True; [done|]. rewrite E. by eexists. Qed.

(** When no write raises, the loop makes them all, in the order of the
    names, and goes on with the names it found. *)
Lemma update_sections_all {A} names (request_body : pydict) (k : list pyval → H A) :
  ∀ updated_sections w,
    (∀ i, (i < length (writes request_body names))%nat →
          raises (replies w !! i) = false) →
    update_sections names request_body updated_sections k w =
      k (updated_sections ++
           (PStr <$> filter (fun name => is_Some (request_body !! KStr name)) names))
        {| replies := drop (length (writes request_body names)) (replies w);
           sent := sent w ++ writes request_body names;
           utcnow := utcnow w |}.
Proof.
  induction names as [|name names IH]; intros acc w Hall.
  { simpl. rewrite !app_nil_r, drop_0. by destruct w. }
  destruct (request_body !! KStr name) as [doc|] eqn:Hdoc.
  2: { rewrite update_sections_absent, named_cons_absent by done.
       rewrite writes_absent in * by done. by apply IH. }
  rewrite (update_sections_present _ _ _ _ _ _ doc), (named_cons_present _ _ _ doc)
    by done.
  rewrite (writes_present _ _ _ doc) in * by done.
  pose proof (Hall 0%nat ltac:(simpl; lia)) as H0.
  destruct (replies w) as [|[r|msg] rest] eqn:Hrs; simpl in H0; try done.
  simpl. rewrite IH.
  - unfold after_call. simpl. rewrite Hrs. simpl.
    by rewrite <- !app_assoc.
  - intros i Hi. unfold after_call. simpl. rewrite Hrs. simpl.
    apply (Hall (S i)). simpl. lia.
Qed.

(** When a write raises after all the ones before it were answered, the
    loop stops there: the writes up to that one have gone out. *)
Lemma update_sections_stop {A} names (request_body : pydict) (k : list pyval → H A) :
  ∀ updated_sections w n,
    (n < length (writes request_body names))%nat →
    raises (replies w !! n) = true →
    (∀ i, (i < n)%nat → raises (replies w !! i) = false) →
    ∃ msg w',
      update_sections names request_body updated_sections k w =
        (Raise (Exception msg), w') ∧
      sent w' = sent w ++ take (S n) (writes request_body names).
Proof.
  induction names as [|name names IH]; intros acc w n Hn Hraise Hbefore.
  { simpl in Hn. lia. }
  destruct (request_body !! KStr name) as [doc|] eqn:Hdoc.
  2: { rewrite update_sections_absent by done.
       rewrite writes_absent in * by done. by apply IH. }
  rewrite (update_sections_present _ _ _ _ _ _ doc) by done.
  rewrite (writes_present _ _ _ doc) in * by done.
  destruct n as [|n].
  - destruct (replies w) as [|[r|msg] rest] eqn:Hrs; simpl in Hraise; try done;
      simpl; eexists _, _; (split; [done|]); by rewrite take_0.
  - pose proof (Hbefore 0%nat ltac:(lia)) as H0.
    destruct (replies w) as [|[r|msg] rest] eqn:Hrs; simpl in H0; try done.
    simpl in Hn, Hraise. simpl.
    destruct (IH (acc ++ [PStr name]) (after_call (OpaPutData name doc) w) n)
      as (msg & w' & -> & Hs).
    + lia.
    + unfold after_call. simpl. by rewrite Hrs.
    + intros i Hi. unfold after_call. simpl. rewrite Hrs. simpl.
      apply (Hbefore (S i)). lia.
    + exists msg, w'. split; [done|]. rewrite Hs. unfold after_call. simpl.
      by rewrite <- app_assoc.
Qed.

(** X5.  [update_permissions] writes the sections its body names in the
    fixed order of the source, whatever the order of the body.  When no
    write raises it reports exactly those names as updated, whatever the
    status the PDP answered with.  When a write raises it reports 500 and
    the writes before it are not undone: they and the failing one have gone
    out. *)
Theorem update_permissions_in_order request_body (w : world) :
  ((∀ i, (i < length (section_writes request_body))%nat →
         raises (replies w !! i) = false) →
   calls_from w (snd (update_permissions request_body w)) = section_writes request_body ∧
   ∃ response,
     fst (update_permissions request_body w) = Ok response ∧
     Py.get response "updated_sections" PNone =
       Ok (PList (PStr <$> named_sections request_body))) ∧
  (∀ n,
     (n < length (section_writes request_body))%nat →
     raises (replies w !! n) = true →
     (∀ i, (i < n)%nat → raises (replies w !! i) = false) →
     calls_from w (snd (update_permissions request_body w)) =
       take (S n) (section_writes request_body) ∧
     ∃ detail,
       fst (update_permissions request_body w) = Raise (HTTPException 500 detail)).
Proof.
  rewrite update_permissions_loop. unfold try_except, section_writes, named_sections.
  split.
  - intros Hall. rewrite update_sections_all by done. simpl.
    split; [by apply calls_from_app|]. eexists. split; [reflexivity|]. reflexivity.
  - intros n Hn Hraise Hbefore.
    match goal with |- context [update_sections _ _ _ ?k w] =>
      destruct (update_sections_stop SECTIONS request_body k [] w n)
        as (msg & w' & -> & Hs); [done..|]
    end.
    simpl. split; [by apply calls_from_app | by eexists].
Qed.

Lemma update_permissions_in_order_witness :
  calls_from {| replies := [answer 204 PNone; answer 500 PNone]; sent := []; utcnow := "" |}
    (snd (update_permissions
            {[ KStr "users" := PDict ∅; KStr "permissions" := PList [] ]}
            {| replies := [answer 204 PNone; answer 500 PNone]; sent := []; utcnow := "" |}))
    = [OpaPutData "permissions" (PList []); OpaPutData "users" (PDict ∅)] ∧
  calls_from {| replies := [answer 204 PNone]; sent := []; utcnow := "" |}
    (snd (update_permissions
            {[ KStr "users" := PDict ∅; KStr "permissions" := PList [] ]}
            {| replies := [answer 204 PNone]; sent := []; utcnow := "" |}))
    = [OpaPutData "permissions" (PList []); OpaPutData "users" (PDict ∅)].
Proof.
  split.
  - destruct (update_permissions_in_order
                {[ KStr "users" := PDict ∅; KStr "permissions" := PList [] ]}
                {| replies := [answer 204 PNone; answer 500 PNone];
                   sent := []; utcnow := "" |}) as [Hall _].
    destruct Hall as [Hcalls _]; [|exact Hcalls].
    intros [|[|i]] Hi; try reflexivity. vm_compute in Hi. lia.
  - destruct (update_permissions_in_order
                {[ KStr "users" := PDict ∅; KStr "permissions" := PList [] ]}
                {| replies := [answer 204 PNone]; sent := []; utcnow := "" |})
      as [_ Hstop].
    destruct (Hstop 1%nat) as [Hcalls _]; [vm_compute; lia | reflexivity | by intros [|i] Hi; [|lia] | exact Hcalls].
Defined.

(** X6.  [update_policy] with a policy source that is a non-empty string,
    under a plain name (["authz"] when the body has none), makes exactly
    one call, the push of that source under that name, and succeeds exactly
    when the call is answered 200 or 204; when it is not, the push has gone
    out all the same and the caller gets 500.  A policy source that is a
    number, [true] or a non-empty list is never pushed: the HTTP client
    refuses to send it, no call is made, and the caller gets 500 whatever
    the PDP would have answered. *)
Theorem update_policy_pushes `{Str} request_body (w : world) :
  let policy_name := default (PStr "authz") (request_body !! KStr "name") in
  (∀ source,
     request_body !! KStr "policy" = Some (PStr source) →
     source ≠ "" →
     plain_name policy_name = true →
     calls_from w (snd (update_policy request_body w)) =
       [OpaPutPolicy policy_name (PStr source)] ∧
     if acknowledged (head (replies w))
     then ∃ response, fst (update_policy request_body w) = Ok response
     else ∃ detail, fst (update_policy request_body w) = Raise (HTTPException 500 detail)) ∧
  (∀ policy_content,
     request_body !! KStr "policy" = Some policy_content →
     Py.truthy policy_content = true →
     (∃ z, policy_content = PInt z) ∨ (∃ b, policy_content = PBool b) ∨
     (∃ l, policy_content = PList l) →
     ∃ detail, update_policy request_body w = (Raise (HTTPException 500 detail), w)).
Proof.
  intros policy_name. split.
  - intros source Hpolicy Hsource _.
    unfold update_policy, try_except. fold policy_name. rewrite Hpolicy.
    change (default PNone (Some (PStr source))) with (PStr source).
    assert (Py.truthy (PStr source) = true) as -> by (by destruct source).
    simpl. unfold mbind, M_bind, lift. simpl. rewrite call_run.
    destruct (head (replies w)) as [[r|msg]|]; simpl.
    + destruct (not_200_204 (status_code r)); simpl;
        (split; [apply calls_from_one | by eexists]).
    + split; [apply calls_from_one | by eexists].
    + split; [apply calls_from_one | by eexists].
  - intros policy_content Hpolicy Htruthy Hkind.
    unfold update_policy, try_except. rewrite Hpolicy. simpl. rewrite Htruthy. simpl.
    unfold mbind, M_bind, lift.
    destruct Hkind as [[z ->]|[[b ->]|[l ->]]]; simpl; by eexists.
Qed.

Lemma update_policy_pushes_witness :
  calls_from quiet
    (snd (@update_policy scalar_str {[ KStr "policy" := PStr "package authz" ]} quiet)) =
    [OpaPutPolicy (PStr "authz") (PStr "package authz")] ∧
  ∃ detail,
    @update_policy scalar_str {[ KStr "policy" := PInt 123 ]}
      {| replies := [answer 200 PNone]; sent := []; utcnow := "" |} =
    (Raise (HTTPException 500 detail),
     {| replies := [answer 200 PNone]; sent := []; utcnow := "" |}).
Proof.
  split.
  - destruct (@update_policy_pushes scalar_str
                {[ KStr "policy" := PStr "package authz" ]} quiet) as [Hpush _].
    destruct (Hpush "package authz") as [Hcalls _]; [reflexivity | done | reflexivity |].
    exact Hcalls.
  - destruct (@update_policy_pushes scalar_str {[ KStr "policy" := PInt 123 ]}
                {| replies := [answer 200 PNone]; sent := []; utcnow := "" |})
      as [_ Hrefused].
    apply (Hrefused (PInt 123)); [reflexivity | reflexivity | left; by eexists].
Defined.

(** X7.  [grant_access] does not ask for a user: with a body that names
    none, for a caller the PDP allows, it merges the permission under the
    key [None] and reports success, where a relation is missing too with
    the permission ["read"]. *)
Theorem grant_access_without_user resource_id request_body user (w : world)
    (section : pyval) :
  let permission := default (PStr "read") (request_body !! KStr "relation") in
  request_body !! KStr "user" = None →
  Py.truthy (verdict (head (replies w))) = true →
  read_section (replies w !! 1%nat) = Ok section →
  permissions_document section →
  is_Some (Py.key_of permission) →
  acknowledged (replies w !! 2%nat) = true →
  ∃ decision doc,
    fst (grant_access resource_id request_body user w) =
      Ok (granted resource_id request_body) ∧
    calls_from w (snd (grant_access resource_id request_body user w)) =
      [decision; OpaGetData "permissions"; OpaPutData "permissions" doc] ∧
    read_back doc PNone resource_id permission = Ok (PBool true).
Proof.
  intros permission Hnone Hallow Hread Hsection Hperm Hack.
  destruct (add_permission_total section PNone resource_id permission)
    as [doc Hdoc]; [done | by eexists | done |].
  rewrite grant_access_run by done. cbv zeta.
  rewrite Hread, Hnone. simpl. fold permission. rewrite Hdoc, Hack.
  eexists _, doc. split; [done|]. split; [apply calls_from_three|].
  by eapply add_permission_reads_back.
Qed.

Lemma grant_access_without_user_witness :
  ∃ decision doc,
    calls_from {| replies := bob_reads; sent := []; utcnow := "" |}
      (snd (grant_access "doc1" ∅ alice
              {| replies := bob_reads; sent := []; utcnow := "" |})) =
      [decision; OpaGetData "permissions"; OpaPutData "permissions" doc] ∧
    read_back doc PNone "doc1" (PStr "read") = Ok (PBool true).
Proof.
  destruct (grant_access_without_user "doc1" ∅ alice
              {| replies := bob_reads; sent := []; utcnow := "" |}
              (PDict {[ KStr "bob" :=
                 PDict {[ KStr "doc1" := PDict {[ KStr "read" := PBool true ]} ]} ]}))
    as (decision & doc & _ & Hcalls & Hback).
  - reflexivity.
  - reflexivity.
  - reflexivity.
  - eexists. split; [reflexivity|].
    intros u of_user [<- <-]%lookup_singleton_Some.
    eexists. split; [reflexivity|].
    intros r of_resource [<- <-]%lookup_singleton_Some. by eexists.
  - by eexists.
  - reflexivity.
  - exists decision, doc. split; [exact Hcalls | exact Hback].
Defined.

End OpaMore.

(** ** Graph backend: the other operations *)

Module OpenFgaMore.
Import OpenFga OpenFgaFacts.

Lemma get_fga_client_fails (w : world) :
  no_store_id w →
  get_fga_client w = (Raise (HTTPException 500 "OpenFGA store ID not available"), w).
Proof.
  intros [Hc Hid]. unfold get_fga_client. rewrite Hc.
  unfold mbind, M_bind, get_store_id, raise. simpl.
  destruct (or_str _ _) as [[|a id]|]; try done.
  apply elem_of_cons in Hid as [[=]|Hid].
  by apply list_elem_of_singleton in Hid.
Qed.

Lemma get_fga_client_raises (w : world) e :
  fst (get_fga_client w) = Raise e → no_store_id w.
Proof.
  unfold get_fga_client, no_store_id.
  destruct (_fga_client w) as [c|]; [done|].
  unfold mbind, M_bind, get_store_id, raise. simpl.
  destruct (or_str _ _) as [[|a id]|]; try done; intros _; (split; [done|]).
  - right. left.
  - left.
Qed.

(** X8.  [get_fga_client] fails exactly when the process has no store
    identifier: no handle yet, and neither the file nor the start-up value
    gives a non-empty one.  It then raises 500 and caches nothing, so the
    next call looks at the file again and builds the handle once the file
    names a store. *)
Theorem get_fga_client_unavailable (w : world) :
  (no_store_id w →
     get_fga_client w = (Raise (HTTPException 500 "OpenFGA store ID not available"), w)) ∧
  (∀ e, fst (get_fga_client w) = Raise e → no_store_id w) ∧
  (no_store_id w →
     ∀ f id, read_store_id f = Some id → id ≠ "" →
       fst (get_fga_client (with_file f (snd (get_fga_client w)))) =
         Ok {| api_url := OPENFGA_URL w; store_id := id |}).
Proof.
  split; [apply get_fga_client_fails|]. split; [intros e; apply get_fga_client_raises|].
  intros Hno f id Hid Hne. rewrite (get_fga_client_fails w Hno). simpl.
  destruct Hno as [Hc _].
  by rewrite (get_fga_client_first (with_file f w) id).
Qed.

Lemma get_fga_client_unavailable_witness :
  get_fga_client (startup "http://localhost:8080" (Content "  
") [] ∅) =
    (Raise (HTTPException 500 "OpenFGA store ID not available"),
     startup "http://localhost:8080" (Content "  
") [] ∅) ∧
  fst (get_fga_client
         (with_file (Content "store-B")
            (snd (get_fga_client (startup "http://localhost:8080" Missing [] ∅))))) =
    Ok {| api_url := "http://localhost:8080"; store_id := "store-B" |}.
Proof.
  split.
  - destruct (get_fga_client_unavailable
                (startup "http://localhost:8080" (Content "  
") [] ∅)) as [Hfail _].
    apply Hfail. split; [reflexivity|]. vm_compute. right. left.
  - destruct (get_fga_client_unavailable (startup "http://localhost:8080" Missing [] ∅))
      as (_ & _ & Hretry).
    apply (Hretry); [|reflexivity|done].
    split; [reflexivity|]. vm_compute. left.
Defined.

Section more.
Context `{Str} `{Engine}.

Lemma fga_check_authorization_outcome user_id0 resource_id permission (w : world) :
  let w' := snd (check_authorization user_id0 resource_id permission w) in
  ∃ allowed,
    fst (check_authorization user_id0 resource_id permission w) = Ok allowed ∧
    (allowed = true →
       ∃ c tuples,
         _fga_client w' = Some c ∧ stores w' !! store_id c = Some tuples ∧
         resolve tuples {| user := "user:" +:+ str user_id0; relation := permission;
                           object := "resource:" +:+ resource_id |} = true) ∧
    (no_store_id w → allowed = false ∧ w' = w) ∧
    stores w' = stores w.
Proof.
  cbv zeta. rewrite fga_check_authorization_run.
  destruct (get_fga_client w) as [[c|e] w1] eqn:Hget; simpl.
  - apply get_fga_client_Ok in Hget as Hc. destruct Hc as [Hc Hs].
    destruct (stores w1 !! store_id c) as [tuples|] eqn:Hst; simpl.
    + eexists. split; [done|]. split; [|split; [|done]].
      * intros Hyes. by exists c, tuples.
      * intros [Hnone Hid]. unfold get_fga_client in Hget. rewrite Hnone in Hget.
        unfold mbind, M_bind, get_store_id, raise in Hget. simpl in Hget.
        destruct (or_str _ _) as [[|a id]|]; try done.
        -- apply elem_of_cons in Hid as [[=]|Hid].
           by apply list_elem_of_singleton in Hid.
    + exists false. split; [done|]. split; [done|]. split; [|done].
      intros [Hnone Hid]. unfold get_fga_client in Hget. rewrite Hnone in Hget.
      unfold mbind, M_bind, get_store_id, raise in Hget. simpl in Hget.
      destruct (or_str _ _) as [[|a id]|]; try done.
      apply elem_of_cons in Hid as [[=]|Hid].
      by apply list_elem_of_singleton in Hid.
  - exists false. split; [done|]. split; [done|].
    unfold get_fga_client in Hget.
    destruct (_fga_client w) as [c|]; [done|].
    unfold mbind, M_bind, get_store_id, raise in Hget. simpl in Hget.
    destruct (or_str _ _) as [[|a id]|]; try done; by injection Hget as <- <-.
Qed.

(** X9.  [check_authorization] never raises.  It says yes only when the
    handle is at hand afterwards and OpenFGA resolves, in the store of that
    handle, the relation asked for between [user:<subject>] and
    [resource:<id>]; without a store identifier, or with a store OpenFGA
    does not know, it says no. *)
Theorem fga_check_authorization_decides user_id0 resource_id permission (w : world) :
  let w' := snd (check_authorization user_id0 resource_id permission w) in
  ∃ allowed,
    fst (check_authorization user_id0 resource_id permission w) = Ok allowed ∧
    (allowed = true →
       ∃ c tuples,
         _fga_client w' = Some c ∧ stores w' !! store_id c = Some tuples ∧
         resolve tuples {| user := "user:" +:+ str user_id0; relation := permission;
                           object := "resource:" +:+ resource_id |} = true) ∧
    (no_store_id w → allowed = false ∧ w' = w) ∧
    stores w' = stores w.
Proof. apply fga_check_authorization_outcome. Qed.

(** X10.  [grant_access] for a caller who is not found to be an owner
    answers 403 and writes no tuple.  That is also what happens without a
    store identifier: the check fails first, so the 500 of
    [get_fga_client] never reaches the caller of a grant. *)
Theorem fga_grant_access_refused resource_id request_body user (w : world) :
  (fst (check_authorization (user_id user) resource_id "owner" w) = Ok false →
     fst (grant_access resource_id request_body user w) =
       Raise (HTTPException 403 "Only resource owners can grant access") ∧
     stores (snd (grant_access resource_id request_body user w)) = stores w) ∧
  (no_store_id w →
     grant_access resource_id request_body user w =
       (Raise (HTTPException 403 "Only resource owners can grant access"), w)).
Proof.
  split.
  - intros Hno. rewrite fga_grant_access_run.
    destruct (fga_check_authorization_outcome (user_id user) resource_id "owner" w)
      as (allowed & Hcheck & _ & _ & Hstores).
    destruct (check_authorization (user_id user) resource_id "owner" w)
      as [[[|]|e] w0]; simpl in *; try done.
  - intros Hnone. rewrite fga_grant_access_run.
    destruct (fga_check_authorization_outcome (user_id user) resource_id "owner" w)
      as (allowed & Hcheck & _ & Hno & _).
    destruct (Hno Hnone) as [-> Hw].
    destruct (check_authorization (user_id user) resource_id "owner" w)
      as [[[|]|e] w0]; simpl in *; try done. by subst w0.
Qed.

End more.

Lemma fga_check_authorization_decides_witness :
  fst (@check_authorization scalar_str direct_engine (PStr "bob") "doc2" "owner" fresh)
    = Ok true ∧
  fst (@check_authorization scalar_str direct_engine (PStr "bob") "doc2" "owner"
         (startup "http://localhost:8080" Missing [] bob_owns_doc2)) = Ok false.
Proof.
  split.
  - by vm_compute.
  - destruct (@fga_check_authorization_decides scalar_str direct_engine
                (PStr "bob") "doc2" "owner"
                (startup "http://localhost:8080" Missing [] bob_owns_doc2))
      as (allowed & -> & _ & Hno & _).
    destruct Hno as [-> _]; [|done].
    split; [reflexivity|]. vm_compute. left.
Defined.

Lemma fga_grant_access_refused_witness :
  @grant_access scalar_str direct_engine "doc2" view_for_carol bob
    (startup "http://localhost:8080" Missing [] bob_owns_doc2) =
  (Raise (HTTPException 403 "Only resource owners can grant access"),
   startup "http://localhost:8080" Missing [] bob_owns_doc2).
Proof.
  apply (@fga_grant_access_refused scalar_str direct_engine).
  split; [reflexivity|]. vm_compute. left.
Defined.

Section writes.
Context `{Str} `{Engine}.

(** X11.  [grant_tuple] takes any error of the write whose text holds
    "already exists" for a duplicate.  When the engine refuses a tuple that
    is not stored with such a text, the grant is reported as a success with
    status ["already_exists"] although nothing is stored: the world is as
    before and the tuple is still not in the store. *)
Theorem grant_tuple_false_success resource_id request_body (w : world)
    (c : client) (tuples : gset tuple) (t : tuple) (msg : string) :
  _fga_client w = Some c →
  stores w !! store_id c = Some tuples →
  granted_tuple resource_id request_body = Some t →
  t ∉ tuples →
  refuses t = Some msg →
  PyStr.contains "already exists" (PyStr.lower msg) = true →
  ∃ response,
    grant_tuple resource_id request_body w = (Ok response, w) ∧
    Py.get response "status" PNone = Ok (PStr "already_exists") ∧
    t ∉ stored w.
Proof.
  intros Hc Hst Ht Hnot Href Hmsg.
  rewrite (grant_tuple_run _ _ _ _ Hc). cbv zeta.
  unfold granted_tuple in Ht. unfold sdk_write. rewrite Hst.
  destruct (default PNone _) as [| | |u| |]; try done.
  destruct (default (PStr "can_view") _) as [| | |r| |]; try done.
  injection Ht as <-.
  rewrite bool_decide_eq_false_2 by done. rewrite Href. simpl. rewrite Hmsg.
  eexists. split; [done|]. split; [reflexivity|].
  unfold stored. rewrite Hc. simpl. by rewrite Hst.
Qed.

End writes.

Lemma grant_tuple_false_success_witness :
  ∃ response,
    @grant_tuple strict_engine "doc2" view_for_carol running = (Ok response, running) ∧
    Py.get response "status" PNone = Ok (PStr "already_exists") ∧
    {| user := "user:carol"; relation := "can_view"; object := "resource:doc2" |}
      ∉ stored running.
Proof.
  apply (@grant_tuple_false_success strict_engine "doc2" view_for_carol running
           {| api_url := "http://localhost:8080"; store_id := "store-A" |}
           {[ {| user := "user:bob"; relation := "owner"; object := "resource:doc2" |} ]}
           {| user := "user:carol"; relation := "can_view"; object := "resource:doc2" |}
           "type of 'user:carol' not found among the types that already exists").
  - reflexivity.
  - reflexivity.
  - reflexivity.
  - by vm_compute.
  - reflexivity.
  - reflexivity.
Defined.

Section adds.
Context `{Str} `{Engine}.

(** [sdk_write] only adds a tuple to the store of its handle. *)
Lemma sdk_write_stores (c : client) (u r : pyval) (o : string) (w : world) :
  ∀ id,
    match stores w !! id with
    | Some tuples =>
        ∃ tuples', stores (snd (sdk_write c u r o w)) !! id = Some tuples' ∧
                   tuples ⊆ tuples'
    | None => stores (snd (sdk_write c u r o w)) !! id = None
    end.
Proof.
  intros id. unfold sdk_write.
  destruct (stores w !! store_id c) as [tuples|] eqn:Hs.
  2: { simpl. destruct (stores w !! id); [by eexists|done]. }
  assert (match stores w !! id with
          | Some tuples0 => ∃ tuples', stores w !! id = Some tuples' ∧ tuples0 ⊆ tuples'
          | None => stores w !! id = None
          end) as Hsame.
  { destruct (stores w !! id); [by eexists|done]. }
  destruct u; try done. destruct r; try done.
  case_bool_decide; [done|]. destruct (refuses _); [done|]. simpl.
  destruct (decide (id = store_id c)) as [->|Hne].
  - rewrite Hs, lookup_insert_eq. eexists. split; [done|]. set_solver.
  - by rewrite lookup_insert_ne.
Qed.

Lemma grant_tuple_world resource_id request_body (w : world) :
  stores (snd (grant_tuple resource_id request_body w)) = stores w ∨
  ∃ c w1,
    stores w1 = stores w ∧
    snd (grant_tuple resource_id request_body w) =
      snd (sdk_write c (default PNone (request_body !! KStr "user"))
             (default (PStr "can_view") (request_body !! KStr "relation"))
             ("resource:" +:+ resource_id) w1).
Proof.
  unfold grant_tuple, try_except, mbind, M_bind.
  destruct (get_fga_client w) as [[c|e] w1] eqn:Hget; simpl.
  - apply get_fga_client_Ok in Hget as [_ Hs].
    right. exists c, w1. split; [done|].
    destruct (sdk_write _ _ _ _ w1) as [[[]|e] w2]; simpl; [done|].
    by destruct (PyStr.contains _ _).
  - left. unfold get_fga_client in Hget. destruct (_fga_client w); [done|].
    unfold mbind, M_bind, get_store_id, raise in Hget. simpl in Hget.
    by destruct (or_str _ _) as [[|a s]|]; try done; injection Hget as <- <-.
Qed.

Lemma grant_tuple_stores resource_id request_body (w : world) :
  ∀ id,
    match stores w !! id with
    | Some tuples =>
        ∃ tuples', stores (snd (grant_tuple resource_id request_body w)) !! id
                     = Some tuples' ∧ tuples ⊆ tuples'
    | None => stores (snd (grant_tuple resource_id request_body w)) !! id = None
    end.
Proof.
  intros id.
  destruct (grant_tuple_world resource_id request_body w) as [->|(c & w1 & Hs & ->)].
  - destruct (stores w !! id); [by eexists|done].
  - rewrite <- Hs. apply sdk_write_stores.
Qed.

(** X12.  A grant never removes a tuple and never makes or drops a store:
    whatever [grant_access] answers, every store has afterwards at least the
    tuples it had, and an identifier that named no store names none.  When
    it answers ["newly_granted"] the tuple of the body is in the store of
    the handle. *)
Theorem fga_grant_access_only_adds resource_id request_body user (w : world) :
  let w' := snd (grant_access resource_id request_body user w) in
  (∀ id,
     match stores w !! id with
     | Some tuples => ∃ tuples', stores w' !! id = Some tuples' ∧ tuples ⊆ tuples'
     | None => stores w' !! id = None
     end) ∧
  (∀ response,
     fst (grant_access resource_id request_body user w) = Ok response →
     Py.get response "status" PNone = Ok (PStr "newly_granted") →
     ∃ t, granted_tuple resource_id request_body = Some t ∧ t ∈ stored w').
Proof.
  cbv zeta. rewrite fga_grant_access_run.
  destruct (fga_check_authorization_outcome (user_id user) resource_id "owner" w)
    as (allowed & Hcheck & Hyes & _ & Hstores).
  destruct (check_authorization (user_id user) resource_id "owner" w)
    as [[[|]|e] w0]; simpl in *; try done.
  2: { split; [|done]. intros id. rewrite Hstores.
       destruct (stores w !! id); [by eexists|done]. }
  injection Hcheck as <-. destruct (Hyes eq_refl) as (c & tuples & Hc & Hst & _).
  split.
  - intros id. rewrite <- Hstores. apply grant_tuple_stores.
  - intros response. rewrite (grant_tuple_run _ _ _ _ Hc). cbv zeta.
    unfold granted_tuple, sdk_write, stored. rewrite Hst.
    destruct (default PNone _) as [| | |u| |]; simpl;
      try (destruct (PyStr.contains _ _); simpl; [by intros [= <-]|done]).
    destruct (default (PStr "can_view") _) as [| | |r| |]; simpl;
      try (destruct (PyStr.contains _ _); simpl; [by intros [= <-]|done]).
    case_bool_decide; simpl.
    { destruct (PyStr.contains _ _); simpl; [by intros [= <-]|done]. }
    destruct (refuses _) as [msg|]; simpl.
    { destruct (PyStr.contains _ _); simpl; [by intros [= <-]|done]. }
    intros _ _. eexists. split; [done|]. simpl. rewrite Hc. simpl.
    rewrite lookup_insert_eq. simpl. set_solver.
Qed.

End adds.

Lemma fga_grant_access_only_adds_witness :
  {| user := "user:carol"; relation := "can_view"; object := "resource:doc2" |}
    ∈ stored (snd (@grant_access scalar_str direct_engine "doc2" view_for_carol bob fresh)).
Proof.
  destruct (@fga_grant_access_only_adds scalar_str direct_engine "doc2" view_for_carol
              bob fresh) as [_ Hnew].
  destruct (Hnew (grant_result (PStr "user:carol") (PStr "can_view") "doc2"
                    "Access granted successfully" "newly_granted"))
    as (t & Ht & Hin); [by vm_compute | reflexivity |].
  by injection Ht as <-.
Defined.

Section protected.
Context `{Str} `{Engine}.

Lemma fga_check_authorization_Ok user_id0 resource_id permission (w : world) :
  ∃ allowed, fst (check_authorization user_id0 resource_id permission w) = Ok allowed.
Proof.
  destruct (fga_check_authorization_outcome user_id0 resource_id permission w)
    as (allowed & Hcheck & _). by exists allowed.
Qed.

(** X13.  Reading needs [can_view], updating [can_edit], deleting [owner]:
    each protected operation succeeds exactly when [check_authorization]
    says yes for that relation, and answers 403 otherwise, also when no
    decision could be had.  None of them ever answers 500. *)
Theorem fga_protected_operations resource_id user (w : world) :
  let answers (o : outcome pyval) (permission : string) :=
    match fst (check_authorization (user_id user) resource_id permission w) with
    | Ok true =>
        ∃ response,
          o = Ok response ∧ Py.get response "permission" PNone = Ok (PStr permission)
    | _ => o = Raise (HTTPException 403 "Access denied")
    end in
  answers (fst (get_resource resource_id user w)) "can_view" ∧
  answers (fst (update_resource resource_id user w)) "can_edit" ∧
  answers (fst (delete_resource resource_id user w)) "owner".
Proof.
  intros answers. subst answers. cbv beta.
  unfold get_resource, update_resource, delete_resource, mbind, M_bind, lift.
  assert (endpoint_permission "GET" = Ok "can_view") as -> by reflexivity.
  assert (endpoint_permission "PUT" = Ok "can_edit") as -> by reflexivity.
  assert (endpoint_permission "DELETE" = Ok "owner") as -> by reflexivity.
  split; [|split].
  - destruct (fga_check_authorization_Ok (user_id user) resource_id "can_view" w)
      as [allowed Hcheck].
    destruct (check_authorization (user_id user) resource_id "can_view" w) as [o w1].
    simpl in Hcheck. subst o. simpl.
    destruct allowed; simpl; [by eexists | done].
  - destruct (fga_check_authorization_Ok (user_id user) resource_id "can_edit" w)
      as [allowed Hcheck].
    destruct (check_authorization (user_id user) resource_id "can_edit" w) as [o w1].
    simpl in Hcheck. subst o. simpl.
    destruct allowed; simpl; [by eexists | done].
  - destruct (fga_check_authorization_Ok (user_id user) resource_id "owner" w)
      as [allowed Hcheck].
    destruct (check_authorization (user_id user) resource_id "owner" w) as [o w1].
    simpl in Hcheck. subst o. simpl.
    destruct allowed; simpl; [by eexists | done].
Qed.

End protected.

(** X14.  [debug_config] reads the store file anew each time, the handle
    does not: once the handle is built and the file is rewritten, the debug
    endpoint reports the identifier of the file while every check and grant
    goes on with the store of the handle. *)
Theorem debug_config_shows_the_file (url : string) (w : world) (c : client) (f : file) :
  _fga_client w = Some c →
  fst (get_fga_client (with_file f w)) = Ok c ∧
  ∃ response,
    fst (debug_config url (with_file f w)) = Ok response ∧
    Py.get response "openfga_store_id" PNone = Ok (optional_str (read_store_id f)).
Proof.
  intros Hc. split.
  - by rewrite (get_fga_client_cached (with_file f w) c).
  - eexists. split; reflexivity.
Qed.

Lemma debug_config_shows_the_file_witness :
  fst (get_fga_client (with_file (Content "store-B") running)) =
    Ok {| api_url := "http://localhost:8080"; store_id := "store-A" |} ∧
  ∃ response,
    fst (debug_config "http://localhost:4445/admin/oauth2/introspect"
           (with_file (Content "store-B") running)) = Ok response ∧
    Py.get response "openfga_store_id" PNone = Ok (PStr "store-B").
Proof.
  apply (debug_config_shows_the_file _ running
           {| api_url := "http://localhost:8080"; store_id := "store-A" |}
           (Content "store-B")).
  reflexivity.
Defined.

(** X15.  [debug_tuples] never raises and never lists a tuple.  Its import
    of [ClientReadRequest] stands inside the [try] and fails, so every call
    comes back as a normal response with an [error] entry, and the tuples
    are as before.  Without a store identifier the entry is the 500 of
    [get_fga_client] and the process is unchanged; with one, the call has
    built the handle and left it cached. *)
Theorem debug_tuples_never_lists (models_file : string) (w : world) :
  let w' := snd (debug_tuples models_file w) in
  (∃ text,
     fst (debug_tuples models_file w) =
       Ok (PDict {[ KStr "error" := PStr ("Failed to read tuples: " +:+ text) ]})) ∧
  stores w' = stores w ∧
  (no_store_id w →
     debug_tuples models_file w =
       (Ok (PDict {[ KStr "error" :=
          PStr "Failed to read tuples: 500: OpenFGA store ID not available" ]}), w)) ∧
  (¬ no_store_id w →
     ∃ c, fst (get_fga_client w) = Ok c ∧ _fga_client w' = Some c).
Proof.
  assert (debug_tuples models_file w =
          match get_fga_client w with
          | (Ok _, w1) =>
              (Ok (PDict {[ KStr "error" := PStr ("Failed to read tuples: " +:+
                 "cannot import name 'ClientReadRequest' from 'openfga_sdk.client.models' ("
                   +:+ models_file +:+ ")") ]}), w1)
          | (Raise e, w1) =>
              (Ok (PDict {[ KStr "error" :=
                 PStr ("Failed to read tuples: " +:+ str_exn e) ]}), w1)
          end) as Hrun.
  { unfold debug_tuples, try_except, import_ClientReadRequest, mbind, M_bind, raise.
    by destruct (get_fga_client w) as [[c|e] w1]. }
  cbv zeta. rewrite Hrun. clear Hrun.
  destruct (get_fga_client w) as [[c|e] w1] eqn:Hget.
  - destruct (get_fga_client_Ok _ _ _ Hget) as [Hc Hst]. simpl.
    split; [by eexists|]. split; [done|]. split; [|intros _; by exists c].
    intros Hno. by rewrite (get_fga_client_fails w Hno) in Hget.
  - assert (no_store_id w) as Hno by (apply (get_fga_client_raises w e); by rewrite Hget).
    rewrite (get_fga_client_fails w Hno) in Hget. injection Hget as <- <-. simpl.
    split; [by eexists|]. split; [done|]. split; [done|]. by intros [].
Qed.

Lemma debug_tuples_never_lists_witness :
  debug_tuples "models.py" (with_file Missing (startup "http://localhost:8080" Missing [] bob_owns_doc2)) =
    (Ok (PDict {[ KStr "error" :=
       PStr "Failed to read tuples: 500: OpenFGA store ID not available" ]}),
     with_file Missing (startup "http://localhost:8080" Missing [] bob_owns_doc2)) ∧
  ∃ c, fst (get_fga_client fresh) = Ok c ∧
       _fga_client (snd (debug_tuples "models.py" fresh)) = Some c.
Proof.
  split.
  - apply (debug_tuples_never_lists "models.py"). split; [reflexivity|].
    apply list_elem_of_In. left. reflexivity.
  - apply (debug_tuples_never_lists "models.py" fresh). intros [_ Hid].
    apply list_elem_of_In in Hid. destruct Hid as [Hid|[Hid|[]]]; discriminate Hid.
Defined.

End OpenFgaMore.

(** ** [str.strip] *)

Module StripFacts.
Import PyStr.

Ltac bytes :=
  unfold opens_space, is_space, is_space2, is_space3 in *; cbv zeta in *;
  repeat (progress rewrite ?andb_true_iff, ?orb_true_iff, ?andb_false_iff,
            ?orb_false_iff, ?Nat.eqb_eq, ?Nat.eqb_neq, ?Nat.leb_le, ?Nat.leb_gt in * );
  lia.

Lemma space2_closes c1 c2 : is_space2 c1 c2 = true → opens_space c2 = false.
Proof.
  intros H. destruct (opens_space c2) eqn:E; [|done]. exfalso. bytes.
Qed.

Lemma space3_closes c1 c2 c3 :
  is_space3 c1 c2 c3 = true → opens_space c2 = false ∧ opens_space c3 = false.
Proof.
  intros H. split.
  - destruct (opens_space c2) eqn:E; [|done]. exfalso. bytes.
  - destruct (opens_space c3) eqn:E; [|done]. exfalso. bytes.
Qed.


Lemma space2_opens c1 c2 : is_space2 c1 c2 = true → is_space c1 = false ∧ opens_space c1 = true.
Proof.
  intros H. split.
  - destruct (is_space c1) eqn:E; [|done]. exfalso. bytes.
  - destruct (opens_space c1) eqn:E; [done|]. exfalso. bytes.
Qed.

Lemma space3_opens c1 c2 c3 :
  is_space3 c1 c2 c3 = true →
  is_space c1 = false ∧ (∀ d, is_space2 c1 d = false) ∧ opens_space c1 = true.
Proof.
  intros H. split; [|split].
  - destruct (is_space c1) eqn:E; [|done]. exfalso. bytes.
  - intros d. destruct (is_space2 c1 d) eqn:E; [|done]. exfalso. bytes.
  - destruct (opens_space c1) eqn:E; [done|]. exfalso. bytes.
Qed.

Lemma space_opens c : is_space c = true → opens_space c = true.
Proof. intros H. unfold opens_space. by rewrite H. Qed.

Lemma head_of_total s : ∃ r, head_of s r.
Proof.
  destruct s as [|c1 r1]; [eexists; constructor|].
  destruct (is_space c1) eqn:H1; [eexists; by constructor|].
  destruct r1 as [|c2 r2]; [eexists; by constructor|].
  destruct (is_space2 c1 c2) eqn:H2; [eexists; by constructor|].
  destruct r2 as [|c3 r3]; [eexists; by constructor|].
  destruct (is_space3 c1 c2 c3) eqn:H3; eexists; by constructor.
Qed.

Lemma lstrip_head s r :
  head_of s r →
  (r = s ∧ lstrip s = s) ∨
  ((String.length r < String.length s)%nat ∧ lstrip s = lstrip r ∧
   ∃ c rest, s = String c rest ∧ opens_space c = true).
Proof.
  destruct 1 as [|c1 r1 H1|c1 c2 r2 H1 H2|c1 c2 c3 r3 H1 H2 H3|c1 H1|c1 c2 H1 H2
                 |c1 c2 c3 r3 H1 H2 H3]; simpl; rewrite ?H1, ?H2, ?H3; auto.
  - right. split; [lia|]. split; [done|]. eexists _, _. split; [done|].
    by apply space_opens.
  - right. split; [lia|]. split; [done|]. eexists _, _. split; [done|].
    by eapply space2_opens.
  - right. split; [lia|]. split; [done|]. eexists _, _. split; [done|].
    by eapply space3_opens.
Qed.

(** Induction along [lstrip]. *)
Lemma lstrip_ind (P : string → Prop) :
  (∀ s r, head_of s r → (r = s ∨ P r) → P s) → ∀ s, P s.
Proof.
  intros Hstep s. remember (String.length s) as n eqn:Hn.
  revert s Hn. induction (lt_wf n) as [n _ IH]. intros s ->.
  destruct (head_of_total s) as [r Hr]. apply (Hstep s r Hr).
  destruct (lstrip_head s r Hr) as [[-> _]|(Hlt & _)]; [by left|].
  right. by eapply IH.
Qed.

Lemma lstrip_lstrip s : lstrip (lstrip s) = lstrip s.
Proof.
  induction s as [s r Hr IH] using lstrip_ind.
  destruct (lstrip_head s r Hr) as [[-> E]|(Hlt & E & _)].
  - by rewrite !E.
  - rewrite E. destruct IH as [->|IH]; [lia|done].
Qed.

Lemma blank_opens c r : blank (String c r) = true → opens_space c = true.
Proof.
  unfold blank. intros Hb.
  destruct (head_of_total (String c r)) as [t Ht].
  destruct (lstrip_head _ _ Ht) as [[_ E]|(_ & _ & c' & r' & [= <- <-] & Ho)]; [|done].
  by rewrite E in Hb.
Qed.

Lemma blank_empty : blank "" = true.
Proof. done. Qed.

(** White space in front does not count. *)
Lemma lstrip_app_blank pre s : blank pre = true → lstrip (pre +:+ s) = lstrip s.
Proof.
  induction pre as [pre r Hr IH] using lstrip_ind. unfold blank. intros Hb.
  destruct (lstrip_head pre r Hr) as [[-> E]|(Hlt & E & _)].
  - rewrite E in Hb. destruct pre; [done|done].
  - destruct IH as [->|IH]; [lia|]. rewrite E in Hb. specialize (IH Hb).
    destruct Hr as [|c1 r1 H1|c1 c2 r2 H1 H2|c1 c2 c3 r3 H1 H2 H3|c1 H1|c1 c2 H1 H2
                    |c1 c2 c3 r3 H1 H2 H3];
      rewrite ?app_cons; simpl in *; rewrite ?H1, ?H2, ?H3; try done; lia.
Qed.

Lemma blank_app a b : blank a = true → blank b = true → blank (a +:+ b) = true.
Proof. intros Ha Hb. unfold blank. by rewrite lstrip_app_blank. Qed.

Lemma app_cons c (r s : string) : String c r +:+ s = String c (r +:+ s).
Proof. done. Qed.

Lemma app_nil_l (s : string) : "" +:+ s = s.
Proof. done. Qed.

Lemma app_nil_r (s : string) : s +:+ "" = s.
Proof. induction s as [|c s IH]; [done|]. by rewrite app_cons, IH. Qed.

Lemma app_length (a b : string) :
  String.length (a +:+ b) = (String.length a + String.length b)%nat.
Proof. induction a as [|c a IH]; [done|]. rewrite app_cons. simpl. by rewrite IH. Qed.

Lemma head_stop s :
  head_of s s →
  s = "" ∨
  (∃ c1, s = String c1 "" ∧ is_space c1 = false) ∨
  (∃ c1 c2, s = String c1 (String c2 "") ∧ is_space c1 = false ∧ is_space2 c1 c2 = false) ∨
  (∃ c1 c2 c3 r3, s = String c1 (String c2 (String c3 r3)) ∧
     is_space c1 = false ∧ is_space2 c1 c2 = false ∧ is_space3 c1 c2 c3 = false).
Proof.
  intros Hr. destruct (lstrip_head s s Hr) as [_|(Hlt & _)]; [|lia].
  inversion Hr as [|c1 r1 H1 Ha Hb|c1 c2 r2 H1 H2 Ha Hb|c1 c2 c3 r3 H1 H2 H3 Ha Hb
                   |c1 H1|c1 c2 H1 H2|c1 c2 c3 r3 H1 H2 H3]; subst.
  - by left.
  - apply (f_equal String.length) in Hb. simpl in Hb. lia.
  - apply (f_equal String.length) in Hb. simpl in Hb. lia.
  - apply (f_equal String.length) in Hb. simpl in Hb. lia.
  - right. left. by eexists.
  - right. right. left. by eexists _, _.
  - right. right. right. by eexists _, _, _, _.
Qed.

Lemma head_go s r :
  head_of s r → r ≠ s →
  (∃ c1, s = String c1 r ∧ is_space c1 = true) ∨
  (∃ c1 c2, s = String c1 (String c2 r) ∧ is_space c1 = false ∧ is_space2 c1 c2 = true) ∨
  (∃ c1 c2 c3, s = String c1 (String c2 (String c3 r)) ∧
     is_space c1 = false ∧ is_space2 c1 c2 = false ∧ is_space3 c1 c2 c3 = true).
Proof.
  intros Hr Hne.
  destruct Hr as [|c1 r1 H1|c1 c2 r2 H1 H2|c1 c2 c3 r3 H1 H2 H3|c1 H1|c1 c2 H1 H2
                  |c1 c2 c3 r3 H1 H2 H3]; try done.
  - left. by eexists.
  - right. left. by eexists _, _.
  - right. right. by eexists _, _, _.
Qed.

(** No white-space character lies across the place where white space
    begins. *)
Lemma lstrip_app_solid s post :
  blank post = true → blank s = false → lstrip (s +:+ post) = lstrip s +:+ post.
Proof.
  intros Hpost. induction s as [s r Hr IH] using lstrip_ind. unfold blank. intros Hs.
  assert (post = "" ∨ (∃ p rest, post = String p rest ∧ opens_space p = true)) as Hp.
  { destruct post as [|p rest]; [by left|]. right. eexists _, _. split; [done|].
    by eapply blank_opens. }
  destruct (lstrip_head s r Hr) as [[-> E]|(Hlt & E & _)].
  - rewrite E in Hs |- *. clear IH E.
    destruct Hp as [->|(p & rest & -> & Ho)].
    { rewrite app_nil_r.
      destruct (lstrip_head s s Hr) as [[_ E]|(Hlt & _)]; [done|lia]. }
    destruct (head_stop s Hr)
      as [->|[(c1 & -> & H1)|[(c1 & c2 & -> & H1 & H2)|(c1 & c2 & c3 & r3 & -> & H1 & H2 & H3)]]].
    + done.
    + clear Hs. rewrite !app_cons, app_nil_l. simpl. rewrite H1.
      destruct (is_space2 c1 p) eqn:H2.
      { apply space2_closes in H2. congruence. }
      destruct rest as [|q rest]; [done|].
      destruct (is_space3 c1 p q) eqn:H3; [|done].
      apply space3_closes in H3 as [H3 _]. congruence.
    + rewrite !app_cons, app_nil_l. simpl. rewrite H1, H2.
      destruct (is_space3 c1 c2 p) eqn:H3; [|done].
      apply space3_closes in H3 as [_ H3]. congruence.
    + rewrite !app_cons. simpl. by rewrite H1, H2, H3.
  - destruct IH as [->|IH]; [lia|]. rewrite E in Hs |- *. rewrite <- (IH Hs).
    destruct (head_go s r Hr)
      as [(c1 & -> & H1)|[(c1 & c2 & -> & H1 & H2)|(c1 & c2 & c3 & -> & H1 & H2 & H3)]].
    { intros ->. lia. }
    + rewrite !app_cons. simpl. by rewrite H1.
    + rewrite !app_cons. simpl. by rewrite H1, H2.
    + rewrite !app_cons. simpl. by rewrite H1, H2, H3.
Qed.

(** What is left of white space when white space follows is white space. *)
Lemma blank_app_inv a post : blank (a +:+ post) = true → blank post = true → blank a = true.
Proof.
  intros Hab Hpost. destruct (blank a) eqn:Ha; [done|].
  unfold blank in Hab. rewrite lstrip_app_solid in Hab by done.
  unfold blank in Ha. destruct (lstrip a); [done|done].
Qed.

Lemma rstrip_blank s : blank s = true → rstrip s = "".
Proof. intros Hb. destruct s; [done|]. simpl rstrip. by rewrite Hb. Qed.

(** [rstrip] takes white space off the end. *)
Lemma rstrip_split s : ∃ post, s = rstrip s +:+ post ∧ blank post = true.
Proof.
  induction s as [|c r (post & IH & Hpost)]; [by exists ""|].
  simpl rstrip. destruct (blank (String c r)) eqn:Hb.
  - by exists (String c r).
  - exists post. split; [|done]. by rewrite app_cons, <- IH.
Qed.

(** White space at the end does not count. *)
Lemma rstrip_app_blank s post : blank post = true → rstrip (s +:+ post) = rstrip s.
Proof.
  intros Hpost. induction s as [|c r IH]; [by apply rstrip_blank|].
  rewrite app_cons. simpl rstrip. rewrite <- app_cons.
  destruct (blank (String c r)) eqn:Hb.
  - by rewrite (blank_app _ _ Hb Hpost).
  - destruct (blank (String c r +:+ post)) eqn:Hb'; [|by rewrite IH].
    apply (blank_app_inv (String c r) post) in Hb'; [congruence|done].
Qed.

Lemma rstrip_rstrip s : rstrip (rstrip s) = rstrip s.
Proof.
  destruct (rstrip_split s) as (post & Hs & Hpost).
  rewrite Hs at 2. by rewrite rstrip_app_blank.
Qed.

Lemma app_inv_tail (a b p : string) : a +:+ p = b +:+ p → a = b.
Proof.
  intros E.
  assert (String.length a = String.length b) as Hlen.
  { apply (f_equal String.length) in E. rewrite !app_length in E. lia. }
  revert b E Hlen. induction a as [|c a IH]; intros [|d b]; simpl; try done.
  rewrite !app_cons. intros [= -> E] [= Hlen]. f_equal. by apply IH.
Qed.

(** Taking white space off the end of a string that begins with none leaves
    one that begins with none. *)
Lemma lstrip_rstrip t : lstrip t = t → lstrip (rstrip t) = rstrip t.
Proof.
  intros Ht. destruct (rstrip_split t) as (post & Hs & Hpost).
  destruct (blank (rstrip t)) eqn:Hb.
  - assert (blank t = true) as Hbt by (rewrite Hs; by apply blank_app).
    unfold blank in Hbt. rewrite Ht in Hbt. destruct t; [done|done].
  - pose proof (lstrip_app_solid (rstrip t) post Hpost Hb) as E.
    rewrite <- Hs, Ht in E. rewrite Hs in E at 1.
    symmetry. by eapply app_inv_tail.
Qed.

Lemma strip_strip s : strip (strip s) = strip s.
Proof.
  unfold strip. rewrite lstrip_rstrip by apply lstrip_lstrip. apply rstrip_rstrip.
Qed.

(** White space around a text does not count. *)
Lemma strip_app pre s post :
  blank pre = true → blank post = true → strip (pre +:+ s +:+ post) = strip s.
Proof.
  intros Hpre Hpost. unfold strip. rewrite lstrip_app_blank by done.
  destruct (blank s) eqn:Hs.
  - rewrite lstrip_app_blank by done. unfold blank in Hpost, Hs.
    destruct (lstrip post); [|done]. by destruct (lstrip s).
  - rewrite lstrip_app_solid by done. by apply rstrip_app_blank.
Qed.

Lemma strip_blank s : blank s = true → strip s = "".
Proof. unfold strip, blank. intros Hs. by destruct (lstrip s). Qed.

(** [blank] is being white space from end to end. *)
Lemma blank_spaces s : blank s = true ↔ spaces s.
Proof.
  split.
  - induction s as [s r Hr IH] using lstrip_ind. unfold blank. intros Hb.
    destruct (lstrip_head s r Hr) as [[-> E]|(Hlt & E & _)].
    + rewrite E in Hb. destruct s; [constructor|done].
    + rewrite E in Hb. destruct IH as [->|IH]; [lia|]. specialize (IH Hb).
      destruct (head_go s r Hr)
        as [(c1 & -> & H1)|[(c1 & c2 & -> & H1 & H2)|(c1 & c2 & c3 & -> & H1 & H2 & H3)]].
      { intros ->. lia. }
      * by constructor.
      * by constructor.
      * by constructor.
  - induction 1 as [|c s H1 _ IH|c1 c2 s H2 _ IH|c1 c2 c3 s H3 _ IH]; [done|..].
    + unfold blank in *. simpl. by rewrite H1.
    + destruct (space2_opens _ _ H2) as [H1 _].
      unfold blank in *. simpl. by rewrite H1, H2.
    + destruct (space3_opens _ _ _ H3) as (H1 & H2 & _).
      unfold blank in *. simpl. by rewrite H1, H2, H3.
Qed.

End StripFacts.

(** ** Both services: verification, strings, credentials *)

Module GatewayMore.

Lemma get_raises (v : pyval) (key : string) (dflt : pyval) e :
  Py.get v key dflt = Raise e → ∃ msg, e = Exception msg.
Proof. destruct v; simpl; intros [= <-]; by eexists. Qed.

Lemma opa_auth_middleware_401 authorization (w : Opa.world) e :
  next_is_client_side (Opa.replies w) →
  fst (Opa.auth_middleware authorization w) = Raise e →
  ∃ detail, e = HTTPException 401 detail.
Proof.
  intros Hclient. unfold Opa.auth_middleware.
  destruct authorization as [[|a header]|]; simpl; try (intros [= <-]; by eexists).
  unfold try_except. unfold mbind at 1, M_bind at 1. rewrite OpaFacts.call_run.
  destruct (head (Opa.replies w)) as [[r|msg]|] eqn:Hr; simpl;
    try (intros [= <-]; by eexists).
  specialize (Hclient r Hr). unfold client_side in Hclient.
  destruct (status_code r =? 200)%Z; simpl; [|intros [= <-]; by eexists].
  unfold mbind, M_bind, lift.
  destruct (json r) as [token_info|[]]; simpl; try done;
    try (intros [= <-]; by eexists).
  destruct (Py.get token_info "active" (PBool false)) as [active|e1] eqn:E1; simpl.
  2: { apply get_raises in E1 as [m ->]. intros [= <-]. by eexists. }
  destruct (Py.truthy active); simpl; [|intros [= <-]; by eexists].
  destruct (Py.get token_info "client_id" (PStr "unknown")) as [?|e2] eqn:E2; simpl.
  2: { apply get_raises in E2 as [m ->]. intros [= <-]. by eexists. }
  destruct (Py.get token_info "scope" (PStr "")) as [?|e3] eqn:E3; simpl; [done|].
  apply get_raises in E3 as [m ->]. intros [= <-]. by eexists.
Qed.

Lemma fga_auth_middleware_401 authorization (w : OpenFga.world) e :
  next_is_client_side (OpenFga.replies w) →
  fst (OpenFga.auth_middleware authorization w) = Raise e →
  ∃ detail, e = HTTPException 401 detail.
Proof.
  intros Hclient. unfold OpenFga.auth_middleware.
  destruct authorization as [[|a header]|]; simpl; try (intros [= <-]; by eexists).
  unfold try_except. unfold mbind at 1, M_bind at 1. rewrite OpenFgaFacts.introspect_run.
  destruct (head (OpenFga.replies w)) as [[r|msg]|] eqn:Hr; simpl;
    try (intros [= <-]; by eexists).
  specialize (Hclient r Hr). unfold client_side in Hclient.
  destruct (status_code r =? 200)%Z; simpl; [|intros [= <-]; by eexists].
  unfold mbind, M_bind, lift.
  destruct (json r) as [token_info|[]]; simpl; try done;
    try (intros [= <-]; by eexists).
  destruct (Py.get token_info "active" (PBool false)) as [active|e1] eqn:E1; simpl.
  2: { apply get_raises in E1 as [m ->]. intros [= <-]. by eexists. }
  destruct (Py.truthy active); simpl; [|intros [= <-]; by eexists].
  destruct (Py.get token_info "preferred_username" PNone) as [?|e0] eqn:E0; simpl.
  2: { apply get_raises in E0 as [m ->]. intros [= <-]. by eexists. }
  destruct (Py.get token_info "client_id" (PStr "unknown")) as [?|e2] eqn:E2; simpl.
  2: { apply get_raises in E2 as [m ->]. intros [= <-]. by eexists. }
  destruct (Py.get token_info "scope" (PStr "")) as [?|e3] eqn:E3; simpl; [done|].
  apply get_raises in E3 as [m ->]. intros [= <-]. by eexists.
Qed.

(** X16.  Verification fails with 401 and nothing else, in both services:
    whatever Hydra does, answers or makes the client raise,
    [auth_middleware] raises no other status and lets no other exception
    through.  Without a header, or with an empty one, it fails before any
    call is made. *)
Theorem auth_middleware_only_401 :
  (∀ authorization wo e,
     next_is_client_side (Opa.replies wo) →
     fst (Opa.auth_middleware authorization wo) = Raise e →
     ∃ detail, e = HTTPException 401 detail) ∧
  (∀ authorization wf e,
     next_is_client_side (OpenFga.replies wf) →
     fst (OpenFga.auth_middleware authorization wf) = Raise e →
     ∃ detail, e = HTTPException 401 detail) ∧
  (∀ authorization wo wf,
     authorization = None ∨ authorization = Some "" →
     Opa.auth_middleware authorization wo = (Raise (HTTPException 401 "Missing token"), wo) ∧
     OpenFga.auth_middleware authorization wf =
       (Raise (HTTPException 401 "Missing token"), wf)).
Proof.
  split; [exact opa_auth_middleware_401|]. split; [exact fga_auth_middleware_401|].
  by intros authorization wo wf [->| ->].
Qed.

Lemma auth_middleware_only_401_witness :
  (∃ detail,
     fst (Opa.auth_middleware (Some "Bearer t0")
            {| Opa.replies := [Answer {| status_code := 200; json := Ok (PList []);
                                         text := "" |}];
               Opa.sent := []; Opa.utcnow := "" |})
       = Raise (HTTPException 401 detail)) ∧
  OpenFga.auth_middleware (Some "") OpenFga.fresh =
    (Raise (HTTPException 401 "Missing token"), OpenFga.fresh).
Proof.
  destruct auth_middleware_only_401 as (Ho & _ & Hmissing).
  split.
  - destruct (Ho (Some "Bearer t0")
                {| Opa.replies := [Answer {| status_code := 200; json := Ok (PList []);
                                             text := "" |}];
                   Opa.sent := []; Opa.utcnow := "" |}
                (HTTPException 401 "Invalid token: 'list' object has no attribute 'get'"))
      as [detail Hd]; [by intros r [= <-] | reflexivity |].
    exists "Invalid token: 'list' object has no attribute 'get'". reflexivity.
  - apply (Hmissing (Some "") Opa.quiet OpenFga.fresh). by right.
Defined.

(** *** Strings *)

(** X17.  The store identifier [get_store_id] reads does not depend on the
    white space around the content of the file, white space beyond ASCII
    included: a file that holds a text between two runs of white space
    gives the identifier the file of the text alone gives, and stripping an
    identifier again changes nothing.  A file of white space alone gives
    the empty identifier, and [get_fga_client] then does what it does
    without a file: it takes the start-up value or fails. *)
Theorem read_store_id_stripped :
  (∀ pre s post,
     PyStr.spaces pre → PyStr.spaces post →
     OpenFga.read_store_id (OpenFga.Content (pre +:+ s +:+ post)) =
       OpenFga.read_store_id (OpenFga.Content s)) ∧
  (∀ f id, OpenFga.read_store_id f = Some id → PyStr.strip id = id) ∧
  (∀ s (w : OpenFga.world),
     PyStr.spaces s →
     OpenFga.read_store_id (OpenFga.Content s) = Some "" ∧
     fst (OpenFga.get_fga_client (OpenFga.with_file (OpenFga.Content s) w)) =
       fst (OpenFga.get_fga_client (OpenFga.with_file OpenFga.Missing w))).
Proof.
  split; [|split].
  - intros pre s post Hpre%StripFacts.blank_spaces Hpost%StripFacts.blank_spaces.
    simpl. by rewrite StripFacts.strip_app.
  - intros [|s|msg] id; simpl; try done. intros [= <-]. apply StripFacts.strip_strip.
  - intros s w Hs%StripFacts.blank_spaces.
    assert (OpenFga.read_store_id (OpenFga.Content s) = Some "") as E.
    { simpl. by rewrite StripFacts.strip_blank. }
    split; [done|].
    unfold OpenFga.get_fga_client, OpenFga.get_store_id, mbind, M_bind. simpl.
    destruct (OpenFga._fga_client w); [done|].
    simpl in E. injection E as ->. simpl.
    by destruct (OpenFga.OPENFGA_STORE_ID w) as [[|c id]|].
Qed.

Lemma read_store_id_stripped_witness :
  OpenFga.read_store_id
    (OpenFga.Content (String " " (String "009" PyStr.nbsp) +:+ "01HZX3K8Q0M9N5T7V2B4C6D8FG" +:+ String "010" "")) =
    Some "01HZX3K8Q0M9N5T7V2B4C6D8FG" ∧
  PyStr.strip "01HZX3K8Q0M9N5T7V2B4C6D8FG" = "01HZX3K8Q0M9N5T7V2B4C6D8FG" ∧
  fst (OpenFga.get_fga_client
         (OpenFga.with_file (OpenFga.Content (String "010" PyStr.nbsp)) OpenFga.fresh)) =
    fst (OpenFga.get_fga_client (OpenFga.with_file OpenFga.Missing OpenFga.fresh)).
Proof.
  destruct read_store_id_stripped as (Haround & Hagain & Hblank).
  split; [|split].
  - rewrite (Haround (String " " (String "009" PyStr.nbsp)) "01HZX3K8Q0M9N5T7V2B4C6D8FG" (String "010" "")).
    + reflexivity.
    + apply PyStr.spaces_one; [reflexivity|]. apply PyStr.spaces_one; [reflexivity|].
      apply PyStr.spaces_two; [reflexivity|]. apply PyStr.spaces_nil.
    + apply PyStr.spaces_one; [reflexivity|]. apply PyStr.spaces_nil.
  - apply (Hagain (OpenFga.Content "01HZX3K8Q0M9N5T7V2B4C6D8FG")). reflexivity.
  - apply Hblank. apply PyStr.spaces_one; [reflexivity|].
    apply PyStr.spaces_two; [reflexivity|]. apply PyStr.spaces_nil.
Defined.

Lemma lower_app (a b : string) :
  PyStr.lower (a +:+ b) = PyStr.lower a +:+ PyStr.lower b.
Proof. induction a as [|c a IH]; [done|]. simpl. by rewrite IH. Qed.

Lemma prefix_refl_app (p s : string) : String.prefix p (p +:+ s) = true.
Proof.
  induction p as [|c p IH]; simpl; [by destruct s|].
  destruct (ascii_dec c c); [done|congruence].
Qed.

Lemma contains_prefix (p s : string) :
  String.prefix p s = true → PyStr.contains p s = true.
Proof. intros Hp. destruct s; simpl in *; by rewrite Hp. Qed.

Lemma contains_app (p a b : string) : PyStr.contains p (a +:+ (p +:+ b)) = true.
Proof.
  induction a as [|c a IH].
  - change ("" +:+ (p +:+ b)) with (p +:+ b). apply contains_prefix, prefix_refl_app.
  - change (String c a +:+ (p +:+ b)) with (String c (a +:+ (p +:+ b))).
    simpl. rewrite IH. apply orb_true_r.
Qed.

(** X18.  The test for a duplicate does not depend on the case of letters:
    a write error whose text holds "already exists" in any capitals, as in
    "Already Exists", makes [grant_tuple] answer ["already_exists"]. *)
Theorem grant_tuple_any_case `{OpenFga.Engine} resource_id request_body
    (w w' : OpenFga.world) (c : OpenFga.client) (before found after : string) :
  OpenFga._fga_client w = Some c →
  OpenFga.sdk_write c (default PNone (request_body !! KStr "user"))
    (default (PStr "can_view") (request_body !! KStr "relation"))
    ("resource:" +:+ resource_id) w = (Raise (Exception (before +:+ found +:+ after)), w') →
  PyStr.lower found = "already exists" →
  ∃ response,
    OpenFga.grant_tuple resource_id request_body w = (Ok response, w') ∧
    Py.get response "status" PNone = Ok (PStr "already_exists").
Proof.
  intros Hc Hw Hfound.
  rewrite (OpenFgaFacts.grant_tuple_run _ _ _ _ Hc). cbv zeta. rewrite Hw. simpl.
  rewrite !lower_app, Hfound, contains_app. by eexists.
Qed.

Lemma grant_tuple_any_case_witness :
  ∃ response,
    @OpenFga.grant_tuple OpenFga.loud_engine "doc2" OpenFga.owner_for_bob OpenFga.running
      = (Ok response, OpenFga.running) ∧
    Py.get response "status" PNone = Ok (PStr "already_exists").
Proof.
  apply (@grant_tuple_any_case OpenFga.loud_engine "doc2" OpenFga.owner_for_bob
           OpenFga.running OpenFga.running
           {| OpenFga.api_url := "http://localhost:8080"; OpenFga.store_id := "store-A" |}
           "Tuple " "Already Exists" "").
  - reflexivity.
  - by vm_compute.
  - reflexivity.
Defined.

(** *** Credentials *)

(** X19.  [debug_credentials] gives both credentials or none.  When either
    file exists and cannot be read, the response of both services has
    [None] for the identifier and for the secret, whatever the other file
    holds, and the graph service reports both files as absent.  When both
    can be read, each credential is the content of its file without the
    white space around it, and the two services answer alike. *)
Theorem debug_credentials_all_or_nothing (id_file secret_file : OpenFga.file) :
  let unreadable f := ∃ msg, f = OpenFga.Unreadable msg in
  (unreadable id_file ∨ unreadable secret_file →
     ∃ ro rf,
       Credentials.opa_debug_credentials id_file secret_file = Ok ro ∧
       Credentials.openfga_debug_credentials id_file secret_file = Ok rf ∧
       Py.get ro "client_id" (PStr "?") = Ok PNone ∧
       Py.get ro "client_secret" (PStr "?") = Ok PNone ∧
       Py.get rf "client_id" (PStr "?") = Ok PNone ∧
       Py.get rf "client_secret" (PStr "?") = Ok PNone ∧
       Py.get rf "client_id_file_exists" PNone = Ok (PBool false) ∧
       Py.get rf "client_secret_file_exists" PNone = Ok (PBool false)) ∧
  (∀ id secret,
     id_file = OpenFga.Content id → secret_file = OpenFga.Content secret →
     ∃ r,
       Credentials.opa_debug_credentials id_file secret_file = Ok r ∧
       Credentials.openfga_debug_credentials id_file secret_file = Ok r ∧
       Py.get r "client_id" PNone = Ok (PStr (PyStr.strip id)) ∧
       Py.get r "client_secret" PNone = Ok (PStr (PyStr.strip secret))).
Proof.
  intros unreadable. split.
  - unfold Credentials.opa_debug_credentials, Credentials.openfga_debug_credentials,
      Credentials.read_credentials.
    intros [[msg ->]|[msg ->]]; simpl.
    + eexists _, _. repeat split.
    + destruct id_file; simpl; eexists _, _; repeat split.
  - intros id secret -> ->. eexists. repeat split.
Qed.

Lemma debug_credentials_all_or_nothing_witness :
  ∃ rf,
    Credentials.openfga_debug_credentials (OpenFga.Content "hydra-client")
      (OpenFga.Unreadable "Permission denied") = Ok rf ∧
    Py.get rf "client_id" (PStr "?") = Ok PNone ∧
    Py.get rf "client_id_file_exists" PNone = Ok (PBool false).
Proof.
  destruct (debug_credentials_all_or_nothing (OpenFga.Content "hydra-client")
              (OpenFga.Unreadable "Permission denied")) as [Hnone _].
  destruct Hnone as (ro & rf & _ & Hrf & _ & _ & Hid & _ & Hexists & _).
  - right. by eexists.
  - exists rf. split; [exact Hrf|]. split; [exact Hid | exact Hexists].
Defined.

End GatewayMore.
